(** * Trading 212 exit-tax estimator: a shallow embedding of the domain core

    The development follows the three Python modules that carry the
    business rules:

    - [instrument_db.py]: [InstrumentDB.normalize_isin], [InstrumentDB.load],
      [InstrumentDB.is_exit_tax], [InstrumentDB.get];
    - [exit_tax.py]: [_to_float], [_add_years], [_parse_datetime],
      [compute_exit_tax_from_positions];
    - [snapshot.py]: [_f], [load_positions], [write_snapshot_csv].

    Python values are modelled as follows.  A [str] is a Rocq [string]; its
    characters are 8-bit codes, the ASCII range behaving as in Python and the
    codes above 127 standing for caseless, non-blank text; [normalize_isin]
    is also given on Unicode text, a [str] being the list of its code points
    ([Unicode]).  A [float] is an
    IEEE-754 binary64 value of [SpecFloat].  A decoded JSON document is the
    inductive type [json]; a [dict] is the list of its items in iteration
    order.  A raised exception is the [Err] case of [result]. *)

From Stdlib Require Import ZArith List String Ascii Bool Lia.
From Stdlib Require Import Floats.SpecFloat.
From Stdlib Require Import DecimalString.
From Stdlib Require Import Permutation.
Import ListNotations.

Local Open Scope string_scope.
Local Open Scope Z_scope.
Local Set Warnings "-register-all,-notation-for-abbreviation".

(** ** Exceptions *)

Inductive exn : Type :=
| ValueError
| TypeError
| AttributeError
| OverflowError
| ZeroDivisionError.

Inductive result (A : Type) : Type :=
| Ok (a : A)
| Err (e : exn).

Arguments Ok {A} a.
Arguments Err {A} e.

Definition bind {A B : Type} (c : result A) (k : A -> result B) : result B :=
  match c with
  | Ok a => k a
  | Err e => Err e
  end.

Notation "x <- c ;; k" := (bind c (fun x => k))
  (at level 61, c at next level, right associativity).

(** ** Python strings *)

Module PyStr.

(** [str.isspace] on one character of the ASCII range: TAB, LF, VT, FF, CR,
    the four separators FS, GS, RS, US, and the blank. *)
Definition isspace (c : ascii) : bool :=
  let n := N_of_ascii c in
  ((9 <=? n) && (n <=? 13) || (28 <=? n) && (n <=? 32))%N.

Definition upper_char (c : ascii) : ascii :=
  let n := N_of_ascii c in
  if ((97 <=? n) && (n <=? 122))%N then ascii_of_N (n - 32) else c.

Definition lower_char (c : ascii) : ascii :=
  let n := N_of_ascii c in
  if ((65 <=? n) && (n <=? 90))%N then ascii_of_N (n + 32) else c.

Fixpoint upper (s : string) : string :=
  match s with
  | EmptyString => EmptyString
  | String c r => String (upper_char c) (upper r)
  end.

Fixpoint lower (s : string) : string :=
  match s with
  | EmptyString => EmptyString
  | String c r => String (lower_char c) (lower r)
  end.

Fixpoint lstrip (s : string) : string :=
  match s with
  | EmptyString => EmptyString
  | String c r => if isspace c then lstrip r else s
  end.

Fixpoint rstrip (s : string) : string :=
  match s with
  | EmptyString => EmptyString
  | String c r =>
      match rstrip r with
      | EmptyString => if isspace c then EmptyString else String c EmptyString
      | t => String c t
      end
  end.

(** [s.strip()] *)
Definition strip (s : string) : string := rstrip (lstrip s).

(** [s.split()] with no separator: the maximal runs of non-blank
    characters, in order.  [word] is the run read so far. *)
Fixpoint split_from (word s : string) : list string :=
  match s with
  | EmptyString =>
      match word with
      | EmptyString => []
      | _ => [word]
      end
  | String c r =>
      if isspace c then
        match word with
        | EmptyString => split_from EmptyString r
        | _ => word :: split_from EmptyString r
        end
      else split_from (word ++ String c EmptyString) r
  end.

Definition split (s : string) : list string := split_from EmptyString s.

(** [sep.join(parts)] *)
Definition join (sep : string) (parts : list string) : string :=
  String.concat sep parts.

(** [s.endswith(suffix)] *)
Definition endswith (s suffix : string) : bool :=
  let n := String.length s in
  let k := String.length suffix in
  (k <=? n)%nat && String.eqb (substring (n - k) k s) suffix.

(** [s[:-1]] *)
Definition drop_last (s : string) : string :=
  substring 0 (String.length s - 1) s.

(** Python truthiness of a string *)
Definition nonempty (s : string) : bool :=
  match s with
  | EmptyString => false
  | _ => true
  end.

(** The characters of [s] that are not blank, in order. *)
Fixpoint remove_spaces (s : string) : string :=
  match s with
  | EmptyString => EmptyString
  | String c r => if isspace c then remove_spaces r else String c (remove_spaces r)
  end.

Fixpoint no_space (s : string) : bool :=
  match s with
  | EmptyString => true
  | String c r => negb (isspace c) && no_space r
  end.

Fixpoint no_lower (s : string) : bool :=
  match s with
  | EmptyString => true
  | String c r =>
      negb ((97 <=? N_of_ascii c) && (N_of_ascii c <=? 122))%N && no_lower r
  end.

End PyStr.

(** ** Python strings over code points

    [str.strip], [str.upper] and [str.split] work on Unicode text, and an
    identifier handed to [normalize_isin] is any [str].  For that function a
    [str] is the list of its code points; the two character tables of the
    interpreter that it consults are written out. *)

Module Unicode.

Local Open Scope N_scope.
Local Open Scope list_scope.

(** A [str]: its code points, in order. *)
Definition text : Type := list N.

(** The code points of a string of the 8-bit model. *)
Fixpoint of_string (s : string) : text :=
  match s with
  | EmptyString => []
  | String c r => N_of_ascii c :: of_string r
  end.

(** [s.isascii()] *)
Fixpoint isascii (s : string) : bool :=
  match s with
  | EmptyString => true
  | String c r => (N_of_ascii c <? 128) && isascii r
  end.

(** The characters that [str.isspace] accepts; [strip()] and [split()]
    treat exactly these as blank. *)
Definition whitespace : list N :=
  [9; 10; 11; 12; 13; 28; 29; 30; 31; 32; 133; 160; 5760; 8192; 8193; 8194;
   8195; 8196; 8197; 8198; 8199; 8200; 8201; 8202; 8232; 8233; 8239; 8287;
   12288].

Definition isspace (c : N) : bool := existsb (N.eqb c) whitespace.

(** The characters that [str.upper] changes, each with its upper case
    ([chr(c).upper()], one to three characters), as the interpreter of
    CPython 3.11 has them from the Unicode Character Database 14.0.0. *)
Definition upper_table : list (N * text) :=
  [
   (97, [65]); (98, [66]); (99, [67]); (100, [68]); (101, [69]); (102, [70]);
   (103, [71]); (104, [72]); (105, [73]); (106, [74]); (107, [75]);
   (108, [76]); (109, [77]); (110, [78]); (111, [79]); (112, [80]);
   (113, [81]); (114, [82]); (115, [83]); (116, [84]); (117, [85]);
   (118, [86]); (119, [87]); (120, [88]); (121, [89]); (122, [90]);
   (181, [924]); (223, [83; 83]); (224, [192]); (225, [193]); (226, [194]);
   (227, [195]); (228, [196]); (229, [197]); (230, [198]); (231, [199]);
   (232, [200]); (233, [201]); (234, [202]); (235, [203]); (236, [204]);
   (237, [205]); (238, [206]); (239, [207]); (240, [208]); (241, [209]);
   (242, [210]); (243, [211]); (244, [212]); (245, [213]); (246, [214]);
   (248, [216]); (249, [217]); (250, [218]); (251, [219]); (252, [220]);
   (253, [221]); (254, [222]); (255, [376]); (257, [256]); (259, [258]);
   (261, [260]); (263, [262]); (265, [264]); (267, [266]); (269, [268]);
   (271, [270]); (273, [272]); (275, [274]); (277, [276]); (279, [278]);
   (281, [280]); (283, [282]); (285, [284]); (287, [286]); (289, [288]);
   (291, [290]); (293, [292]); (295, [294]); (297, [296]); (299, [298]);
   (301, [300]); (303, [302]); (305, [73]); (307, [306]); (309, [308]);
   (311, [310]); (314, [313]); (316, [315]); (318, [317]); (320, [319]);
   (322, [321]); (324, [323]); (326, [325]); (328, [327]); (329, [700; 78]);
   (331, [330]); (333, [332]); (335, [334]); (337, [336]); (339, [338]);
   (341, [340]); (343, [342]); (345, [344]); (347, [346]); (349, [348]);
   (351, [350]); (353, [352]); (355, [354]); (357, [356]); (359, [358]);
   (361, [360]); (363, [362]); (365, [364]); (367, [366]); (369, [368]);
   (371, [370]); (373, [372]); (375, [374]); (378, [377]); (380, [379]);
   (382, [381]); (383, [83]); (384, [579]); (387, [386]); (389, [388]);
   (392, [391]); (396, [395]); (402, [401]); (405, [502]); (409, [408]);
   (410, [573]); (414, [544]); (417, [416]); (419, [418]); (421, [420]);
   (424, [423]); (429, [428]); (432, [431]); (436, [435]); (438, [437]);
   (441, [440]); (445, [444]); (447, [503]); (453, [452]); (454, [452]);
   (456, [455]); (457, [455]); (459, [458]); (460, [458]); (462, [461]);
   (464, [463]); (466, [465]); (468, [467]); (470, [469]); (472, [471]);
   (474, [473]); (476, [475]); (477, [398]); (479, [478]); (481, [480]);
   (483, [482]); (485, [484]); (487, [486]); (489, [488]); (491, [490]);
   (493, [492]); (495, [494]); (496, [74; 780]); (498, [497]); (499, [497]);
   (501, [500]); (505, [504]); (507, [506]); (509, [508]); (511, [510]);
   (513, [512]); (515, [514]); (517, [516]); (519, [518]); (521, [520]);
   (523, [522]); (525, [524]); (527, [526]); (529, [528]); (531, [530]);
   (533, [532]); (535, [534]); (537, [536]); (539, [538]); (541, [540]);
   (543, [542]); (547, [546]); (549, [548]); (551, [550]); (553, [552]);
   (555, [554]); (557, [556]); (559, [558]); (561, [560]); (563, [562]);
   (572, [571]); (575, [11390]); (576, [11391]); (578, [577]); (583, [582]);
   (585, [584]); (587, [586]); (589, [588]); (591, [590]); (592, [11375]);
   (593, [11373]); (594, [11376]); (595, [385]); (596, [390]); (598, [393]);
   (599, [394]); (601, [399]); (603, [400]); (604, [42923]); (608, [403]);
   (609, [42924]); (611, [404]); (613, [42893]); (614, [42922]); (616, [407]);
   (617, [406]); (618, [42926]); (619, [11362]); (620, [42925]); (623, [412]);
   (625, [11374]); (626, [413]); (629, [415]); (637, [11364]); (640, [422]);
   (642, [42949]); (643, [425]); (647, [42929]); (648, [430]); (649, [580]);
   (650, [433]); (651, [434]); (652, [581]); (658, [439]); (669, [42930]);
   (670, [42928]); (837, [921]); (881, [880]); (883, [882]); (887, [886]);
   (891, [1021]); (892, [1022]); (893, [1023]); (912, [921; 776; 769]);
   (940, [902]); (941, [904]); (942, [905]); (943, [906]);
   (944, [933; 776; 769]); (945, [913]); (946, [914]); (947, [915]);
   (948, [916]); (949, [917]); (950, [918]); (951, [919]); (952, [920]);
   (953, [921]); (954, [922]); (955, [923]); (956, [924]); (957, [925]);
   (958, [926]); (959, [927]); (960, [928]); (961, [929]); (962, [931]);
   (963, [931]); (964, [932]); (965, [933]); (966, [934]); (967, [935]);
   (968, [936]); (969, [937]); (970, [938]); (971, [939]); (972, [908]);
   (973, [910]); (974, [911]); (976, [914]); (977, [920]); (981, [934]);
   (982, [928]); (983, [975]); (985, [984]); (987, [986]); (989, [988]);
   (991, [990]); (993, [992]); (995, [994]); (997, [996]); (999, [998]);
   (1001, [1000]); (1003, [1002]); (1005, [1004]); (1007, [1006]);
   (1008, [922]); (1009, [929]); (1010, [1017]); (1011, [895]); (1013, [917]);
   (1016, [1015]); (1019, [1018]); (1072, [1040]); (1073, [1041]);
   (1074, [1042]); (1075, [1043]); (1076, [1044]); (1077, [1045]);
   (1078, [1046]); (1079, [1047]); (1080, [1048]); (1081, [1049]);
   (1082, [1050]); (1083, [1051]); (1084, [1052]); (1085, [1053]);
   (1086, [1054]); (1087, [1055]); (1088, [1056]); (1089, [1057]);
   (1090, [1058]); (1091, [1059]); (1092, [1060]); (1093, [1061]);
   (1094, [1062]); (1095, [1063]); (1096, [1064]); (1097, [1065]);
   (1098, [1066]); (1099, [1067]); (1100, [1068]); (1101, [1069]);
   (1102, [1070]); (1103, [1071]); (1104, [1024]); (1105, [1025]);
   (1106, [1026]); (1107, [1027]); (1108, [1028]); (1109, [1029]);
   (1110, [1030]); (1111, [1031]); (1112, [1032]); (1113, [1033]);
   (1114, [1034]); (1115, [1035]); (1116, [1036]); (1117, [1037]);
   (1118, [1038]); (1119, [1039]); (1121, [1120]); (1123, [1122]);
   (1125, [1124]); (1127, [1126]); (1129, [1128]); (1131, [1130]);
   (1133, [1132]); (1135, [1134]); (1137, [1136]); (1139, [1138]);
   (1141, [1140]); (1143, [1142]); (1145, [1144]); (1147, [1146]);
   (1149, [1148]); (1151, [1150]); (1153, [1152]); (1163, [1162]);
   (1165, [1164]); (1167, [1166]); (1169, [1168]); (1171, [1170]);
   (1173, [1172]); (1175, [1174]); (1177, [1176]); (1179, [1178]);
   (1181, [1180]); (1183, [1182]); (1185, [1184]); (1187, [1186]);
   (1189, [1188]); (1191, [1190]); (1193, [1192]); (1195, [1194]);
   (1197, [1196]); (1199, [1198]); (1201, [1200]); (1203, [1202]);
   (1205, [1204]); (1207, [1206]); (1209, [1208]); (1211, [1210]);
   (1213, [1212]); (1215, [1214]); (1218, [1217]); (1220, [1219]);
   (1222, [1221]); (1224, [1223]); (1226, [1225]); (1228, [1227]);
   (1230, [1229]); (1231, [1216]); (1233, [1232]); (1235, [1234]);
   (1237, [1236]); (1239, [1238]); (1241, [1240]); (1243, [1242]);
   (1245, [1244]); (1247, [1246]); (1249, [1248]); (1251, [1250]);
   (1253, [1252]); (1255, [1254]); (1257, [1256]); (1259, [1258]);
   (1261, [1260]); (1263, [1262]); (1265, [1264]); (1267, [1266]);
   (1269, [1268]); (1271, [1270]); (1273, [1272]); (1275, [1274]);
   (1277, [1276]); (1279, [1278]); (1281, [1280]); (1283, [1282]);
   (1285, [1284]); (1287, [1286]); (1289, [1288]); (1291, [1290]);
   (1293, [1292]); (1295, [1294]); (1297, [1296]); (1299, [1298]);
   (1301, [1300]); (1303, [1302]); (1305, [1304]); (1307, [1306]);
   (1309, [1308]); (1311, [1310]); (1313, [1312]); (1315, [1314]);
   (1317, [1316]); (1319, [1318]); (1321, [1320]); (1323, [1322]);
   (1325, [1324]); (1327, [1326]); (1377, [1329]); (1378, [1330]);
   (1379, [1331]); (1380, [1332]); (1381, [1333]); (1382, [1334]);
   (1383, [1335]); (1384, [1336]); (1385, [1337]); (1386, [1338]);
   (1387, [1339]); (1388, [1340]); (1389, [1341]); (1390, [1342]);
   (1391, [1343]); (1392, [1344]); (1393, [1345]); (1394, [1346]);
   (1395, [1347]); (1396, [1348]); (1397, [1349]); (1398, [1350]);
   (1399, [1351]); (1400, [1352]); (1401, [1353]); (1402, [1354]);
   (1403, [1355]); (1404, [1356]); (1405, [1357]); (1406, [1358]);
   (1407, [1359]); (1408, [1360]); (1409, [1361]); (1410, [1362]);
   (1411, [1363]); (1412, [1364]); (1413, [1365]); (1414, [1366]);
   (1415, [1333; 1362]); (4304, [7312]); (4305, [7313]); (4306, [7314]);
   (4307, [7315]); (4308, [7316]); (4309, [7317]); (4310, [7318]);
   (4311, [7319]); (4312, [7320]); (4313, [7321]); (4314, [7322]);
   (4315, [7323]); (4316, [7324]); (4317, [7325]); (4318, [7326]);
   (4319, [7327]); (4320, [7328]); (4321, [7329]); (4322, [7330]);
   (4323, [7331]); (4324, [7332]); (4325, [7333]); (4326, [7334]);
   (4327, [7335]); (4328, [7336]); (4329, [7337]); (4330, [7338]);
   (4331, [7339]); (4332, [7340]); (4333, [7341]); (4334, [7342]);
   (4335, [7343]); (4336, [7344]); (4337, [7345]); (4338, [7346]);
   (4339, [7347]); (4340, [7348]); (4341, [7349]); (4342, [7350]);
   (4343, [7351]); (4344, [7352]); (4345, [7353]); (4346, [7354]);
   (4349, [7357]); (4350, [7358]); (4351, [7359]); (5112, [5104]);
   (5113, [5105]); (5114, [5106]); (5115, [5107]); (5116, [5108]);
   (5117, [5109]); (7296, [1042]); (7297, [1044]); (7298, [1054]);
   (7299, [1057]); (7300, [1058]); (7301, [1058]); (7302, [1066]);
   (7303, [1122]); (7304, [42570]); (7545, [42877]); (7549, [11363]);
   (7566, [42950]); (7681, [7680]); (7683, [7682]); (7685, [7684]);
   (7687, [7686]); (7689, [7688]); (7691, [7690]); (7693, [7692]);
   (7695, [7694]); (7697, [7696]); (7699, [7698]); (7701, [7700]);
   (7703, [7702]); (7705, [7704]); (7707, [7706]); (7709, [7708]);
   (7711, [7710]); (7713, [7712]); (7715, [7714]); (7717, [7716]);
   (7719, [7718]); (7721, [7720]); (7723, [7722]); (7725, [7724]);
   (7727, [7726]); (7729, [7728]); (7731, [7730]); (7733, [7732]);
   (7735, [7734]); (7737, [7736]); (7739, [7738]); (7741, [7740]);
   (7743, [7742]); (7745, [7744]); (7747, [7746]); (7749, [7748]);
   (7751, [7750]); (7753, [7752]); (7755, [7754]); (7757, [7756]);
   (7759, [7758]); (7761, [7760]); (7763, [7762]); (7765, [7764]);
   (7767, [7766]); (7769, [7768]); (7771, [7770]); (7773, [7772]);
   (7775, [7774]); (7777, [7776]); (7779, [7778]); (7781, [7780]);
   (7783, [7782]); (7785, [7784]); (7787, [7786]); (7789, [7788]);
   (7791, [7790]); (7793, [7792]); (7795, [7794]); (7797, [7796]);
   (7799, [7798]); (7801, [7800]); (7803, [7802]); (7805, [7804]);
   (7807, [7806]); (7809, [7808]); (7811, [7810]); (7813, [7812]);
   (7815, [7814]); (7817, [7816]); (7819, [7818]); (7821, [7820]);
   (7823, [7822]); (7825, [7824]); (7827, [7826]); (7829, [7828]);
   (7830, [72; 817]); (7831, [84; 776]); (7832, [87; 778]); (7833, [89; 778]);
   (7834, [65; 702]); (7835, [7776]); (7841, [7840]); (7843, [7842]);
   (7845, [7844]); (7847, [7846]); (7849, [7848]); (7851, [7850]);
   (7853, [7852]); (7855, [7854]); (7857, [7856]); (7859, [7858]);
   (7861, [7860]); (7863, [7862]); (7865, [7864]); (7867, [7866]);
   (7869, [7868]); (7871, [7870]); (7873, [7872]); (7875, [7874]);
   (7877, [7876]); (7879, [7878]); (7881, [7880]); (7883, [7882]);
   (7885, [7884]); (7887, [7886]); (7889, [7888]); (7891, [7890]);
   (7893, [7892]); (7895, [7894]); (7897, [7896]); (7899, [7898]);
   (7901, [7900]); (7903, [7902]); (7905, [7904]); (7907, [7906]);
   (7909, [7908]); (7911, [7910]); (7913, [7912]); (7915, [7914]);
   (7917, [7916]); (7919, [7918]); (7921, [7920]); (7923, [7922]);
   (7925, [7924]); (7927, [7926]); (7929, [7928]); (7931, [7930]);
   (7933, [7932]); (7935, [7934]); (7936, [7944]); (7937, [7945]);
   (7938, [7946]); (7939, [7947]); (7940, [7948]); (7941, [7949]);
   (7942, [7950]); (7943, [7951]); (7952, [7960]); (7953, [7961]);
   (7954, [7962]); (7955, [7963]); (7956, [7964]); (7957, [7965]);
   (7968, [7976]); (7969, [7977]); (7970, [7978]); (7971, [7979]);
   (7972, [7980]); (7973, [7981]); (7974, [7982]); (7975, [7983]);
   (7984, [7992]); (7985, [7993]); (7986, [7994]); (7987, [7995]);
   (7988, [7996]); (7989, [7997]); (7990, [7998]); (7991, [7999]);
   (8000, [8008]); (8001, [8009]); (8002, [8010]); (8003, [8011]);
   (8004, [8012]); (8005, [8013]); (8016, [933; 787]); (8017, [8025]);
   (8018, [933; 787; 768]); (8019, [8027]); (8020, [933; 787; 769]);
   (8021, [8029]); (8022, [933; 787; 834]); (8023, [8031]); (8032, [8040]);
   (8033, [8041]); (8034, [8042]); (8035, [8043]); (8036, [8044]);
   (8037, [8045]); (8038, [8046]); (8039, [8047]); (8048, [8122]);
   (8049, [8123]); (8050, [8136]); (8051, [8137]); (8052, [8138]);
   (8053, [8139]); (8054, [8154]); (8055, [8155]); (8056, [8184]);
   (8057, [8185]); (8058, [8170]); (8059, [8171]); (8060, [8186]);
   (8061, [8187]); (8064, [7944; 921]); (8065, [7945; 921]);
   (8066, [7946; 921]); (8067, [7947; 921]); (8068, [7948; 921]);
   (8069, [7949; 921]); (8070, [7950; 921]); (8071, [7951; 921]);
   (8072, [7944; 921]); (8073, [7945; 921]); (8074, [7946; 921]);
   (8075, [7947; 921]); (8076, [7948; 921]); (8077, [7949; 921]);
   (8078, [7950; 921]); (8079, [7951; 921]); (8080, [7976; 921]);
   (8081, [7977; 921]); (8082, [7978; 921]); (8083, [7979; 921]);
   (8084, [7980; 921]); (8085, [7981; 921]); (8086, [7982; 921]);
   (8087, [7983; 921]); (8088, [7976; 921]); (8089, [7977; 921]);
   (8090, [7978; 921]); (8091, [7979; 921]); (8092, [7980; 921]);
   (8093, [7981; 921]); (8094, [7982; 921]); (8095, [7983; 921]);
   (8096, [8040; 921]); (8097, [8041; 921]); (8098, [8042; 921]);
   (8099, [8043; 921]); (8100, [8044; 921]); (8101, [8045; 921]);
   (8102, [8046; 921]); (8103, [8047; 921]); (8104, [8040; 921]);
   (8105, [8041; 921]); (8106, [8042; 921]); (8107, [8043; 921]);
   (8108, [8044; 921]); (8109, [8045; 921]); (8110, [8046; 921]);
   (8111, [8047; 921]); (8112, [8120]); (8113, [8121]); (8114, [8122; 921]);
   (8115, [913; 921]); (8116, [902; 921]); (8118, [913; 834]);
   (8119, [913; 834; 921]); (8124, [913; 921]); (8126, [921]);
   (8130, [8138; 921]); (8131, [919; 921]); (8132, [905; 921]);
   (8134, [919; 834]); (8135, [919; 834; 921]); (8140, [919; 921]);
   (8144, [8152]); (8145, [8153]); (8146, [921; 776; 768]);
   (8147, [921; 776; 769]); (8150, [921; 834]); (8151, [921; 776; 834]);
   (8160, [8168]); (8161, [8169]); (8162, [933; 776; 768]);
   (8163, [933; 776; 769]); (8164, [929; 787]); (8165, [8172]);
   (8166, [933; 834]); (8167, [933; 776; 834]); (8178, [8186; 921]);
   (8179, [937; 921]); (8180, [911; 921]); (8182, [937; 834]);
   (8183, [937; 834; 921]); (8188, [937; 921]); (8526, [8498]);
   (8560, [8544]); (8561, [8545]); (8562, [8546]); (8563, [8547]);
   (8564, [8548]); (8565, [8549]); (8566, [8550]); (8567, [8551]);
   (8568, [8552]); (8569, [8553]); (8570, [8554]); (8571, [8555]);
   (8572, [8556]); (8573, [8557]); (8574, [8558]); (8575, [8559]);
   (8580, [8579]); (9424, [9398]); (9425, [9399]); (9426, [9400]);
   (9427, [9401]); (9428, [9402]); (9429, [9403]); (9430, [9404]);
   (9431, [9405]); (9432, [9406]); (9433, [9407]); (9434, [9408]);
   (9435, [9409]); (9436, [9410]); (9437, [9411]); (9438, [9412]);
   (9439, [9413]); (9440, [9414]); (9441, [9415]); (9442, [9416]);
   (9443, [9417]); (9444, [9418]); (9445, [9419]); (9446, [9420]);
   (9447, [9421]); (9448, [9422]); (9449, [9423]); (11312, [11264]);
   (11313, [11265]); (11314, [11266]); (11315, [11267]); (11316, [11268]);
   (11317, [11269]); (11318, [11270]); (11319, [11271]); (11320, [11272]);
   (11321, [11273]); (11322, [11274]); (11323, [11275]); (11324, [11276]);
   (11325, [11277]); (11326, [11278]); (11327, [11279]); (11328, [11280]);
   (11329, [11281]); (11330, [11282]); (11331, [11283]); (11332, [11284]);
   (11333, [11285]); (11334, [11286]); (11335, [11287]); (11336, [11288]);
   (11337, [11289]); (11338, [11290]); (11339, [11291]); (11340, [11292]);
   (11341, [11293]); (11342, [11294]); (11343, [11295]); (11344, [11296]);
   (11345, [11297]); (11346, [11298]); (11347, [11299]); (11348, [11300]);
   (11349, [11301]); (11350, [11302]); (11351, [11303]); (11352, [11304]);
   (11353, [11305]); (11354, [11306]); (11355, [11307]); (11356, [11308]);
   (11357, [11309]); (11358, [11310]); (11359, [11311]); (11361, [11360]);
   (11365, [570]); (11366, [574]); (11368, [11367]); (11370, [11369]);
   (11372, [11371]); (11379, [11378]); (11382, [11381]); (11393, [11392]);
   (11395, [11394]); (11397, [11396]); (11399, [11398]); (11401, [11400]);
   (11403, [11402]); (11405, [11404]); (11407, [11406]); (11409, [11408]);
   (11411, [11410]); (11413, [11412]); (11415, [11414]); (11417, [11416]);
   (11419, [11418]); (11421, [11420]); (11423, [11422]); (11425, [11424]);
   (11427, [11426]); (11429, [11428]); (11431, [11430]); (11433, [11432]);
   (11435, [11434]); (11437, [11436]); (11439, [11438]); (11441, [11440]);
   (11443, [11442]); (11445, [11444]); (11447, [11446]); (11449, [11448]);
   (11451, [11450]); (11453, [11452]); (11455, [11454]); (11457, [11456]);
   (11459, [11458]); (11461, [11460]); (11463, [11462]); (11465, [11464]);
   (11467, [11466]); (11469, [11468]); (11471, [11470]); (11473, [11472]);
   (11475, [11474]); (11477, [11476]); (11479, [11478]); (11481, [11480]);
   (11483, [11482]); (11485, [11484]); (11487, [11486]); (11489, [11488]);
   (11491, [11490]); (11500, [11499]); (11502, [11501]); (11507, [11506]);
   (11520, [4256]); (11521, [4257]); (11522, [4258]); (11523, [4259]);
   (11524, [4260]); (11525, [4261]); (11526, [4262]); (11527, [4263]);
   (11528, [4264]); (11529, [4265]); (11530, [4266]); (11531, [4267]);
   (11532, [4268]); (11533, [4269]); (11534, [4270]); (11535, [4271]);
   (11536, [4272]); (11537, [4273]); (11538, [4274]); (11539, [4275]);
   (11540, [4276]); (11541, [4277]); (11542, [4278]); (11543, [4279]);
   (11544, [4280]); (11545, [4281]); (11546, [4282]); (11547, [4283]);
   (11548, [4284]); (11549, [4285]); (11550, [4286]); (11551, [4287]);
   (11552, [4288]); (11553, [4289]); (11554, [4290]); (11555, [4291]);
   (11556, [4292]); (11557, [4293]); (11559, [4295]); (11565, [4301]);
   (42561, [42560]); (42563, [42562]); (42565, [42564]); (42567, [42566]);
   (42569, [42568]); (42571, [42570]); (42573, [42572]); (42575, [42574]);
   (42577, [42576]); (42579, [42578]); (42581, [42580]); (42583, [42582]);
   (42585, [42584]); (42587, [42586]); (42589, [42588]); (42591, [42590]);
   (42593, [42592]); (42595, [42594]); (42597, [42596]); (42599, [42598]);
   (42601, [42600]); (42603, [42602]); (42605, [42604]); (42625, [42624]);
   (42627, [42626]); (42629, [42628]); (42631, [42630]); (42633, [42632]);
   (42635, [42634]); (42637, [42636]); (42639, [42638]); (42641, [42640]);
   (42643, [42642]); (42645, [42644]); (42647, [42646]); (42649, [42648]);
   (42651, [42650]); (42787, [42786]); (42789, [42788]); (42791, [42790]);
   (42793, [42792]); (42795, [42794]); (42797, [42796]); (42799, [42798]);
   (42803, [42802]); (42805, [42804]); (42807, [42806]); (42809, [42808]);
   (42811, [42810]); (42813, [42812]); (42815, [42814]); (42817, [42816]);
   (42819, [42818]); (42821, [42820]); (42823, [42822]); (42825, [42824]);
   (42827, [42826]); (42829, [42828]); (42831, [42830]); (42833, [42832]);
   (42835, [42834]); (42837, [42836]); (42839, [42838]); (42841, [42840]);
   (42843, [42842]); (42845, [42844]); (42847, [42846]); (42849, [42848]);
   (42851, [42850]); (42853, [42852]); (42855, [42854]); (42857, [42856]);
   (42859, [42858]); (42861, [42860]); (42863, [42862]); (42874, [42873]);
   (42876, [42875]); (42879, [42878]); (42881, [42880]); (42883, [42882]);
   (42885, [42884]); (42887, [42886]); (42892, [42891]); (42897, [42896]);
   (42899, [42898]); (42900, [42948]); (42903, [42902]); (42905, [42904]);
   (42907, [42906]); (42909, [42908]); (42911, [42910]); (42913, [42912]);
   (42915, [42914]); (42917, [42916]); (42919, [42918]); (42921, [42920]);
   (42933, [42932]); (42935, [42934]); (42937, [42936]); (42939, [42938]);
   (42941, [42940]); (42943, [42942]); (42945, [42944]); (42947, [42946]);
   (42952, [42951]); (42954, [42953]); (42961, [42960]); (42967, [42966]);
   (42969, [42968]); (42998, [42997]); (43859, [42931]); (43888, [5024]);
   (43889, [5025]); (43890, [5026]); (43891, [5027]); (43892, [5028]);
   (43893, [5029]); (43894, [5030]); (43895, [5031]); (43896, [5032]);
   (43897, [5033]); (43898, [5034]); (43899, [5035]); (43900, [5036]);
   (43901, [5037]); (43902, [5038]); (43903, [5039]); (43904, [5040]);
   (43905, [5041]); (43906, [5042]); (43907, [5043]); (43908, [5044]);
   (43909, [5045]); (43910, [5046]); (43911, [5047]); (43912, [5048]);
   (43913, [5049]); (43914, [5050]); (43915, [5051]); (43916, [5052]);
   (43917, [5053]); (43918, [5054]); (43919, [5055]); (43920, [5056]);
   (43921, [5057]); (43922, [5058]); (43923, [5059]); (43924, [5060]);
   (43925, [5061]); (43926, [5062]); (43927, [5063]); (43928, [5064]);
   (43929, [5065]); (43930, [5066]); (43931, [5067]); (43932, [5068]);
   (43933, [5069]); (43934, [5070]); (43935, [5071]); (43936, [5072]);
   (43937, [5073]); (43938, [5074]); (43939, [5075]); (43940, [5076]);
   (43941, [5077]); (43942, [5078]); (43943, [5079]); (43944, [5080]);
   (43945, [5081]); (43946, [5082]); (43947, [5083]); (43948, [5084]);
   (43949, [5085]); (43950, [5086]); (43951, [5087]); (43952, [5088]);
   (43953, [5089]); (43954, [5090]); (43955, [5091]); (43956, [5092]);
   (43957, [5093]); (43958, [5094]); (43959, [5095]); (43960, [5096]);
   (43961, [5097]); (43962, [5098]); (43963, [5099]); (43964, [5100]);
   (43965, [5101]); (43966, [5102]); (43967, [5103]); (64256, [70; 70]);
   (64257, [70; 73]); (64258, [70; 76]); (64259, [70; 70; 73]);
   (64260, [70; 70; 76]); (64261, [83; 84]); (64262, [83; 84]);
   (64275, [1348; 1350]); (64276, [1348; 1333]); (64277, [1348; 1339]);
   (64278, [1358; 1350]); (64279, [1348; 1341]); (65345, [65313]);
   (65346, [65314]); (65347, [65315]); (65348, [65316]); (65349, [65317]);
   (65350, [65318]); (65351, [65319]); (65352, [65320]); (65353, [65321]);
   (65354, [65322]); (65355, [65323]); (65356, [65324]); (65357, [65325]);
   (65358, [65326]); (65359, [65327]); (65360, [65328]); (65361, [65329]);
   (65362, [65330]); (65363, [65331]); (65364, [65332]); (65365, [65333]);
   (65366, [65334]); (65367, [65335]); (65368, [65336]); (65369, [65337]);
   (65370, [65338]); (66600, [66560]); (66601, [66561]); (66602, [66562]);
   (66603, [66563]); (66604, [66564]); (66605, [66565]); (66606, [66566]);
   (66607, [66567]); (66608, [66568]); (66609, [66569]); (66610, [66570]);
   (66611, [66571]); (66612, [66572]); (66613, [66573]); (66614, [66574]);
   (66615, [66575]); (66616, [66576]); (66617, [66577]); (66618, [66578]);
   (66619, [66579]); (66620, [66580]); (66621, [66581]); (66622, [66582]);
   (66623, [66583]); (66624, [66584]); (66625, [66585]); (66626, [66586]);
   (66627, [66587]); (66628, [66588]); (66629, [66589]); (66630, [66590]);
   (66631, [66591]); (66632, [66592]); (66633, [66593]); (66634, [66594]);
   (66635, [66595]); (66636, [66596]); (66637, [66597]); (66638, [66598]);
   (66639, [66599]); (66776, [66736]); (66777, [66737]); (66778, [66738]);
   (66779, [66739]); (66780, [66740]); (66781, [66741]); (66782, [66742]);
   (66783, [66743]); (66784, [66744]); (66785, [66745]); (66786, [66746]);
   (66787, [66747]); (66788, [66748]); (66789, [66749]); (66790, [66750]);
   (66791, [66751]); (66792, [66752]); (66793, [66753]); (66794, [66754]);
   (66795, [66755]); (66796, [66756]); (66797, [66757]); (66798, [66758]);
   (66799, [66759]); (66800, [66760]); (66801, [66761]); (66802, [66762]);
   (66803, [66763]); (66804, [66764]); (66805, [66765]); (66806, [66766]);
   (66807, [66767]); (66808, [66768]); (66809, [66769]); (66810, [66770]);
   (66811, [66771]); (66967, [66928]); (66968, [66929]); (66969, [66930]);
   (66970, [66931]); (66971, [66932]); (66972, [66933]); (66973, [66934]);
   (66974, [66935]); (66975, [66936]); (66976, [66937]); (66977, [66938]);
   (66979, [66940]); (66980, [66941]); (66981, [66942]); (66982, [66943]);
   (66983, [66944]); (66984, [66945]); (66985, [66946]); (66986, [66947]);
   (66987, [66948]); (66988, [66949]); (66989, [66950]); (66990, [66951]);
   (66991, [66952]); (66992, [66953]); (66993, [66954]); (66995, [66956]);
   (66996, [66957]); (66997, [66958]); (66998, [66959]); (66999, [66960]);
   (67000, [66961]); (67001, [66962]); (67003, [66964]); (67004, [66965]);
   (68800, [68736]); (68801, [68737]); (68802, [68738]); (68803, [68739]);
   (68804, [68740]); (68805, [68741]); (68806, [68742]); (68807, [68743]);
   (68808, [68744]); (68809, [68745]); (68810, [68746]); (68811, [68747]);
   (68812, [68748]); (68813, [68749]); (68814, [68750]); (68815, [68751]);
   (68816, [68752]); (68817, [68753]); (68818, [68754]); (68819, [68755]);
   (68820, [68756]); (68821, [68757]); (68822, [68758]); (68823, [68759]);
   (68824, [68760]); (68825, [68761]); (68826, [68762]); (68827, [68763]);
   (68828, [68764]); (68829, [68765]); (68830, [68766]); (68831, [68767]);
   (68832, [68768]); (68833, [68769]); (68834, [68770]); (68835, [68771]);
   (68836, [68772]); (68837, [68773]); (68838, [68774]); (68839, [68775]);
   (68840, [68776]); (68841, [68777]); (68842, [68778]); (68843, [68779]);
   (68844, [68780]); (68845, [68781]); (68846, [68782]); (68847, [68783]);
   (68848, [68784]); (68849, [68785]); (68850, [68786]); (71872, [71840]);
   (71873, [71841]); (71874, [71842]); (71875, [71843]); (71876, [71844]);
   (71877, [71845]); (71878, [71846]); (71879, [71847]); (71880, [71848]);
   (71881, [71849]); (71882, [71850]); (71883, [71851]); (71884, [71852]);
   (71885, [71853]); (71886, [71854]); (71887, [71855]); (71888, [71856]);
   (71889, [71857]); (71890, [71858]); (71891, [71859]); (71892, [71860]);
   (71893, [71861]); (71894, [71862]); (71895, [71863]); (71896, [71864]);
   (71897, [71865]); (71898, [71866]); (71899, [71867]); (71900, [71868]);
   (71901, [71869]); (71902, [71870]); (71903, [71871]); (93792, [93760]);
   (93793, [93761]); (93794, [93762]); (93795, [93763]); (93796, [93764]);
   (93797, [93765]); (93798, [93766]); (93799, [93767]); (93800, [93768]);
   (93801, [93769]); (93802, [93770]); (93803, [93771]); (93804, [93772]);
   (93805, [93773]); (93806, [93774]); (93807, [93775]); (93808, [93776]);
   (93809, [93777]); (93810, [93778]); (93811, [93779]); (93812, [93780]);
   (93813, [93781]); (93814, [93782]); (93815, [93783]); (93816, [93784]);
   (93817, [93785]); (93818, [93786]); (93819, [93787]); (93820, [93788]);
   (93821, [93789]); (93822, [93790]); (93823, [93791]); (125218, [125184]);
   (125219, [125185]); (125220, [125186]); (125221, [125187]);
   (125222, [125188]); (125223, [125189]); (125224, [125190]);
   (125225, [125191]); (125226, [125192]); (125227, [125193]);
   (125228, [125194]); (125229, [125195]); (125230, [125196]);
   (125231, [125197]); (125232, [125198]); (125233, [125199]);
   (125234, [125200]); (125235, [125201]); (125236, [125202]);
   (125237, [125203]); (125238, [125204]); (125239, [125205]);
   (125240, [125206]); (125241, [125207]); (125242, [125208]);
   (125243, [125209]); (125244, [125210]); (125245, [125211]);
   (125246, [125212]); (125247, [125213]); (125248, [125214]);
   (125249, [125215]); (125250, [125216]); (125251, [125217])
  ].

Fixpoint assoc (c : N) (t : list (N * text)) : option text :=
  match t with
  | [] => None
  | (k, u) :: rest => if c =? k then Some u else assoc c rest
  end.

(** [c.upper()] for a single character [c] *)
Definition upper_char (c : N) : text :=
  match assoc c upper_table with
  | Some u => u
  | None => [c]
  end.

Section WithCaseTable.

(** [upper_of c] is [c.upper()] for a single character [c]: [upper_char]
    above, or the table of another version of the character database. *)
Variable upper_of : N -> text.

(** [s.upper()]: the upper case of each character, in order. *)
Definition upper (s : text) : text := flat_map upper_of s.

Fixpoint lstrip (s : text) : text :=
  match s with
  | [] => []
  | c :: r => if isspace c then lstrip r else s
  end.

Fixpoint rstrip (s : text) : text :=
  match s with
  | [] => []
  | c :: r =>
      match rstrip r with
      | [] => if isspace c then [] else [c]
      | t => c :: t
      end
  end.

(** [s.strip()] *)
Definition strip (s : text) : text := rstrip (lstrip s).

(** [s.split()] with no separator: the maximal runs of characters that are
    not whitespace, in order.  [word] is the run read so far. *)
Fixpoint split_from (word s : text) : list text :=
  match s with
  | [] =>
      match word with
      | [] => []
      | _ => [word]
      end
  | c :: r =>
      if isspace c then
        match word with
        | [] => split_from [] r
        | _ => word :: split_from [] r
        end
      else split_from (word ++ [c]) r
  end.

Definition split (s : text) : list text := split_from [] s.

(** [sep.join(parts)] *)
Fixpoint join (sep : text) (parts : list text) : text :=
  match parts with
  | [] => []
  | p :: rest =>
      match rest with
      | [] => p
      | _ => p ++ sep ++ join sep rest
      end
  end.

(** [InstrumentDB.normalize_isin] on [None] and on a [str] (on which
    [str(isin)] is the identity). *)
Definition normalize_isin (isin : option text) : text :=
  match isin with
  | None => []
  | Some s => join [] (split (upper (strip s)))
  end.

(** The characters of [s] that are not whitespace, in order. *)
Fixpoint remove_spaces (s : text) : text :=
  match s with
  | [] => []
  | c :: r => if isspace c then remove_spaces r else c :: remove_spaces r
  end.

End WithCaseTable.

End Unicode.

(** ** Python floats *)

Definition float : Type := spec_float.

Module PyFloat.

Definition prec : Z := 53.
Definition emax : Z := 1024.

Definition zero : float := S754_zero false.
Definition one : float := S754_finite false 4503599627370496 (-52).

Definition sub : float -> float -> float := SFsub prec emax.
Definition mul : float -> float -> float := SFmul prec emax.
Definition div : float -> float -> float := SFdiv prec emax.

(** [a == b], [a < b], [a > b] and [a <= b] *)
Definition eqb (a b : float) : bool := SFeqb a b.
Definition ltb (a b : float) : bool := SFltb a b.
Definition gtb (a b : float) : bool := SFltb b a.
Definition leb (a b : float) : bool := SFleb a b.

(** [float(n)] for an [int]: the nearest binary64 value, ties to even;
    [OverflowError] when it is out of range. *)
Definition of_int (n : Z) : result float :=
  match binary_normalize prec emax n 0 false with
  | S754_infinity _ => Err OverflowError
  | f => Ok f
  end.

(** [max(a, b)] of the builtins: [a] unless [b > a]. *)
Definition max (a b : float) : float := if gtb b a then b else a.

(** [a / b]: [ZeroDivisionError] when [b == 0]. *)
Definition truediv (a b : float) : result float :=
  if eqb b zero then Err ZeroDivisionError else Ok (div a b).

End PyFloat.


(** ** Decoded JSON documents

    What [json.loads] returns: [None], [bool], [int], [float], [str], [list]
    and [dict].  A [dict] is the list of its items in iteration order; a
    lookup takes the first item under the key, an assignment replaces the
    value in place or appends a new item. *)

Inductive json : Type :=
| JNull
| JBool (b : bool)
| JInt (n : Z)
| JFloat (f : float)
| JStr (s : string)
| JList (items : list json)
| JDict (items : list (string * json)).

Module PyDict.

Section Ops.
Context {V : Type}.

(** [d.get(k)] *)
Fixpoint get (d : list (string * V)) (k : string) : option V :=
  match d with
  | [] => None
  | (k', v) :: rest => if String.eqb k' k then Some v else get rest k
  end.

(** [d[k] = v] *)
Fixpoint set (d : list (string * V)) (k : string) (v : V) : list (string * V) :=
  match d with
  | [] => [(k, v)]
  | (k', v') :: rest =>
      if String.eqb k' k then (k', v) :: rest else (k', v') :: set rest k v
  end.

(** [d.keys()] *)
Definition keys (d : list (string * V)) : list string := map fst d.

End Ops.

End PyDict.

Module Json.

(** Truth value of a decoded value, as [or], [not] and [if] test it. *)
Definition truthy (v : json) : bool :=
  match v with
  | JNull => false
  | JBool b => b
  | JInt n => negb (n =? 0)
  | JFloat f => negb (PyFloat.eqb f PyFloat.zero)
  | JStr s => PyStr.nonempty s
  | JList items => match items with [] => false | _ => true end
  | JDict items => match items with [] => false | _ => true end
  end.

(** [a or b] *)
Definition or_else (a b : json) : json := if truthy a then a else b.

(** [obj.get(key, default)]: only a [dict] has the method. *)
Definition get (obj : json) (key : string) (default : json) : result json :=
  match obj with
  | JDict items =>
      match PyDict.get items key with
      | Some v => Ok v
      | None => Ok default
      end
  | _ => Err AttributeError
  end.

(** [str(v)].  [repr_other] stands for the interpreter's text of a [float],
    a [list] or a [dict], which no function of the repository inspects. *)
Definition str (repr_other : json -> string) (v : json) : string :=
  match v with
  | JStr s => s
  | JNull => "None"
  | JBool true => "True"
  | JBool false => "False"
  | JInt n => NilZero.string_of_int (Z.to_int n)
  | _ => repr_other v
  end.

(** The values a [for] loop over a decoded document visits. *)
Definition iter (v : json) : result (list json) :=
  match v with
  | JList items => Ok items
  | JDict items => Ok (map (fun kv => JStr (fst kv)) items)
  | JStr s => Ok (map (fun c => JStr (String c EmptyString)) (list_ascii_of_string s))
  | _ => Err TypeError
  end.

End Json.

(** ** instrument_db.py *)

Module InstrumentDB.

(** A record of the registry ([dict[str, Any]]) and the registry itself
    ([self._by_isin : dict[str, dict[str, Any]]]). *)
Definition record : Type := list (string * json).
Definition registry : Type := list (string * record).

Record InstrumentInfo : Type := mkInstrumentInfo {
  isin : string;
  ticker : json;
  name : json;
  type : json
}.

Section WithRepr.
Variable repr_other : json -> string.

(** [InstrumentDB.normalize_isin], on the 8-bit model of text;
    [Unicode.normalize_isin] is the function on Unicode text, and the two
    agree on ASCII text. *)
Definition normalize_isin (isin : json) : string :=
  match isin with
  | JNull => ""
  | _ => PyStr.join "" (PyStr.split (PyStr.upper (PyStr.strip (Json.str repr_other isin))))
  end.

(** Shape A, the loop body over [data.items()]. *)
Definition load_dict_step (by_isin : registry) (kv : string * json) : registry :=
  let (k, v) := kv in
  let norm := normalize_isin (JStr k) in
  if negb (PyStr.nonempty norm) then by_isin
  else
    match v with
    | JDict r => PyDict.set by_isin norm r
    | _ => PyDict.set by_isin norm [("TYPE", v)]
    end.

(** Shape B, the inner loop over [rec.keys()]: the value under the first key
    that spells [isin] in any case, [None] when there is none. *)
Fixpoint find_isin_value (keys : list string) (rec : record) : json :=
  match keys with
  | [] => JNull
  | key :: rest =>
      if String.eqb (PyStr.lower key) "isin" then
        match PyDict.get rec key with
        | Some v => v
        | None => JNull
        end
      else find_isin_value rest rec
  end.

(** Shape B, the loop body over [data]. *)
Definition load_list_step (by_isin : registry) (rec : json) : registry :=
  match rec with
  | JDict r =>
      let isin_value := find_isin_value (PyDict.keys r) r in
      let norm := normalize_isin isin_value in
      if negb (PyStr.nonempty norm) then by_isin
      else PyDict.set by_isin norm r
  | _ => by_isin
  end.

(** [InstrumentDB.load], on the document that [json.loads] returned. *)
Definition load (data : json) : result registry :=
  match data with
  | JDict items => Ok (fold_left load_dict_step items [])
  | JList recs => Ok (fold_left load_list_step recs [])
  | _ => Err ValueError
  end.

(** [rec.get("TYPE") or rec.get("type") or ""] *)
Definition type_tag (rec : record) : json :=
  let get k := match PyDict.get rec k with Some v => v | None => JNull end in
  Json.or_else (Json.or_else (get "TYPE") (get "type")) (JStr "").

(** [str(...).upper().strip()] of the tag *)
Definition type_text (rec : record) : string :=
  PyStr.strip (PyStr.upper (Json.str repr_other (type_tag rec))).

Definition in_exit_tax_types (t : string) : bool :=
  String.eqb t "ETF" || String.eqb t "INDEX".

(** [InstrumentDB.is_exit_tax] *)
Definition is_exit_tax (by_isin : registry) (isin : json) : bool :=
  let norm := normalize_isin isin in
  if negb (PyStr.nonempty norm) then false
  else
    match PyDict.get by_isin norm with
    | None => false
    | Some [] => false
    | Some rec => in_exit_tax_types (type_text rec)
    end.

(** [InstrumentDB.get] *)
Definition get (by_isin : registry) (isin : json) : option InstrumentInfo :=
  let norm := normalize_isin isin in
  if negb (PyStr.nonempty norm) then None
  else
    match PyDict.get by_isin norm with
    | None => None
    | Some [] => None
    | Some rec =>
        let field k := match PyDict.get rec k with Some v => v | None => JNull end in
        Some (mkInstrumentInfo norm
                (Json.or_else (field "TICKER") (field "ticker"))
                (Json.or_else (field "NAME") (field "name"))
                (Json.or_else (field "TYPE") (field "type")))
    end.

(** [InstrumentDB.count] *)
Definition count (by_isin : registry) : Z := Z.of_nat (List.length by_isin).

(** [InstrumentDB.sample_isins] *)
Definition sample_isins (by_isin : registry) (limit : Z) : list string :=
  if limit <=? 0 then [] else firstn (Z.to_nat limit) (PyDict.keys by_isin).

End WithRepr.

End InstrumentDB.


(** ** The [datetime] module, as far as the repository uses it *)

Module Calendar.

Record date : Type := mkDate { year : Z; month : Z; day : Z }.

(** [datetime] objects: the calendar date, the time of day and, for an aware
    object, the UTC offset in microseconds. *)
Record datetime : Type := mkDatetime {
  dt_date : date;
  hour : Z;
  minute : Z;
  second : Z;
  microsecond : Z;
  utcoffset : option Z
}.

Definition MINYEAR : Z := 1.
Definition MAXYEAR : Z := 9999.

Definition is_leap (y : Z) : bool :=
  (y mod 4 =? 0) && (negb (y mod 100 =? 0) || (y mod 400 =? 0)).

Definition days_in_month (y m : Z) : Z :=
  if m =? 2 then (if is_leap y then 29 else 28)
  else if (m =? 4) || (m =? 6) || (m =? 9) || (m =? 11) then 30
  else 31.

(** The range checks of the [date] constructor. *)
Definition check_date_fields (y m d : Z) : bool :=
  (MINYEAR <=? y) && (y <=? MAXYEAR) &&
  (1 <=? m) && (m <=? 12) &&
  (1 <=? d) && (d <=? days_in_month y m).

(** [date(y, m, d)] *)
Definition date_new (y m d : Z) : result date :=
  if check_date_fields y m d then Ok (mkDate y m d) else Err ValueError.

Definition valid_date (d : date) : bool :=
  check_date_fields (year d) (month d) (day d).

(** [d.replace(year=..., month=..., day=...)]; an omitted keyword keeps the
    field. *)
Definition replace (d : date) (y m dd : option Z) : result date :=
  date_new (match y with Some v => v | None => year d end)
           (match m with Some v => v | None => month d end)
           (match dd with Some v => v | None => day d end).

(** The range checks of the [datetime] constructor and of [timezone]. *)
Definition check_time_fields (dt : datetime) : bool :=
  (0 <=? hour dt) && (hour dt <=? 23) &&
  (0 <=? minute dt) && (minute dt <=? 59) &&
  (0 <=? second dt) && (second dt <=? 59) &&
  (0 <=? microsecond dt) && (microsecond dt <=? 999999) &&
  match utcoffset dt with
  | None => true
  | Some off => (-86400000000 <? off) && (off <? 86400000000)
  end.

Definition valid_datetime (dt : datetime) : bool :=
  valid_date (dt_date dt) && check_time_fields dt.

(** [dt.date()] *)
Definition date_of (dt : datetime) : date := dt_date dt.

(** [datetime.fromisoformat]: the text is scanned into fields by [scan]
    (the library's lexical grammar), and the constructor then checks their
    ranges. *)
Definition fromisoformat (scan : string -> option datetime) (s : string)
  : result datetime :=
  match scan s with
  | None => Err ValueError
  | Some dt => if valid_datetime dt then Ok dt else Err ValueError
  end.

End Calendar.

(** ** exit_tax.py *)

Module ExitTax.

Import Calendar.

Record ExitTaxRow : Type := mkExitTaxRow {
  ticker : string;
  isin : string;
  name : string;
  currency : string;
  created_at : datetime;
  deemed_disposal_date : date;
  total_cost : float;
  current_value : float;
  unrealised_pl : float;
  taxable_gain_today : float;
  exit_tax_due_today : float
}.

(** [_add_years] *)
Definition _add_years (d : date) (years : Z) : result date :=
  match replace d (Some (year d + years)) None None with
  | Ok r => Ok r
  | Err ValueError => replace d (Some (year d + years)) (Some 2) (Some 28)
  | Err e => Err e
  end.

Section WithRuntime.

(** The interpreter around the module: the text of values other than
    strings and integers, [float] on a string, the lexical grammar of
    [datetime.fromisoformat], and the reading of [datetime.now()] taken in
    the [i]-th iteration of the loop. *)
Variable repr_other : json -> string.
Variable float_of_str : string -> option float.
Variable iso_scan : string -> option datetime.
Variable clock : nat -> datetime.

(** [float(x)] *)
Definition py_float (x : json) : result float :=
  match x with
  | JBool b => Ok (if b then PyFloat.one else PyFloat.zero)
  | JInt n => PyFloat.of_int n
  | JFloat f => Ok f
  | JStr s =>
      match float_of_str s with
      | Some f => Ok f
      | None => Err ValueError
      end
  | JNull | JList _ | JDict _ => Err TypeError
  end.

(** [_to_float] *)
Definition _to_float (x : json) (default : float) : float :=
  match py_float x with
  | Ok f => f
  | Err _ => default
  end.

(** [_parse_datetime] *)
Definition _parse_datetime (s : string) : result datetime :=
  let s := PyStr.strip s in
  let s := if PyStr.endswith s "Z" then PyStr.drop_last s ++ "+00:00" else s in
  fromisoformat iso_scan s.

(** The body of the loop of [compute_exit_tax_from_positions], for the
    position [p] met in iteration [i]. *)
Definition exit_tax_row (exit_tax_rate : float) (i : nat) (p : json)
  : result ExitTaxRow :=
  inst0 <- Json.get p "instrument" (JDict []) ;;
  let inst := Json.or_else inst0 (JDict []) in
  wi0 <- Json.get p "walletImpact" (JDict []) ;;
  let wi := Json.or_else wi0 (JDict []) in
  ticker0 <- Json.get inst "ticker" (JStr "") ;;
  isin0 <- Json.get inst "isin" (JStr "") ;;
  name0 <- Json.get inst "name" (JStr "") ;;
  wcur <- Json.get wi "currency" JNull ;;
  cur <- (if Json.truthy wcur then Ok wcur
          else icur <- Json.get inst "currency" JNull ;;
               Ok (Json.or_else icur (JStr ""))) ;;
  created0 <- Json.get p "createdAt" (JStr "") ;;
  let created_at_raw := PyStr.strip (Json.str repr_other created0) in
  created <- (if PyStr.nonempty created_at_raw
              then _parse_datetime created_at_raw
              else Ok (clock i)) ;;
  deemed_date <- _add_years (date_of created) 8 ;;
  tc0 <- Json.get wi "totalCost" JNull ;;
  let total := _to_float tc0 PyFloat.zero in
  cv0 <- Json.get wi "currentValue" JNull ;;
  let value := _to_float cv0 PyFloat.zero in
  pl0 <- Json.get wi "unrealizedProfitLoss" JNull ;;
  let pl := _to_float pl0 (PyFloat.sub value total) in
  let gain := PyFloat.max (PyFloat.sub value total) PyFloat.zero in
  let due := PyFloat.mul gain exit_tax_rate in
  Ok (mkExitTaxRow (Json.str repr_other ticker0) (Json.str repr_other isin0)
        (Json.str repr_other name0) (Json.str repr_other cur)
        created deemed_date total value pl gain due).

(** The loop: [rows] is the list built so far, [i] the number of positions
    already visited. *)
Fixpoint rows_loop (exit_tax_rate : float) (rows : list ExitTaxRow) (i : nat)
  (ps : list json) : result (list ExitTaxRow) :=
  match ps with
  | [] => Ok rows
  | p :: rest =>
      r <- exit_tax_row exit_tax_rate i p ;;
      rows_loop exit_tax_rate (rows ++ [r]) (S i) rest
  end.

(** [compute_exit_tax_from_positions], on the document that [json.loads]
    returned. *)
Definition compute_exit_tax_from_positions (data : json) (exit_tax_rate : float)
  : result (list ExitTaxRow) :=
  ps <- Json.iter data ;;
  rows_loop exit_tax_rate [] 0 ps.

End WithRuntime.

End ExitTax.

(** ** [date.replace] on any [int]

    [date.replace] takes its arguments as C [int]s: an argument outside
    their range raises [OverflowError] before the constructor checks any
    field, and the [except ValueError] of [_add_years] does not catch it.
    [Calendar.replace] and [ExitTax._add_years] leave that conversion out;
    it makes no difference to them as long as the year asked for fits, as
    does every year that eight years added to a date give.  Here are both
    functions with the conversion, for any number of years. *)

Module CInt.

Import Calendar.

(** The range of a C [int] *)
Definition fits (z : Z) : bool := (-2147483648 <=? z) && (z <=? 2147483647).

Definition arg_fits (a : option Z) : bool :=
  match a with
  | Some v => fits v
  | None => true
  end.

(** [d.replace(year=..., month=..., day=...)] *)
Definition replace (d : date) (y m dd : option Z) : result date :=
  if arg_fits y && arg_fits m && arg_fits dd then Calendar.replace d y m dd
  else Err OverflowError.

(** [_add_years] *)
Definition _add_years (d : date) (years : Z) : result date :=
  match replace d (Some (year d + years)) None None with
  | Ok r => Ok r
  | Err ValueError => replace d (Some (year d + years)) (Some 2) (Some 28)
  | Err e => Err e
  end.

End CInt.


(** ** snapshot.py *)

Module Snapshot.

Record SnapshotRow : Type := mkSnapshotRow {
  ticker : string;
  isin : string;
  name : string;
  currency : string;
  quantity : float;
  avg_price_paid : option float;
  current_price : option float;
  total_cost : option float;
  current_value : option float;
  unrealized_pl : option float
}.

(** A cell handed to [csv.writer.writerow]: a string, a float or [None]. *)
Inductive cell : Type :=
| CStr (s : string)
| CFloat (f : float)
| CNone.

Definition cell_of (x : option float) : cell :=
  match x with
  | Some f => CFloat f
  | None => CNone
  end.

Definition header : list cell :=
  [CStr "ticker"; CStr "isin"; CStr "name"; CStr "currency"; CStr "quantity";
   CStr "avg_price_paid"; CStr "current_price"; CStr "total_cost";
   CStr "current_value"; CStr "unrealized_pl"; CStr "unrealized_pl_pct"].

(** [x not in (None, 0.0)] for an optional float *)
Definition not_none_or_zero (x : option float) : bool :=
  match x with
  | None => false
  | Some f => negb (PyFloat.eqb f PyFloat.zero)
  end.

(** The computation of [pl_pct] in the loop of [write_snapshot_csv]. *)
Definition pl_pct (r : SnapshotRow) : result (option float) :=
  if not_none_or_zero (total_cost r) then
    match unrealized_pl r, total_cost r with
    | Some pl, Some tc => q <- PyFloat.truediv pl tc ;; Ok (Some q)
    | _, _ => Ok None
    end
  else Ok None.

(** The cells written for one row. *)
Definition row_cells (r : SnapshotRow) : result (list cell) :=
  pct <- pl_pct r ;;
  Ok [CStr (ticker r); CStr (isin r); CStr (name r); CStr (currency r);
      CFloat (quantity r); cell_of (avg_price_paid r); cell_of (current_price r);
      cell_of (total_cost r); cell_of (current_value r); cell_of (unrealized_pl r);
      cell_of pct].

Fixpoint write_rows (rows : list SnapshotRow) : result (list (list cell)) :=
  match rows with
  | [] => Ok []
  | r :: rest =>
      cells <- row_cells r ;;
      rest_cells <- write_rows rest ;;
      Ok (cells :: rest_cells)
  end.

(** [write_snapshot_csv]: the rows handed to the CSV writer, the header
    first. *)
Definition write_snapshot_csv (rows : list SnapshotRow) : result (list (list cell)) :=
  body <- write_rows rows ;;
  Ok (header :: body).

Section WithRuntime.

Variable repr_other : json -> string.
Variable float_of_str : string -> option float.

(** [_f] *)
Definition _f (x : json) : option float :=
  match x with
  | JNull => None
  | _ =>
      match ExitTax.py_float float_of_str x with
      | Ok f => Some f
      | Err _ => None
      end
  end.

(** [_f(...) or 0.0] *)
Definition or_zero (x : option float) : float :=
  match x with
  | Some f => if PyFloat.eqb f PyFloat.zero then PyFloat.zero else f
  | None => PyFloat.zero
  end.

Definition field (obj : json) (key : string) : result json :=
  Json.get obj key JNull.

(** The body of the loop of [load_positions]. *)
Definition snapshot_row (p : json) : result SnapshotRow :=
  inst0 <- Json.get p "instrument" (JDict []) ;;
  let inst := Json.or_else inst0 (JDict []) in
  wi0 <- Json.get p "walletImpact" (JDict []) ;;
  let wi := Json.or_else wi0 (JDict []) in
  ticker0 <- Json.get inst "ticker" (JStr "") ;;
  isin0 <- Json.get inst "isin" (JStr "") ;;
  name0 <- Json.get inst "name" (JStr "") ;;
  icur <- Json.get inst "currency" (JStr "") ;;
  cur <- (if PyStr.nonempty (Json.str repr_other icur)
          then Ok (Json.str repr_other icur)
          else wcur <- Json.get wi "currency" (JStr "") ;;
               Ok (Json.str repr_other wcur)) ;;
  qty <- field p "quantity" ;;
  avg <- field p "averagePricePaid" ;;
  price <- field p "currentPrice" ;;
  tc <- field wi "totalCost" ;;
  cv <- field wi "currentValue" ;;
  pl <- field wi "unrealizedProfitLoss" ;;
  Ok (mkSnapshotRow (Json.str repr_other ticker0) (Json.str repr_other isin0)
        (Json.str repr_other name0) cur (or_zero (_f qty))
        (_f avg) (_f price) (_f tc) (_f cv) (_f pl)).

Fixpoint rows_loop (rows : list SnapshotRow) (ps : list json)
  : result (list SnapshotRow) :=
  match ps with
  | [] => Ok rows
  | p :: rest => r <- snapshot_row p ;; rows_loop (rows ++ [r]) rest
  end.

(** [load_positions], on the document that [json.loads] returned. *)
Definition load_positions (data : json) : result (list SnapshotRow) :=
  ps <- Json.iter data ;;
  rows_loop [] ps.

End WithRuntime.

End Snapshot.


(** ** A reference grammar for [datetime.fromisoformat]

    The library function is not part of the repository.  Its documented
    grammar (Python 3.7 to 3.10; later versions accept these texts and more)
    is

      YYYY-MM-DD[*HH[:MM[:SS[.fff[fff]]]][+HH:MM[:SS[.ffffff]]]]

    where [*] is any single character.  The theorems below hold for every
    scanner; this one runs the closed examples. *)

Module IsoFormat.

Import Calendar.

Definition digit (c : ascii) : option Z :=
  let n := N_of_ascii c in
  if ((48 <=? n) && (n <=? 57))%N then Some (Z.of_N n - 48) else None.

(** [n] decimal digits at the head of [s], and what follows them. *)
Fixpoint digits (n : nat) (acc : Z) (s : string) : option (Z * string) :=
  match n with
  | O => Some (acc, s)
  | S k =>
      match s with
      | String c r =>
          match digit c with
          | Some d => digits k (10 * acc + d) r
          | None => None
          end
      | EmptyString => None
      end
  end.

Definition obind {A B : Type} (c : option A) (k : A -> option B) : option B :=
  match c with
  | Some a => k a
  | None => None
  end.

(** [.fff] or [.ffffff], in microseconds *)
Definition fraction (s : string) : option (Z * string) :=
  match digits 6 0 s with
  | Some r => Some r
  | None => obind (digits 3 0 s) (fun '(ms, r) => Some (ms * 1000, r))
  end.

(** [HH[:MM[:SS[.fff[fff]]]]]; with [strict] the minutes are required and the
    fraction has six digits, as in a UTC offset. *)
Definition clock_fields (strict : bool) (s : string) : option (Z * Z * Z * Z * string) :=
  obind (digits 2 0 s) (fun '(h, r1) =>
  match r1 with
  | String ":" r2 =>
      obind (digits 2 0 r2) (fun '(m, r3) =>
      match r3 with
      | String ":" r4 =>
          obind (digits 2 0 r4) (fun '(sec, r5) =>
          match r5 with
          | String "." r6 =>
              obind (if strict then digits 6 0 r6 else fraction r6) (fun '(us, r7) =>
              Some (h, m, sec, us, r7))
          | _ => Some (h, m, sec, 0, r5)
          end)
      | _ => Some (h, m, 0, 0, r3)
      end)
  | _ => if strict then None else Some (h, 0, 0, 0, r1)
  end).

(** [[+HH:MM[:SS[.ffffff]]]] up to the end of the text *)
Definition offset_field (s : string) : option (option Z) :=
  match s with
  | EmptyString => Some None
  | String sign r =>
      if Ascii.eqb sign "+" || Ascii.eqb sign "-" then
        obind (clock_fields true r) (fun '(h, m, sec, us, rest) =>
        match rest with
        | EmptyString =>
            let off := ((h * 3600 + m * 60 + sec) * 1000000 + us) in
            Some (Some (if Ascii.eqb sign "-" then - off else off))
        | _ => None
        end)
      else None
  end.

Definition scan (s : string) : option datetime :=
  obind (digits 4 0 s) (fun '(y, r1) =>
  match r1 with
  | String "-" r2 =>
      obind (digits 2 0 r2) (fun '(m, r3) =>
      match r3 with
      | String "-" r4 =>
          obind (digits 2 0 r4) (fun '(d, r5) =>
          match r5 with
          | EmptyString => Some (mkDatetime (mkDate y m d) 0 0 0 0 None)
          | String _ r6 =>
              obind (clock_fields false r6) (fun '(h, mi, sec, us, r7) =>
              obind (offset_field r7) (fun tz =>
              Some (mkDatetime (mkDate y m d) h mi sec us tz)))
          end)
      | _ => None
      end)
  | _ => None
  end).

(** The profile as the specification words it: a date, [T], a time of day
    with seconds, optional fractional seconds, and then either the letter
    [Z] or a numeric offset [+HH:MM] or [-HH:MM]. *)
Fixpoint skip_digits (s : string) : string :=
  match s with
  | String c r => match digit c with Some _ => skip_digits r | None => s end
  | EmptyString => EmptyString
  end.

Definition zone_designator (s : string) : bool :=
  match s with
  | String "Z" EmptyString => true
  | String sign r =>
      (Ascii.eqb sign "+" || Ascii.eqb sign "-") &&
      match digits 2 0 r with
      | Some (_, String ":" r') =>
          match digits 2 0 r' with
          | Some (_, EmptyString) => true
          | _ => false
          end
      | _ => false
      end
  | EmptyString => false
  end.

Definition in_stated_profile (s : string) : bool :=
  match digits 4 0 s with
  | Some (_, String "-" r2) =>
      match digits 2 0 r2 with
      | Some (_, String "-" r4) =>
          match digits 2 0 r4 with
          | Some (_, String "T" r6) =>
              match digits 2 0 r6 with
              | Some (_, String ":" r8) =>
                  match digits 2 0 r8 with
                  | Some (_, String ":" r10) =>
                      match digits 2 0 r10 with
                      | Some (_, String "." (String c r12)) =>
                          match digit c with
                          | Some _ => zone_designator (skip_digits r12)
                          | None => false
                          end
                      | Some (_, rest) => zone_designator rest
                      | None => false
                      end
                  | _ => false
                  end
              | _ => false
              end
          | _ => false
          end
      | _ => false
      end
  | _ => false
  end.

End IsoFormat.

(** ** A runtime for the closed examples

    No closed example below applies [str] to a float, a list or a dict, or
    [float] to a string, and none leaves [createdAt] empty; these stand in
    for the interpreter there. *)

Module Examples.

Import Calendar.

Definition no_repr : json -> string := fun _ => "".
Definition no_float_text : string -> option float := fun _ => None.
Definition noon_2026 : nat -> datetime :=
  fun _ => mkDatetime (mkDate 2026 11 4) 12 0 0 0 None.

Definition position (created_at : json) (cost value : Z) : json :=
  JDict [("instrument", JDict [("ticker", JStr "VWCE"); ("isin", JStr "IE00BK5BQT80");
                               ("name", JStr "Vanguard FTSE All-World");
                               ("currency", JStr "EUR")]);
         ("walletImpact", JDict [("currency", JStr "EUR"); ("totalCost", JInt cost);
                                 ("currentValue", JInt value)]);
         ("createdAt", created_at);
         ("quantity", JInt 10)].

Definition compute (data : json) (rate : float) : result (list ExitTax.ExitTaxRow) :=
  ExitTax.compute_exit_tax_from_positions no_repr no_float_text IsoFormat.scan
    noon_2026 data rate.

End Examples.


(** ** cli.py

    The command [exit-tax], on the decoded contents of the files it reads
    ([None] for a file that does not exist) and with the rate of the
    settings; the command ends with a [typer.BadParameter], with an
    exception of the core that it does not catch, or normally, and then
    the model keeps the values it echoed. *)

Module Cli.

Inductive bad_parameter : Type :=
| InstrumentDbNotFound
| InstrumentDbEmpty
| PositionsNotFound.

Inductive exit_tax_outcome : Type :=
| ExitTaxBadParameter (why : bad_parameter)
| ExitTaxRaised (e : exn)
| ExitTaxNoHoldings (scanned matched excluded : Z)
| ExitTaxReport (scanned matched excluded : Z) (rows : list ExitTax.ExitTaxRow)
    (total_tax : float).

(** [a + b] on floats *)
Definition fadd : float -> float -> float := SFadd PyFloat.prec PyFloat.emax.

(** [total_tax = 0.0], then [total_tax += r.exit_tax_due_today] for each
    row *)
Definition total_tax (rows : list ExitTax.ExitTaxRow) : float :=
  fold_left (fun total r => fadd total (ExitTax.exit_tax_due_today r)) rows
    PyFloat.zero.

Section WithRuntime.

Variable repr_other : json -> string.
Variable float_of_str : string -> option float.
Variable iso_scan : string -> option Calendar.datetime.
Variable clock : nat -> Calendar.datetime.

(** [[r for r in rows if db.is_exit_tax(r.isin)]] *)
Definition matched_rows (db : InstrumentDB.registry)
  (rows : list ExitTax.ExitTaxRow) : list ExitTax.ExitTaxRow :=
  filter (fun r => InstrumentDB.is_exit_tax repr_other db (JStr (ExitTax.isin r)))
    rows.

(** The command [exit-tax]. *)
Definition exit_tax (db_file positions_file : option json) (rate : float)
  : exit_tax_outcome :=
  match db_file with
  | None => ExitTaxBadParameter InstrumentDbNotFound
  | Some db_data =>
      match InstrumentDB.load repr_other db_data with
      | Err e => ExitTaxRaised e
      | Ok db =>
          if InstrumentDB.count db =? 0 then ExitTaxBadParameter InstrumentDbEmpty
          else
            match positions_file with
            | None => ExitTaxBadParameter PositionsNotFound
            | Some data =>
                match ExitTax.compute_exit_tax_from_positions repr_other
                        float_of_str iso_scan clock data rate with
                | Err e => ExitTaxRaised e
                | Ok rows =>
                    let total_rows := Z.of_nat (List.length rows) in
                    let rows' := matched_rows db rows in
                    let matched := Z.of_nat (List.length rows') in
                    match rows' with
                    | [] => ExitTaxNoHoldings total_rows matched (total_rows - matched)
                    | _ => ExitTaxReport total_rows matched (total_rows - matched)
                             rows' (total_tax rows')
                    end
                end
            end
      end
  end.

(** The sample the command [debug-db] echoes for the first five rows: the
    normalized ISIN of each and whether the registry, when one was loaded,
    classifies the row's ISIN as exit-tax. *)
Definition positions_isin_sample (db : option InstrumentDB.registry)
  (rows : list ExitTax.ExitTaxRow) : list (string * bool) :=
  map (fun r =>
         (InstrumentDB.normalize_isin repr_other (JStr (ExitTax.isin r)),
          match db with
          | Some d => InstrumentDB.is_exit_tax repr_other d (JStr (ExitTax.isin r))
          | None => false
          end))
      (firstn 5 rows).

End WithRuntime.

End Cli.


(** * Properties *)

(** ** Strings *)

Module StrFacts.

Import PyStr.

Ltac each_char c := destruct c as [[] [] [] [] [] [] [] []]; reflexivity.

Lemma isspace_upper_char (c : ascii) : isspace (upper_char c) = isspace c.
Proof. each_char c. Qed.

Lemma upper_char_idem (c : ascii) : upper_char (upper_char c) = upper_char c.
Proof. each_char c. Qed.

Lemma upper_char_not_lower (c : ascii) :
  ((97 <=? N_of_ascii (upper_char c)) && (N_of_ascii (upper_char c) <=? 122))%N = false.
Proof. each_char c. Qed.

Lemma upper_idem (s : string) : upper (upper s) = upper s.
Proof.
  induction s as [|c r IH]; simpl; [reflexivity|].
  now rewrite upper_char_idem, IH.
Qed.

Lemma no_lower_upper (s : string) : no_lower (upper s) = true.
Proof.
  induction s as [|c r IH]; simpl; [reflexivity|].
  now rewrite upper_char_not_lower, IH.
Qed.

Lemma no_lower_remove_spaces (s : string) :
  no_lower s = true -> no_lower (remove_spaces s) = true.
Proof.
  induction s as [|c r IH]; simpl; [reflexivity|].
  intros H. apply andb_true_iff in H as [Hc Hr].
  destruct (isspace c); simpl; [auto|]. now rewrite Hc, IH.
Qed.

Lemma remove_spaces_upper (s : string) :
  remove_spaces (upper s) = upper (remove_spaces s).
Proof.
  induction s as [|c r IH]; simpl; [reflexivity|].
  rewrite isspace_upper_char. destruct (isspace c); simpl; now rewrite IH.
Qed.

Lemma no_space_remove_spaces (s : string) : no_space (remove_spaces s) = true.
Proof.
  induction s as [|c r IH]; simpl; [reflexivity|].
  destruct (isspace c) eqn:E; simpl; [assumption|]. now rewrite E, IH.
Qed.

Lemma remove_spaces_fixed (s : string) :
  no_space s = true -> remove_spaces s = s.
Proof.
  induction s as [|c r IH]; simpl; [reflexivity|].
  intros H. apply andb_true_iff in H as [Hc Hr].
  destruct (isspace c); [discriminate|]. now rewrite IH.
Qed.

Lemma remove_spaces_idem (s : string) :
  remove_spaces (remove_spaces s) = remove_spaces s.
Proof. apply remove_spaces_fixed, no_space_remove_spaces. Qed.

Lemma squeeze_upper_idem (s : string) :
  remove_spaces (upper (remove_spaces (upper s))) = remove_spaces (upper s).
Proof.
  rewrite (remove_spaces_upper (remove_spaces (upper s))).
  rewrite remove_spaces_idem, (remove_spaces_upper s), upper_idem.
  reflexivity.
Qed.

Lemma remove_spaces_lstrip (s : string) :
  remove_spaces (lstrip s) = remove_spaces s.
Proof.
  induction s as [|c r IH]; simpl; [reflexivity|].
  destruct (isspace c) eqn:E; simpl; [assumption|]. now rewrite E.
Qed.

Lemma remove_spaces_rstrip (s : string) :
  remove_spaces (rstrip s) = remove_spaces s.
Proof.
  induction s as [|c r IH]; simpl; [reflexivity|].
  destruct (rstrip r) as [|c' t] eqn:E.
  - simpl in IH. rewrite <- IH.
    destruct (isspace c) eqn:Ec; simpl; [reflexivity|]. now rewrite Ec.
  - cbn [remove_spaces]. cbn [remove_spaces] in IH. now rewrite IH.
Qed.

Lemma remove_spaces_strip (s : string) :
  remove_spaces (strip s) = remove_spaces s.
Proof. unfold strip. now rewrite remove_spaces_rstrip, remove_spaces_lstrip. Qed.

Lemma append_empty_r (s : string) : s ++ "" = s.
Proof. induction s as [|c r IH]; simpl; [reflexivity|]. now rewrite IH. Qed.

Lemma append_assoc (a b c : string) : (a ++ b) ++ c = a ++ (b ++ c).
Proof. induction a as [|x a IH]; simpl; [reflexivity|]. now rewrite IH. Qed.

Lemma join_empty_cons (x : string) (xs : list string) :
  join "" (x :: xs) = x ++ join "" xs.
Proof.
  unfold join. destruct xs as [|y ys]; simpl; [now rewrite append_empty_r|reflexivity].
Qed.

(** Joining the words of a text with nothing in between leaves the text
    without its blanks. *)
Lemma join_split_from (s word : string) :
  join "" (split_from word s) = word ++ remove_spaces s.
Proof.
  revert word. induction s as [|c r IH]; intros word; simpl.
  - destruct word; [reflexivity|]. cbn. now rewrite append_empty_r.
  - destruct (isspace c).
    + destruct word as [|w ws].
      * now rewrite IH.
      * now rewrite join_empty_cons, IH.
    + rewrite IH, append_assoc. reflexivity.
Qed.

Lemma join_split (s : string) : join "" (split s) = remove_spaces s.
Proof. unfold split. now rewrite join_split_from. Qed.

Lemma nonempty_false (s : string) : nonempty s = false <-> s = "".
Proof. destruct s; simpl; split; congruence. Qed.

Lemma nonempty_true (s : string) : nonempty s = true <-> s <> "".
Proof. destruct s; simpl; split; congruence. Qed.

Lemma rstrip_cons (c : ascii) (r : string) :
  rstrip (String c r) =
  match rstrip r with
  | EmptyString => if isspace c then EmptyString else String c EmptyString
  | t => String c t
  end.
Proof. reflexivity. Qed.

Lemma rstrip_idem (s : string) : rstrip (rstrip s) = rstrip s.
Proof.
  induction s as [|c r IH]; [reflexivity|].
  rewrite rstrip_cons. destruct (rstrip r) as [|c' t] eqn:E.
  - destruct (isspace c) eqn:Ec; simpl; [reflexivity|]. now rewrite Ec.
  - rewrite rstrip_cons, IH. reflexivity.
Qed.

Lemma lstrip_head (s : string) :
  match lstrip s with
  | String c _ => isspace c = false
  | EmptyString => True
  end.
Proof.
  induction s as [|c r IH]; simpl; [exact I|].
  destruct (isspace c) eqn:E; [assumption|]. simpl. assumption.
Qed.

Lemma rstrip_head (s : string) :
  match s with
  | String c _ => isspace c = false -> exists t, rstrip s = String c t
  | EmptyString => True
  end.
Proof.
  destruct s as [|c r]; [exact I|]. intros Hc. simpl.
  destruct (rstrip r); [rewrite Hc|]; eauto.
Qed.

Lemma lstrip_fixed (s : string) :
  match s with
  | String c _ => isspace c = false
  | EmptyString => True
  end -> lstrip s = s.
Proof. destruct s as [|c r]; simpl; [reflexivity|]. now intros ->. Qed.

Lemma strip_idem (s : string) : strip (strip s) = strip s.
Proof.
  unfold strip.
  assert (H : lstrip (rstrip (lstrip s)) = rstrip (lstrip s)).
  { apply lstrip_fixed. pose proof (lstrip_head s) as Hh.
    pose proof (rstrip_head (lstrip s)) as Hr.
    destruct (lstrip s) as [|c r]; [exact I|].
    destruct (Hr Hh) as [t ->]. exact Hh. }
  rewrite H. apply rstrip_idem.
Qed.

End StrFacts.


(** ** Dictionaries *)

Module DictFacts.

Import PyDict.

Section Facts.
Context {V : Type}.
Implicit Types (d : list (string * V)) (k : string) (v : V).

Lemma get_set_same d k v : get (set d k v) k = Some v.
Proof.
  induction d as [|[k' v'] rest IH]; simpl.
  - now rewrite String.eqb_refl.
  - destruct (String.eqb k' k) eqn:E; simpl; now rewrite E.
Qed.

Lemma get_set_other d k k' v : k <> k' -> get (set d k v) k' = get d k'.
Proof.
  intros Hne. induction d as [|[k0 v0] rest IH]; simpl.
  - apply String.eqb_neq in Hne. now rewrite Hne.
  - destruct (String.eqb k0 k) eqn:E; simpl.
    + apply String.eqb_eq in E. subst k0.
      apply String.eqb_neq in Hne. now rewrite Hne.
    + now rewrite IH.
Qed.


Lemma get_some_in_keys d k v : get d k = Some v -> In k (keys d).
Proof.
  induction d as [|[k' v'] rest IH]; simpl; [discriminate|].
  destruct (String.eqb k' k) eqn:E.
  - apply String.eqb_eq in E. now left.
  - intros H. right. now apply IH.
Qed.

Lemma set_keys_Forall (P : string -> Prop) d k v :
  Forall (fun kv => P (fst kv)) d -> P k ->
  Forall (fun kv => P (fst kv)) (set d k v).
Proof.
  intros Hd Hk. induction Hd as [|[k' v'] rest Hx Hrest IH]; simpl.
  - constructor; [exact Hk|constructor].
  - destruct (String.eqb k' k); constructor; assumption.
Qed.

End Facts.

Lemma fold_left_invariant {A B : Type} (I : A -> Prop) (f : A -> B -> A)
  (l : list B) (a : A) :
  (forall acc x, I acc -> I (f acc x)) -> I a -> I (fold_left f l a).
Proof.
  intros Hstep. revert a. induction l as [|x l IH]; simpl; intros a Ha.
  - exact Ha.
  - apply IH, Hstep, Ha.
Qed.

End DictFacts.

(** ** The instrument registry *)

Module RegistryFacts.

Import InstrumentDB.

Section WithRepr.
Variable repr_other : json -> string.

Notation normalize_isin := (InstrumentDB.normalize_isin repr_other).
Notation load := (InstrumentDB.load repr_other).
Notation is_exit_tax := (InstrumentDB.is_exit_tax repr_other).
Notation type_text := (InstrumentDB.type_text repr_other).

Lemma normalize_isin_text (s : string) :
  normalize_isin (JStr s) = PyStr.remove_spaces (PyStr.upper s).
Proof.
  unfold InstrumentDB.normalize_isin. simpl.
  rewrite StrFacts.join_split.
  rewrite !StrFacts.remove_spaces_upper, StrFacts.remove_spaces_strip.
  reflexivity.
Qed.

Lemma normalize_isin_value (v : json) :
  normalize_isin v =
  match v with
  | JNull => ""
  | _ => PyStr.remove_spaces (PyStr.upper (Json.str repr_other v))
  end.
Proof.
  destruct v; try reflexivity;
    unfold InstrumentDB.normalize_isin;
    rewrite StrFacts.join_split;
    rewrite !StrFacts.remove_spaces_upper, StrFacts.remove_spaces_strip;
    reflexivity.
Qed.

Lemma normalize_isin_fixed (v : json) :
  normalize_isin (JStr (normalize_isin v)) = normalize_isin v.
Proof.
  rewrite normalize_isin_text, normalize_isin_value.
  destruct v; try reflexivity; apply StrFacts.squeeze_upper_idem.
Qed.

(** *** Keys of a loaded registry *)

Definition normalized_key (k : string) : Prop :=
  k <> "" /\ normalize_isin (JStr k) = k.

Definition keys_normalized (db : registry) : Prop :=
  Forall (fun kv => normalized_key (fst kv)) db.

Lemma normalized_key_of (v : json) :
  PyStr.nonempty (normalize_isin v) = true -> normalized_key (normalize_isin v).
Proof.
  intros H. split.
  - now apply StrFacts.nonempty_true.
  - apply normalize_isin_fixed.
Qed.

Lemma load_dict_step_keys (db : registry) (kv : string * json) :
  keys_normalized db -> keys_normalized (load_dict_step repr_other db kv).
Proof.
  intros Hdb. destruct kv as [k v]. unfold load_dict_step.
  destruct (PyStr.nonempty (normalize_isin (JStr k))) eqn:E; simpl; [|exact Hdb].
  pose proof (normalized_key_of _ E) as Hk.
  destruct v; apply (DictFacts.set_keys_Forall normalized_key); assumption.
Qed.

Lemma load_list_step_keys (db : registry) (rec : json) :
  keys_normalized db -> keys_normalized (load_list_step repr_other db rec).
Proof.
  intros Hdb. destruct rec; simpl; try exact Hdb.
  destruct (PyStr.nonempty (normalize_isin _)) eqn:E; simpl; [|exact Hdb].
  apply (DictFacts.set_keys_Forall normalized_key); [assumption|].
  now apply normalized_key_of.
Qed.

Lemma load_keys (data : json) (db : registry) :
  load data = Ok db -> keys_normalized db.
Proof.
  destruct data; simpl; try discriminate; intros [= <-].
  - apply DictFacts.fold_left_invariant; [apply load_list_step_keys|constructor].
  - apply DictFacts.fold_left_invariant; [apply load_dict_step_keys|constructor].
Qed.

Lemma keys_normalized_in (db : registry) (k : string) :
  keys_normalized db -> In k (PyDict.keys db) -> normalized_key k.
Proof.
  intros Hdb Hin. unfold PyDict.keys in Hin. apply in_map_iff in Hin as [kv [<- Hkv]].
  unfold keys_normalized in Hdb. rewrite Forall_forall in Hdb. now apply Hdb.
Qed.

(** C10. Every key of a registry that [load] returned, from either shape,
    is non-empty and is left unchanged by [normalize_isin]; and a lookup
    that finds a record found it under the normalized form of the
    identifier it was asked for, which is one of those keys. *)
Theorem load_keys_normalized (data : json) (db : registry) :
  load data = Ok db ->
  Forall (fun kv => fst kv <> "" /\ normalize_isin (JStr (fst kv)) = fst kv) db
  /\ (forall (isin : json) (info : InstrumentInfo),
        InstrumentDB.get repr_other db isin = Some info ->
        InstrumentDB.isin info = normalize_isin isin
        /\ In (normalize_isin isin) (PyDict.keys db)
        /\ normalize_isin (JStr (InstrumentDB.isin info)) = InstrumentDB.isin info)
  /\ (forall isin : json,
        is_exit_tax db isin = true -> In (normalize_isin isin) (PyDict.keys db)).
Proof.
  intros Hload. pose proof (load_keys _ _ Hload) as Hkeys.
  split; [exact Hkeys|split].
  - intros isin info. unfold InstrumentDB.get.
    destruct (PyStr.nonempty (normalize_isin isin)); simpl; [|discriminate].
    destruct (PyDict.get db (normalize_isin isin)) as [[|f rec]|] eqn:G;
      try discriminate.
    intros [= <-]. simpl.
    split; [reflexivity|split].
    + eapply DictFacts.get_some_in_keys; eassumption.
    + apply normalize_isin_fixed.
  - intros isin. unfold InstrumentDB.is_exit_tax.
    destruct (PyStr.nonempty (normalize_isin isin)); simpl; [|discriminate].
    destruct (PyDict.get db (normalize_isin isin)) as [rec|] eqn:G;
      [|discriminate].
    intros _. eapply DictFacts.get_some_in_keys; eassumption.
Qed.

(** *** Accepted shapes and dropped records *)

Definition is_dict (data : json) : bool :=
  match data with JDict _ => true | _ => false end.

Definition is_list (data : json) : bool :=
  match data with JList _ => true | _ => false end.

(** The normalized identifier a record of a Shape B source resolves to; the
    empty string when the value is not a record or carries none. *)
Definition record_identifier (rec : json) : string :=
  match rec with
  | JDict r => normalize_isin (find_isin_value (PyDict.keys r) r)
  | _ => ""
  end.

Lemma load_list_step_dropped (db : registry) (rec : json) :
  record_identifier rec = "" -> load_list_step repr_other db rec = db.
Proof.
  destruct rec; simpl; try reflexivity.
  intros ->. reflexivity.
Qed.

Lemma load_dict_step_dropped (db : registry) (k : string) (v : json) :
  normalize_isin (JStr k) = "" -> load_dict_step repr_other db (k, v) = db.
Proof. unfold load_dict_step. intros ->. reflexivity. Qed.

(** C5. [load] raises (a [ValueError], the registry's format error) exactly
    when the document is neither a dict nor a list; inside either shape it
    returns a registry, and an entry without a non-empty normalized
    identifier leaves no trace: the registry is the one the source without
    that entry gives. *)
Theorem load_fails_only_on_shape :
  (forall data : json,
     load data = Err ValueError <-> is_dict data = false /\ is_list data = false)
  /\ (forall (data : json) (e : exn), load data = Err e -> e = ValueError)
  /\ (forall data : json,
        is_dict data = true \/ is_list data = true -> exists db, load data = Ok db)
  /\ (forall (before after : list json) (rec : json),
        record_identifier rec = "" ->
        load (JList (before ++ rec :: after)) = load (JList (before ++ after)))
  /\ (forall (before after : list (string * json)) (k : string) (v : json),
        normalize_isin (JStr k) = "" ->
        load (JDict (before ++ (k, v) :: after)) = load (JDict (before ++ after))).
Proof.
  split; [|split; [|split; [|split]]].
  - intros data. destruct data; simpl; split;
      solve [intuition congruence | intros; discriminate | intros [? ?]; discriminate].
  - intros data e. destruct data; simpl; congruence.
  - intros data [H|H]; destruct data; simpl in *; try discriminate; eauto.
  - intros before after rec Hrec. unfold InstrumentDB.load. f_equal.
    rewrite !fold_left_app. cbn [fold_left]. now rewrite load_list_step_dropped.
  - intros before after k v Hk. unfold InstrumentDB.load. f_equal.
    rewrite !fold_left_app. cbn [fold_left]. now rewrite load_dict_step_dropped.
Qed.

(** *** Classification *)

Lemma get_empty_key (db : registry) : keys_normalized db -> PyDict.get db "" = None.
Proof.
  intros Hdb. destruct (PyDict.get db "") as [rec|] eqn:G; [|reflexivity].
  apply DictFacts.get_some_in_keys in G.
  destruct (keys_normalized_in _ _ Hdb G) as [Hne _]. now elim Hne.
Qed.

Lemma in_exit_tax_types_iff (t : string) :
  in_exit_tax_types t = true <-> t = "ETF" \/ t = "INDEX".
Proof.
  unfold in_exit_tax_types. rewrite orb_true_iff, !String.eqb_eq. reflexivity.
Qed.

(** C4, as the code has it. For a registry that [load] returned and every
    identifier string, [is_exit_tax] is a boolean (no exception can arise)
    and it is [True] exactly when the normalized identifier is a key of the
    registry and the stored type tag, turned into text, upper-cased and then
    stripped of surrounding blanks, is [ETF] or [INDEX]. *)
Theorem is_exit_tax_iff (data : json) (db : registry) (x : string) :
  load data = Ok db ->
  (is_exit_tax db (JStr x) = true <->
   exists rec : record,
     PyDict.get db (normalize_isin (JStr x)) = Some rec
     /\ (PyStr.strip (PyStr.upper (Json.str repr_other (type_tag rec))) = "ETF"
         \/ PyStr.strip (PyStr.upper (Json.str repr_other (type_tag rec))) = "INDEX")).
Proof.
  intros Hload. pose proof (load_keys _ _ Hload) as Hkeys.
  unfold InstrumentDB.is_exit_tax. split.
  - destruct (PyStr.nonempty (normalize_isin (JStr x))); cbn [negb]; [|discriminate].
    destruct (PyDict.get db (normalize_isin (JStr x))) as [[|f rec]|];
      try discriminate.
    intros H. apply in_exit_tax_types_iff in H. eauto.
  - intros [rec [G Htag]].
    destruct (PyStr.nonempty (normalize_isin (JStr x))) eqn:E; cbn [negb].
    + rewrite G. destruct rec as [|f rec].
      * destruct Htag as [H|H]; discriminate H.
      * now apply in_exit_tax_types_iff.
    + apply StrFacts.nonempty_false in E. rewrite E in G.
      rewrite (get_empty_key _ Hkeys) in G. discriminate.
Qed.

(** *** The two source shapes *)


















End WithRepr.

(** *** Closed examples *)

Local Notation r0 := Examples.no_repr.

(** The two payloads of [tests/test_instrument_db.py]. *)
Definition test_dict_payload : json :=
  JDict [("ie00  b3", JDict [("TYPE", JStr "ETF")]);
         ("GB00 0000", JDict [("TYPE", JStr "EQUITY")])].

Definition test_list_payload : json :=
  JList [JDict [("isin", JStr " ie00b3 "); ("type", JStr "index")];
         JDict [("ISIN", JStr "GB00 0000"); ("TYPE", JStr "Equity")];
         JDict [("foo", JStr "bar")]].

Definition test_dict_registry : registry :=
  [("IE00B3", [("TYPE", JStr "ETF")]); ("GB000000", [("TYPE", JStr "EQUITY")])].

Definition test_list_registry : registry :=
  [("IE00B3", [("isin", JStr " ie00b3 "); ("type", JStr "index")]);
   ("GB000000", [("ISIN", JStr "GB00 0000"); ("TYPE", JStr "Equity")])].

Example test_load_dict_shape :
  InstrumentDB.load r0 test_dict_payload = Ok test_dict_registry
  /\ count test_dict_registry = 2
  /\ InstrumentDB.is_exit_tax r0 test_dict_registry (JStr "ie00 b3") = true
  /\ InstrumentDB.is_exit_tax r0 test_dict_registry (JStr "gb00 0000") = false.
Proof. repeat split. Qed.

Example test_load_list_shape :
  InstrumentDB.load r0 test_list_payload = Ok test_list_registry
  /\ count test_list_registry = 2
  /\ InstrumentDB.is_exit_tax r0 test_list_registry (JStr "IE00 B3") = true
  /\ InstrumentDB.is_exit_tax r0 test_list_registry (JStr "gb00 0000") = false.
Proof. repeat split. Qed.

Lemma load_keys_normalized_witness :
  InstrumentDB.load r0 test_list_payload = Ok test_list_registry
  /\ Forall (fun kv => fst kv <> "" /\
                       InstrumentDB.normalize_isin r0 (JStr (fst kv)) = fst kv)
       test_list_registry.
Proof.
  split; [reflexivity|].
  apply (load_keys_normalized r0 test_list_payload test_list_registry).
  reflexivity.
Defined.

Lemma is_exit_tax_iff_witness :
  InstrumentDB.load r0 test_dict_payload = Ok test_dict_registry
  /\ (InstrumentDB.is_exit_tax r0 test_dict_registry (JStr "ie00 b3") = true <->
      exists rec : record,
        PyDict.get test_dict_registry (InstrumentDB.normalize_isin r0 (JStr "ie00 b3"))
          = Some rec
        /\ (PyStr.strip (PyStr.upper (Json.str r0 (type_tag rec))) = "ETF"
            \/ PyStr.strip (PyStr.upper (Json.str r0 (type_tag rec))) = "INDEX")).
Proof.
  split; [reflexivity|].
  apply (is_exit_tax_iff r0 test_dict_payload test_dict_registry "ie00 b3").
  reflexivity.
Defined.

Definition padded_registry : registry := [("IE00B3", [("TYPE", JStr " etf ")])].

(** C4 as stated fails: a tag with surrounding blanks is not [ETF] once
    case-folded, and the holding is classified as eligible all the same. *)
Lemma is_exit_tax_padded_tag :
  InstrumentDB.load r0 (JDict [("IE00B3", JStr " etf ")]) = Ok padded_registry
  /\ InstrumentDB.is_exit_tax r0 padded_registry (JStr "ie00 b3") = true
  /\ ~ (exists rec : record,
          PyDict.get padded_registry (InstrumentDB.normalize_isin r0 (JStr "ie00 b3"))
          = Some rec
          /\ (PyStr.upper (Json.str r0 (type_tag rec)) = "ETF"
              \/ PyStr.upper (Json.str r0 (type_tag rec)) = "INDEX")).
Proof.
  split; [reflexivity|split; [reflexivity|]].
  intros [rec [Hget Htag]].
  vm_compute in Hget. injection Hget as <-.
  vm_compute in Htag. destruct Htag as [H|H]; discriminate H.
Qed.















End RegistryFacts.


(** ** The normalizer on Unicode text *)

Module UnicodeFacts.

Import Unicode.

Local Open Scope N_scope.
Local Open Scope list_scope.

Lemma squeeze_app (a b : text) :
  remove_spaces (a ++ b) = remove_spaces a ++ remove_spaces b.
Proof.
  induction a as [|c r IH]; cbn [app remove_spaces]; [reflexivity|].
  destruct (isspace c); cbn [app]; now rewrite IH.
Qed.

Lemma squeeze_in (s : text) (c : N) :
  In c (remove_spaces s) -> In c s /\ isspace c = false.
Proof.
  induction s as [|a r IH]; cbn [remove_spaces]; [intros []|].
  destruct (isspace a) eqn:E.
  - intros H. destruct (IH H) as [Hin Hc]. split; [now right|exact Hc].
  - intros [<-|H]; [split; [now left|exact E]|].
    destruct (IH H) as [Hin Hc]. split; [now right|exact Hc].
Qed.

Lemma squeeze_same (s : text) :
  (forall c, In c s -> isspace c = false) -> remove_spaces s = s.
Proof.
  induction s as [|a r IH]; intros H; cbn [remove_spaces]; [reflexivity|].
  rewrite (H a (or_introl eq_refl)). f_equal.
  apply IH. intros c Hc. apply H. now right.
Qed.

Lemma join_words (p : text) (rest : list text) :
  join [] (p :: rest) = p ++ join [] rest.
Proof.
  destruct rest as [|q rest]; cbn [join app]; [now rewrite app_nil_r|reflexivity].
Qed.

Lemma join_split_words (w s : text) :
  join [] (split_from w s) = w ++ remove_spaces s.
Proof.
  revert w. induction s as [|c r IH]; intros w; cbn [split_from remove_spaces].
  - destruct w as [|a w]; [reflexivity|]. cbn [join]. now rewrite app_nil_r.
  - destruct (isspace c).
    + destruct w as [|a w]; [apply (IH [])|].
      rewrite join_words. now rewrite (IH []).
    + rewrite IH. now rewrite <- app_assoc.
Qed.

Lemma join_split_squeeze (s : text) : join [] (split s) = remove_spaces s.
Proof. unfold split. now rewrite join_split_words. Qed.

Section WithCaseTable.

Variable upper_of : N -> text.

Notation upper := (Unicode.upper upper_of).
Notation normalize_isin := (Unicode.normalize_isin upper_of).

(** What the normalizer needs of the case table: every character of an
    upper case is its own upper case, and whitespace has no case.  Both
    hold of [str.upper] ([upper_char_fixed] and [upper_char_space] below
    check them on the table of the interpreter). *)
Hypothesis upper_fixed : forall c d : N, In d (upper_of c) -> upper_of d = [d].
Hypothesis space_caseless : forall c : N, isspace c = true -> upper_of c = [c].

Lemma upper_concat (a b : text) : upper (a ++ b) = upper a ++ upper b.
Proof. apply flat_map_app. Qed.

Lemma upper_first (c : N) (r : text) : upper (c :: r) = upper_of c ++ upper r.
Proof. reflexivity. Qed.

Lemma upper_same (s : text) :
  (forall d, In d s -> upper_of d = [d]) -> upper s = s.
Proof.
  induction s as [|a r IH]; intros H; [reflexivity|].
  rewrite upper_first, (H a (or_introl eq_refl)). cbn [app]. f_equal.
  apply IH. intros d Hd. apply H. now right.
Qed.

Lemma upper_in (s : text) (d : N) : In d (upper s) -> upper_of d = [d].
Proof.
  unfold Unicode.upper. rewrite in_flat_map. intros (c & _ & Hd).
  now apply upper_fixed with c.
Qed.

Lemma upper_twice (s : text) : upper (upper s) = upper s.
Proof. apply upper_same. apply upper_in. Qed.

Lemma squeeze_upper_lstrip (s : text) :
  remove_spaces (upper (lstrip s)) = remove_spaces (upper s).
Proof.
  induction s as [|c r IH]; [reflexivity|]. cbn [lstrip].
  destruct (isspace c) eqn:E; [|reflexivity].
  rewrite IH, upper_first, (space_caseless c E). cbn [app remove_spaces].
  now rewrite E.
Qed.

Lemma squeeze_upper_rstrip (s : text) :
  remove_spaces (upper (rstrip s)) = remove_spaces (upper s).
Proof.
  induction s as [|c r IH]; [reflexivity|]. cbn [rstrip].
  rewrite (upper_first c r), squeeze_app, <- IH.
  destruct (rstrip r) as [|a t].
  - destruct (isspace c) eqn:E.
    + rewrite (space_caseless c E). cbn [remove_spaces app]. now rewrite E.
    + rewrite upper_first. now rewrite squeeze_app.
  - rewrite upper_first. now rewrite squeeze_app.
Qed.

Lemma normalize_text (x : text) :
  normalize_isin (Some x) = remove_spaces (upper x).
Proof.
  unfold Unicode.normalize_isin, strip.
  now rewrite join_split_squeeze, squeeze_upper_rstrip, squeeze_upper_lstrip.
Qed.

Lemma normalize_chars (x : text) (c : N) :
  In c (normalize_isin (Some x)) -> isspace c = false /\ upper_of c = [c].
Proof.
  rewrite normalize_text. intros H. apply squeeze_in in H as [Hin Hc].
  split; [exact Hc|now apply upper_in with x].
Qed.

Lemma normalize_same (y : text) :
  (forall c, In c y -> isspace c = false /\ upper_of c = [c]) ->
  normalize_isin (Some y) = y.
Proof.
  intros H. rewrite normalize_text, upper_same.
  - apply squeeze_same. intros c Hc. now apply H.
  - intros c Hc. now apply H.
Qed.

Lemma normalize_fixed (o : option text) :
  normalize_isin (Some (normalize_isin o)) = normalize_isin o.
Proof.
  destruct o as [x|]; [|reflexivity].
  apply normalize_same. intros c. apply normalize_chars.
Qed.

Lemma normalize_upper (x : text) :
  normalize_isin (Some (upper x)) = normalize_isin (Some x).
Proof. now rewrite !normalize_text, upper_twice. Qed.

Lemma normalize_blank (a b : text) (c : N) :
  isspace c = true ->
  normalize_isin (Some (a ++ c :: b)) = normalize_isin (Some (a ++ b)).
Proof.
  intros Hc. rewrite !normalize_text, !upper_concat, upper_first.
  rewrite (space_caseless c Hc), !squeeze_app. cbn [app remove_spaces].
  now rewrite Hc.
Qed.

(** C8. [normalize_isin] is a total function on [None] and on every
    string of Unicode text.  Applying it twice gives what applying it once
    gives; on a string it is the upper case of the text without its
    whitespace, so the result holds no whitespace and no character that
    [str.upper] would change; [None] and the empty string give the empty
    string.  This holds for every case table in which the characters of an
    upper case are their own upper case and whitespace has no case. *)
Theorem normalize_isin_idempotent :
  (forall x : text,
     normalize_isin (Some (normalize_isin (Some x))) = normalize_isin (Some x))
  /\ (forall o : option text,
        normalize_isin (Some (normalize_isin o)) = normalize_isin o)
  /\ (forall x : text, normalize_isin (Some x) = remove_spaces (upper x))
  /\ (forall (x : text) (c : N),
        In c (normalize_isin (Some x)) -> isspace c = false /\ upper_of c = [c])
  /\ normalize_isin None = []
  /\ normalize_isin (Some []) = [].
Proof.
  split; [|split; [|split; [|split; [|split]]]].
  - intros x. apply (normalize_fixed (Some x)).
  - apply normalize_fixed.
  - apply normalize_text.
  - apply normalize_chars.
  - reflexivity.
  - reflexivity.
Qed.

End WithCaseTable.

(** *** The case table of the interpreter *)

(** [c.upper() == c] *)
Definition caseless (c : N) : bool :=
  match upper_char c with
  | [e] => e =? c
  | _ => false
  end.

Lemma caseless_true (c : N) : caseless c = true -> upper_char c = [c].
Proof.
  unfold caseless. destruct (upper_char c) as [|e [|e' u]]; try discriminate.
  intros H. apply N.eqb_eq in H. now subst e.
Qed.

Lemma assoc_in (c : N) (t : list (N * text)) (u : text) :
  assoc c t = Some u -> In (c, u) t.
Proof.
  induction t as [|[k v] t IH]; cbn [assoc]; [discriminate|].
  destruct (c =? k) eqn:E.
  - intros [= <-]. apply N.eqb_eq in E. subst k. now left.
  - intros H. right. now apply IH.
Qed.

Lemma upper_table_caseless :
  forallb (fun e => forallb caseless (snd e)) upper_table = true.
Proof. vm_compute. reflexivity. Qed.

Lemma whitespace_caseless : forallb caseless whitespace = true.
Proof. vm_compute. reflexivity. Qed.

Lemma upper_char_fixed (c d : N) : In d (upper_char c) -> upper_char d = [d].
Proof.
  unfold upper_char at 1. destruct (assoc c upper_table) as [u|] eqn:E.
  - intros Hd. apply assoc_in in E. apply caseless_true.
    pose proof upper_table_caseless as H. rewrite forallb_forall in H.
    specialize (H (c, u) E). cbn [snd] in H. rewrite forallb_forall in H.
    now apply H.
  - intros [<-|[]]. unfold upper_char. now rewrite E.
Qed.

Lemma upper_char_space (c : N) : isspace c = true -> upper_char c = [c].
Proof.
  intros H. unfold isspace in H. apply existsb_exists in H as (w & Hw & E).
  apply N.eqb_eq in E. subst w. apply caseless_true.
  pose proof whitespace_caseless as H. rewrite forallb_forall in H.
  now apply H.
Qed.

Lemma normalize_isin_idempotent_witness :
  (forall x : text,
     normalize_isin upper_char (Some (normalize_isin upper_char (Some x)))
     = normalize_isin upper_char (Some x))
  /\ (forall x : text,
        normalize_isin upper_char (Some x)
        = remove_spaces (upper upper_char x))
  /\ normalize_isin upper_char (Some [105; 101; 48; 48; 160; 98; 51; 233])
     = [73; 69; 48; 48; 66; 51; 201]
  /\ normalize_isin upper_char (Some [32; 223; 8239; 255; 10]) = [83; 83; 376].
Proof.
  destruct (normalize_isin_idempotent upper_char upper_char_fixed upper_char_space)
    as (Hidem & _ & Htext & _).
  split; [exact Hidem|]. split; [exact Htext|].
  split; vm_compute; reflexivity.
Defined.

(** The Kelvin sign is an upper-case letter whose lower case is the letter
    k: an identifier spelt with it and the same identifier spelt with a k
    are two different keys. *)
Example kelvin_sign_is_not_k :
  normalize_isin upper_char (Some [8490; 49]) = [8490; 49]
  /\ normalize_isin upper_char (Some [107; 49]) = [75; 49].
Proof. split; vm_compute; reflexivity. Qed.

(** *** The 8-bit model on ASCII text *)

Lemma ascii_char (c : ascii) :
  (N_of_ascii c <? 128) = true ->
  upper_char (N_of_ascii c) = [N_of_ascii (PyStr.upper_char c)]
  /\ isspace (N_of_ascii (PyStr.upper_char c)) = PyStr.isspace (PyStr.upper_char c).
Proof.
  destruct c as [[] [] [] [] [] [] [] []]; intros H;
    try (vm_compute in H; discriminate H);
    split; vm_compute; reflexivity.
Qed.

Lemma of_string_squeeze (s : string) :
  isascii s = true ->
  of_string (PyStr.remove_spaces (PyStr.upper s))
  = remove_spaces (upper upper_char (of_string s)).
Proof.
  induction s as [|c r IH]; [reflexivity|]. cbn [isascii]. intros H.
  apply andb_true_iff in H as [Hc Hr].
  destruct (ascii_char c Hc) as [Hup Hsp].
  cbn [PyStr.upper PyStr.remove_spaces of_string].
  rewrite upper_first, Hup. cbn [app remove_spaces]. rewrite Hsp.
  destruct (PyStr.isspace (PyStr.upper_char c)); cbn [of_string];
    now rewrite IH.
Qed.

(** On ASCII text the normalizer of the 8-bit model is the normalizer on
    Unicode text. *)
Lemma normalize_isin_ascii (repr_other : json -> string) (s : string) :
  isascii s = true ->
  of_string (InstrumentDB.normalize_isin repr_other (JStr s))
  = normalize_isin upper_char (Some (of_string s)).
Proof.
  intros H. rewrite RegistryFacts.normalize_isin_text.
  rewrite (normalize_text upper_char upper_char_space).
  now apply of_string_squeeze.
Qed.

End UnicodeFacts.


(** ** Deemed disposal dates *)

Module CalendarFacts.

Import Calendar ExitTax.

(** The rule as the specification words it: the same day [n] years on,
    29 February becoming 28 February when the target year is not a leap
    year. *)
Definition plus_years (d : date) (n : Z) : date :=
  if (month d =? 2) && (day d =? 29) && negb (is_leap (year d + n))
  then mkDate (year d + n) 2 28
  else mkDate (year d + n) (month d) (day d).

Lemma days_in_month_bounds (y m : Z) : 28 <= days_in_month y m <= 31.
Proof.
  unfold days_in_month.
  destruct (m =? 2); [destruct (is_leap y); lia|].
  destruct ((m =? 4) || (m =? 6) || (m =? 9) || (m =? 11)); lia.
Qed.

Lemma days_in_month_other_year (y y' m : Z) :
  m <> 2 -> days_in_month y' m = days_in_month y m.
Proof.
  intros Hm. unfold days_in_month.
  destruct (m =? 2) eqn:E; [apply Z.eqb_eq in E; contradiction|reflexivity].
Qed.

Lemma days_in_february (y : Z) :
  days_in_month y 2 = if is_leap y then 29 else 28.
Proof. reflexivity. Qed.

Lemma valid_date_fields (d : date) :
  valid_date d = true <->
  MINYEAR <= year d <= MAXYEAR /\ 1 <= month d <= 12
  /\ 1 <= day d <= days_in_month (year d) (month d).
Proof.
  unfold valid_date, check_date_fields.
  rewrite !andb_true_iff, !Z.leb_le. tauto.
Qed.

Lemma date_new_ok (y m d : Z) :
  MINYEAR <= y <= MAXYEAR -> 1 <= m <= 12 -> 1 <= d <= days_in_month y m ->
  date_new y m d = Ok (mkDate y m d).
Proof.
  intros Hy Hm Hd. unfold date_new, check_date_fields.
  replace (MINYEAR <=? y) with true by (symmetry; apply Z.leb_le; lia).
  replace (y <=? MAXYEAR) with true by (symmetry; apply Z.leb_le; lia).
  replace (1 <=? m) with true by (symmetry; apply Z.leb_le; lia).
  replace (m <=? 12) with true by (symmetry; apply Z.leb_le; lia).
  replace (1 <=? d) with true by (symmetry; apply Z.leb_le; lia).
  replace (d <=? days_in_month y m) with true by (symmetry; apply Z.leb_le; lia).
  reflexivity.
Qed.

Lemma date_new_year_out (y m d : Z) : MAXYEAR < y -> date_new y m d = Err ValueError.
Proof.
  intros Hy. unfold date_new, check_date_fields.
  replace (y <=? MAXYEAR) with false by (symmetry; apply Z.leb_gt; lia).
  now rewrite andb_false_r.
Qed.

Lemma date_new_day_out (y m d : Z) :
  days_in_month y m < d -> date_new y m d = Err ValueError.
Proof.
  intros Hd. unfold date_new, check_date_fields.
  replace (d <=? days_in_month y m) with false by (symmetry; apply Z.leb_gt; lia).
  now rewrite andb_false_r.
Qed.

(** [_add_years] on a valid date whose target year exists. *)
Lemma add_years_in_range (d : date) (n : Z) :
  valid_date d = true -> MINYEAR <= year d + n <= MAXYEAR ->
  _add_years d n = Ok (plus_years d n).
Proof.
  intros Hv Hy. apply valid_date_fields in Hv as (Hy0 & Hm & Hd).
  unfold _add_years, replace, plus_years.
  destruct (month d =? 2) eqn:Em.
  - apply Z.eqb_eq in Em. rewrite Em in *. rewrite days_in_february in Hd.
    destruct (day d =? 29) eqn:Ed.
    + apply Z.eqb_eq in Ed. rewrite Ed in *.
      destruct (is_leap (year d + n)) eqn:El; cbn [andb negb].
      * rewrite date_new_ok; try lia; [reflexivity|].
        rewrite days_in_february, El. lia.
      * rewrite date_new_day_out by (rewrite days_in_february, El; lia).
        apply date_new_ok; try lia. rewrite days_in_february, El. lia.
    + apply Z.eqb_neq in Ed. cbn [andb].
      rewrite date_new_ok; try lia; [reflexivity|].
      rewrite days_in_february. destruct (is_leap (year d)), (is_leap (year d + n)); lia.
  - apply Z.eqb_neq in Em. cbn [andb].
    rewrite date_new_ok; try lia; [reflexivity|].
    rewrite (days_in_month_other_year (year d)) by assumption. lia.
Qed.

(** [_add_years] past the last year of the calendar. *)
Lemma add_years_out_of_range (d : date) (n : Z) :
  MAXYEAR < year d + n -> _add_years d n = Err ValueError.
Proof.
  intros Hy. unfold _add_years, replace.
  now rewrite !date_new_year_out by assumption.
Qed.

Lemma add_years_result (d r : date) (n : Z) :
  valid_date d = true -> 0 <= n -> _add_years d n = Ok r -> r = plus_years d n.
Proof.
  intros Hv Hn H.
  destruct (Z_le_gt_dec (year d + n) MAXYEAR) as [Hle|Hgt].
  - rewrite add_years_in_range in H; [congruence|assumption|].
    apply valid_date_fields in Hv. unfold MINYEAR in *. lia.
  - rewrite add_years_out_of_range in H by lia. discriminate.
Qed.

End CalendarFacts.


(** ** The exit-tax computation *)

Module ExitTaxFacts.

Import Calendar ExitTax CalendarFacts.

(** One step of a chain of binds in a hypothesis that says the chain
    returned. *)
Ltac bind_ok H :=
  match type of H with
  | bind ?c _ = Ok _ =>
      let E := fresh "E" in
      destruct c eqn:E; cbn [bind] in H; [|discriminate H]
  end.

Section WithRuntime.

Variable repr_other : json -> string.
Variable float_of_str : string -> option float.
Variable iso_scan : string -> option datetime.
Variable clock : nat -> datetime.

Notation exit_tax_row := (ExitTax.exit_tax_row repr_other float_of_str iso_scan clock).
Notation rows_loop := (ExitTax.rows_loop repr_other float_of_str iso_scan clock).
Notation compute :=
  (ExitTax.compute_exit_tax_from_positions repr_other float_of_str iso_scan clock).
Notation _parse_datetime := (ExitTax._parse_datetime iso_scan).

(** The text [created_at_raw] of a position, and the timestamp the loop
    takes for it in iteration [i]. *)
Definition created_at_text (p : json) : string :=
  match p with
  | JDict items =>
      PyStr.strip (Json.str repr_other
                     match PyDict.get items "createdAt" with
                     | Some v => v
                     | None => JStr ""
                     end)
  | _ => ""
  end.

Definition created_at_step (i : nat) (p : json) : result datetime :=
  if PyStr.nonempty (created_at_text p)
  then _parse_datetime (created_at_text p)
  else Ok (clock i).

Lemma json_get_dict (items : list (string * json)) (k : string) (d : json) :
  Json.get (JDict items) k d =
  Ok match PyDict.get items k with Some v => v | None => d end.
Proof. simpl. destruct (PyDict.get items k); reflexivity. Qed.

Lemma exit_tax_row_fields (rate : float) (i : nat) (p : json) (r : ExitTaxRow) :
  exit_tax_row rate i p = Ok r ->
  created_at_step i p = Ok (created_at r)
  /\ _add_years (date_of (created_at r)) 8 = Ok (deemed_disposal_date r)
  /\ taxable_gain_today r =
     PyFloat.max (PyFloat.sub (current_value r) (total_cost r)) PyFloat.zero
  /\ exit_tax_due_today r = PyFloat.mul (taxable_gain_today r) rate
  /\ forall rate', exists r',
       exit_tax_row rate' i p = Ok r'
       /\ taxable_gain_today r' = taxable_gain_today r
       /\ exit_tax_due_today r' = PyFloat.mul (taxable_gain_today r) rate'.
Proof.
  intros H. unfold ExitTax.exit_tax_row in H.
  destruct p as [| | | | | |items]; try discriminate H.
  rewrite !json_get_dict in H. cbn [bind] in H.
  do 9 bind_ok H.
  bind_ok H. injection H as <-.
  cbn [created_at deemed_disposal_date taxable_gain_today exit_tax_due_today
       current_value total_cost].
  split; [exact E4|]. split; [exact E5|]. split; [reflexivity|].
  split; [reflexivity|].
  intros rate'. unfold ExitTax.exit_tax_row.
  rewrite !json_get_dict. cbn [bind].
  repeat match goal with
         | E : ?c = Ok _ |- context [bind ?c _] => rewrite E; cbn [bind]
         end.
  eexists. split; [reflexivity|]. split; reflexivity.
Qed.

(** *** The loop *)

(** [rows_of i ps rs]: the rows [rs] are those of the positions [ps], one
    each and in order, the first position being met in iteration [i]. *)
Inductive rows_of (rate : float) : nat -> list json -> list ExitTaxRow -> Prop :=
| rows_of_nil (i : nat) : rows_of rate i [] []
| rows_of_cons (i : nat) (p : json) (ps : list json) (r : ExitTaxRow)
    (rs : list ExitTaxRow) :
    exit_tax_row rate i p = Ok r ->
    rows_of rate (S i) ps rs ->
    rows_of rate i (p :: ps) (r :: rs).

Lemma rows_loop_ok (rate : float) (ps : list json) (acc : list ExitTaxRow) (i : nat)
  (out : list ExitTaxRow) :
  rows_loop rate acc i ps = Ok out <->
  exists rs, rows_of rate i ps rs /\ out = (acc ++ rs)%list.
Proof.
  revert acc i. induction ps as [|p ps IH]; intros acc i; cbn [ExitTax.rows_loop].
  - split.
    + intros [= <-]. exists []. split; [constructor|now rewrite app_nil_r].
    + intros [rs [Hrs ->]]. inversion Hrs. now rewrite app_nil_r.
  - destruct (exit_tax_row rate i p) as [r|e] eqn:E; cbn [bind].
    + rewrite IH. split.
      * intros [rs [Hrs ->]]. exists (r :: rs).
        split; [now constructor|now rewrite <- app_assoc].
      * intros [rs [Hrs ->]]. inversion Hrs as [|? ? ? r' rs' Hr Hrest]; subst.
        assert (r' = r) by congruence. subst r'.
        exists rs'. split; [assumption|now rewrite <- app_assoc].
    + split; [discriminate|].
      intros [rs [Hrs _]]. inversion Hrs; congruence.
Qed.

Lemma rows_of_length (rate : float) (i : nat) (ps : list json) (rs : list ExitTaxRow) :
  rows_of rate i ps rs -> List.length rs = List.length ps.
Proof. induction 1; simpl; congruence. Qed.

Lemma rows_of_nth (rate : float) (i : nat) (ps : list json) (rs : list ExitTaxRow) :
  rows_of rate i ps rs ->
  forall (k : nat) (p : json),
    nth_error ps k = Some p ->
    exists r, nth_error rs k = Some r /\ exit_tax_row rate (i + k) p = Ok r.
Proof.
  induction 1 as [|i p0 ps r0 rs Hr Hrest IH]; intros k p Hk.
  - destruct k; discriminate.
  - destruct k as [|k]; simpl in Hk.
    + injection Hk as <-. exists r0. rewrite Nat.add_0_r. now split.
    + destruct (IH k p Hk) as [r [Hn Hrow]]. exists r. split; [assumption|].
      now rewrite Nat.add_succ_r.
Qed.

Lemma rows_of_Forall (rate : float) (P : ExitTaxRow -> Prop) (i : nat)
  (ps : list json) (rs : list ExitTaxRow) :
  (forall k p r, exit_tax_row rate k p = Ok r -> P r) ->
  rows_of rate i ps rs -> Forall P rs.
Proof. intros HP. induction 1; constructor; eauto. Qed.

(** The loop stops at the first position whose row cannot be built, with
    the exception raised there. *)
Lemma rows_loop_first_error (rate : float) (ps : list json) (acc : list ExitTaxRow)
  (i : nat) (e : exn) :
  rows_loop rate acc i ps = Err e <->
  exists before p after rs,
    ps = (before ++ p :: after)%list
    /\ rows_of rate i before rs
    /\ exit_tax_row rate (i + List.length before) p = Err e.
Proof.
  revert acc i. induction ps as [|p ps IH]; intros acc i; cbn [ExitTax.rows_loop].
  - split; [discriminate|]. intros (before & q & after & rs & H & _).
    destruct before; discriminate.
  - destruct (exit_tax_row rate i p) as [r|e'] eqn:E; cbn [bind].
    + rewrite IH. split.
      * intros (before & q & after & rs & -> & Hrs & Hq).
        exists (p :: before), q, after, (r :: rs).
        split; [reflexivity|]. split; [now constructor|].
        simpl. now rewrite Nat.add_succ_r.
      * intros (before & q & after & rs & Heq & Hrs & Hq).
        destruct before as [|p' before]; simpl in Heq; injection Heq as <- ->.
        -- simpl in Hq. rewrite Nat.add_0_r in Hq. congruence.
        -- inversion Hrs as [|? ? ? r' rs' Hr Hrest]; subst.
           exists before, q, after, rs'. split; [reflexivity|].
           split; [assumption|]. simpl in Hq. now rewrite Nat.add_succ_r in Hq.
    + split.
      * intros [= <-]. exists [], p, ps, []. split; [reflexivity|].
        split; [constructor|]. simpl. now rewrite Nat.add_0_r.
      * intros (before & q & after & rs & Heq & Hrs & Hq).
        destruct before as [|p' before]; simpl in Heq; injection Heq as <- ->.
        -- simpl in Hq. rewrite Nat.add_0_r in Hq. congruence.
        -- inversion Hrs; congruence.
Qed.

(** *** Which positions yield a row *)

(** A value the loop can use as the [instrument] or [walletImpact] object:
    an object, or a falsy value, which the loop replaces by the empty
    object. *)
Definition object_or_falsy (v : json) : bool :=
  match v with
  | JDict _ => true
  | _ => negb (Json.truthy v)
  end.

(** A position the loop can read: an object whose two nested entries are
    usable. *)
Definition readable (p : json) : bool :=
  match p with
  | JDict items =>
      object_or_falsy match PyDict.get items "instrument" with
                      | Some v => v
                      | None => JDict []
                      end
      && object_or_falsy match PyDict.get items "walletImpact" with
                         | Some v => v
                         | None => JDict []
                         end
  | _ => false
  end.

(** The text [_parse_datetime] hands to [datetime.fromisoformat]. *)
Definition iso_text (raw : string) : string :=
  if PyStr.endswith (PyStr.strip raw) "Z"
  then PyStr.drop_last (PyStr.strip raw) ++ "+00:00"
  else PyStr.strip raw.

(** The timestamps the computation goes through with: the empty text, and
    the texts that [datetime.fromisoformat] turns into a datetime whose year
    is at most 9991. *)
Definition timestamp_accepted (p : json) : bool :=
  if PyStr.nonempty (created_at_text p) then
    match iso_scan (iso_text (created_at_text p)) with
    | Some dt => valid_datetime dt && (year (dt_date dt) + 8 <=? MAXYEAR)
    | None => false
    end
  else true.

(** The readings of the clock are dates of the calendar, eight years at
    least before its end. *)
Definition clock_sound : Prop :=
  forall i, valid_date (date_of (clock i)) = true
            /\ year (date_of (clock i)) + 8 <= MAXYEAR.

Lemma or_else_object (v : json) :
  object_or_falsy v = true -> exists items, Json.or_else v (JDict []) = JDict items.
Proof.
  intros H. unfold Json.or_else.
  destruct v as [| b | n | f | s | l | items];
    try (cbn [object_or_falsy] in H; apply negb_true_iff in H; rewrite H; eauto).
  destruct items; simpl; eauto.
Qed.

Lemma valid_datetime_date (dt : datetime) :
  valid_datetime dt = true -> valid_date (date_of dt) = true.
Proof. unfold valid_datetime. intros H. now apply andb_true_iff in H. Qed.

Lemma parse_datetime_valid (s : string) (dt : datetime) :
  _parse_datetime s = Ok dt -> valid_datetime dt = true.
Proof.
  unfold ExitTax._parse_datetime, fromisoformat.
  destruct (iso_scan _) as [dt'|]; [|discriminate].
  destruct (valid_datetime dt') eqn:E; [|discriminate]. now intros [= <-].
Qed.

Lemma created_at_step_valid (i : nat) (p : json) (dt : datetime) :
  valid_date (date_of (clock i)) = true ->
  created_at_step i p = Ok dt -> valid_date (date_of dt) = true.
Proof.
  intros Hclock. unfold created_at_step.
  destruct (PyStr.nonempty (created_at_text p)).
  - intros H. now apply valid_datetime_date, parse_datetime_valid with (created_at_text p).
  - now intros [= <-].
Qed.

Lemma timestamp_outcome (i : nat) (p : json) :
  valid_date (date_of (clock i)) = true ->
  year (date_of (clock i)) + 8 <= MAXYEAR ->
  (timestamp_accepted p = true ->
   exists dt d, created_at_step i p = Ok dt /\ _add_years (date_of dt) 8 = Ok d)
  /\ (timestamp_accepted p = false ->
      created_at_step i p = Err ValueError
      \/ exists dt, created_at_step i p = Ok dt
                    /\ _add_years (date_of dt) 8 = Err ValueError).
Proof.
  intros Hv Hy. unfold timestamp_accepted, created_at_step.
  destruct (PyStr.nonempty (created_at_text p)).
  - unfold ExitTax._parse_datetime, fromisoformat. fold (iso_text (created_at_text p)).
    destruct (iso_scan (iso_text (created_at_text p))) as [dt|].
    + destruct (valid_datetime dt) eqn:Edt; cbn [andb].
      * pose proof (valid_datetime_date _ Edt) as Hd.
        destruct (year (dt_date dt) + 8 <=? MAXYEAR) eqn:El.
        -- apply Z.leb_le in El. split; [intros _|discriminate].
           exists dt, (plus_years (date_of dt) 8). split; [reflexivity|].
           apply add_years_in_range; [assumption|].
           apply valid_date_fields in Hd. unfold date_of, MINYEAR in *. lia.
        -- apply Z.leb_gt in El. split; [discriminate|intros _].
           right. exists dt. split; [reflexivity|].
           apply add_years_out_of_range. unfold date_of. lia.
      * split; [discriminate|intros _; now left].
    + split; [discriminate|intros _; now left].
  - split; [intros _|discriminate].
    exists (clock i), (plus_years (date_of (clock i)) 8). split; [reflexivity|].
    apply add_years_in_range; [assumption|].
    apply valid_date_fields in Hv. unfold MINYEAR in *. lia.
Qed.

Lemma exit_tax_row_readable (rate : float) (i : nat) (p : json) :
  readable p = true ->
  match created_at_step i p with
  | Ok dt =>
      match _add_years (date_of dt) 8 with
      | Ok d => exists r, exit_tax_row rate i p = Ok r
      | Err e => exit_tax_row rate i p = Err e
      end
  | Err e => exit_tax_row rate i p = Err e
  end.
Proof.
  intros Hr. destruct p as [| | | | | |items]; try discriminate Hr.
  cbn [readable] in Hr. apply andb_true_iff in Hr as [Hi Hw].
  destruct (or_else_object _ Hi) as [inst Einst].
  destruct (or_else_object _ Hw) as [wi Ewi].
  unfold ExitTax.exit_tax_row, created_at_step, created_at_text.
  rewrite !json_get_dict. cbn [bind].
  rewrite Einst, Ewi. rewrite !json_get_dict. cbn [bind].
  destruct (Json.truthy _); cbn [bind];
    (destruct (if PyStr.nonempty _ then _ else _) as [dt|e]; cbn [bind];
     [destruct (_add_years (date_of dt) 8) as [d|e]; cbn [bind];
      [eexists; reflexivity|reflexivity]|reflexivity]).
Qed.

Lemma row_outcome (rate : float) (i : nat) (p : json) :
  readable p = true ->
  valid_date (date_of (clock i)) = true ->
  year (date_of (clock i)) + 8 <= MAXYEAR ->
  (timestamp_accepted p = true -> exists r, exit_tax_row rate i p = Ok r)
  /\ (timestamp_accepted p = false -> exit_tax_row rate i p = Err ValueError).
Proof.
  intros Hr Hv Hy. pose proof (exit_tax_row_readable rate i p Hr) as Hrow.
  destruct (timestamp_outcome i p Hv Hy) as [Hyes Hno]. split; intros Hacc.
  - destruct (Hyes Hacc) as (dt & d & Edt & Ed). now rewrite Edt, Ed in Hrow.
  - destruct (Hno Hacc) as [Edt | (dt & Edt & Ed)].
    + now rewrite Edt in Hrow.
    + now rewrite Edt, Ed in Hrow.
Qed.

Lemma rows_all_accepted (rate : float) (ps : list json) :
  clock_sound ->
  Forall (fun p => readable p = true) ps ->
  forallb timestamp_accepted ps = true ->
  forall i, exists rs, rows_of rate i ps rs.
Proof.
  intros Hclock Hread. induction Hread as [|p ps Hp Hps IH]; intros Hacc i.
  - exists []. constructor.
  - cbn [forallb] in Hacc. apply andb_true_iff in Hacc as [Hhead Htail].
    destruct (Hclock i) as [Hv Hy].
    destruct (row_outcome rate i p Hp Hv Hy) as [Hyes _].
    destruct (Hyes Hhead) as [r Hr]. destruct (IH Htail (S i)) as [rs Hrs].
    exists (r :: rs). now constructor.
Qed.

Lemma rows_some_rejected (rate : float) (ps : list json) :
  clock_sound ->
  Forall (fun p => readable p = true) ps ->
  forallb timestamp_accepted ps = false ->
  forall acc i, rows_loop rate acc i ps = Err ValueError.
Proof.
  intros Hclock Hread. induction Hread as [|p ps Hp Hps IH]; intros Hacc acc i.
  - discriminate.
  - cbn [forallb] in Hacc. cbn [ExitTax.rows_loop].
    destruct (Hclock i) as [Hv Hy].
    destruct (row_outcome rate i p Hp Hv Hy) as [Hyes Hno].
    destruct (timestamp_accepted p) eqn:E.
    + destruct (Hyes eq_refl) as [r ->]. cbn [bind]. apply IH. exact Hacc.
    + now rewrite (Hno eq_refl).
Qed.

(** C6, as the code has it. For a list of readable positions whose
    timestamps are all accepted (empty, or parsed by
    [datetime.fromisoformat] into a year of at most 9991), the computation
    returns one row for each position, in the order of the input: the row
    at index [k] is the one built from the position at index [k].  The
    function is given no registry, so no row is left out for its
    classification. *)
Theorem one_row_per_position (ps : list json) (rate : float) :
  clock_sound ->
  Forall (fun p => readable p = true) ps ->
  Forall (fun p => timestamp_accepted p = true) ps ->
  exists rows,
    compute (JList ps) rate = Ok rows
    /\ List.length rows = List.length ps
    /\ forall (k : nat) (p : json),
         nth_error ps k = Some p ->
         exists r, nth_error rows k = Some r /\ exit_tax_row rate k p = Ok r.
Proof.
  intros Hclock Hread Hacc.
  rewrite Forall_forall in Hacc. apply forallb_forall in Hacc.
  destruct (rows_all_accepted rate ps Hclock Hread Hacc 0%nat) as [rs Hrs].
  exists rs. split; [|split].
  - unfold ExitTax.compute_exit_tax_from_positions. cbn [Json.iter bind].
    apply rows_loop_ok. exists rs. now split.
  - now apply rows_of_length with rate 0%nat.
  - intros k p Hk. exact (rows_of_nth rate 0 ps rs Hrs k p Hk).
Qed.

Lemma rows_of_accepted (rate : float) (i : nat) (ps : list json)
  (rs : list ExitTaxRow) :
  clock_sound ->
  Forall (fun p => readable p = true) ps ->
  rows_of rate i ps rs -> forallb timestamp_accepted ps = true.
Proof.
  intros Hclock Hread Hrs. induction Hrs as [|i p ps r rs Hr Hrest IH].
  - reflexivity.
  - inversion Hread as [|? ? Hp Hps]; subst. cbn [forallb].
    rewrite (IH Hps), andb_true_r.
    destruct (Hclock i) as [Hv Hy].
    destruct (row_outcome rate i p Hp Hv Hy) as [_ Hno].
    destruct (timestamp_accepted p); [reflexivity|].
    rewrite (Hno eq_refl) in Hr. discriminate Hr.
Qed.

(** C3, as the code has it. For a list of readable positions, the
    computation returns rows exactly when every [createdAt] text, once
    stripped, is empty or is turned by [datetime.fromisoformat] (a trailing
    [Z] first replaced by [+00:00]) into a datetime whose year is at most
    9991, whatever else the text has or lacks; otherwise the whole
    computation raises [ValueError], the format error of the
    specification, at the first position whose text is not of that kind,
    and returns no row at all. *)
Theorem batch_fails_on_bad_timestamp (ps : list json) (rate : float) :
  clock_sound ->
  Forall (fun p => readable p = true) ps ->
  ((exists rows, compute (JList ps) rate = Ok rows)
   <-> forallb timestamp_accepted ps = true)
  /\ (compute (JList ps) rate = Err ValueError
      <-> forallb timestamp_accepted ps = false)
  /\ (forall e : exn,
        compute (JList ps) rate = Err e ->
        e = ValueError
        /\ exists before p after,
             ps = (before ++ p :: after)%list
             /\ forallb timestamp_accepted before = true
             /\ timestamp_accepted p = false
             /\ exit_tax_row rate (List.length before) p = Err ValueError).
Proof.
  intros Hclock Hread.
  unfold ExitTax.compute_exit_tax_from_positions. cbn [Json.iter bind].
  split; [|split].
  - destruct (forallb timestamp_accepted ps) eqn:E.
    + destruct (rows_all_accepted rate ps Hclock Hread E 0%nat) as [rs Hrs].
      split; [reflexivity|intros _]. exists rs.
      apply rows_loop_ok. exists rs. now split.
    + rewrite (rows_some_rejected rate ps Hclock Hread E).
      split; [intros [rows Hrows]; discriminate Hrows|discriminate].
  - destruct (forallb timestamp_accepted ps) eqn:E.
    + destruct (rows_all_accepted rate ps Hclock Hread E 0%nat) as [rs Hrs].
      assert (Hok : rows_loop rate [] 0 ps = Ok rs).
      { apply rows_loop_ok. exists rs. now split. }
      rewrite Hok. split; discriminate.
    + rewrite (rows_some_rejected rate ps Hclock Hread E). now split.
  - intros e He.
    apply rows_loop_first_error in He
      as (before & p & after & rs & Hps & Hrs & Hp).
    simpl in Hp. subst ps. apply Forall_app in Hread as [Hbefore Hrest].
    inversion Hrest as [|? ? Hread_p _]; subst.
    destruct (Hclock (List.length before)) as [Hv Hy].
    destruct (row_outcome rate (List.length before) p Hread_p Hv Hy) as [Hyes Hno].
    destruct (timestamp_accepted p) eqn:E.
    + destruct (Hyes eq_refl) as [r Hr]. rewrite Hr in Hp. discriminate Hp.
    + rewrite (Hno eq_refl) in Hp. injection Hp as <-.
      split; [reflexivity|]. exists before, p, after.
      split; [reflexivity|]. split; [|split; [exact E|now apply Hno]].
      now apply rows_of_accepted with rate 0%nat rs.
Qed.

Lemma compute_rows (data : json) (rate : float) (rows : list ExitTaxRow) :
  compute data rate = Ok rows ->
  exists ps, Json.iter data = Ok ps /\ rows_of rate 0 ps rows.
Proof.
  unfold ExitTax.compute_exit_tax_from_positions.
  destruct (Json.iter data) as [ps|e]; cbn [bind]; [|discriminate].
  intros H. apply rows_loop_ok in H as [rs [Hrs ->]]. now exists ps.
Qed.

(** C1, as the code has it. [_add_years d 8] returns the same day eight
    years on, 29 February becoming 28 February when the target year is not
    a leap year, for every valid date up to the year 9991; for a later
    year it raises [ValueError].  Every row the computation returns carries
    that date, taken from the date part of its [created_at]. *)
Theorem deemed_disposal_date_rule :
  (forall d : date,
     valid_date d = true -> year d + 8 <= MAXYEAR ->
     _add_years d 8 = Ok (plus_years d 8))
  /\ (forall d : date,
        MAXYEAR < year d + 8 -> _add_years d 8 = Err ValueError)
  /\ (forall (data : json) (rate : float) (rows : list ExitTaxRow),
        (forall i, valid_date (date_of (clock i)) = true) ->
        compute data rate = Ok rows ->
        Forall (fun r => deemed_disposal_date r
                         = plus_years (date_of (created_at r)) 8) rows).
Proof.
  split; [|split].
  - intros d Hv Hy. apply add_years_in_range; [assumption|].
    apply valid_date_fields in Hv. unfold MINYEAR in *. lia.
  - intros d Hy. now apply add_years_out_of_range.
  - intros data rate rows Hclock Hrows.
    destruct (compute_rows _ _ _ Hrows) as [ps [_ Hof]].
    apply (rows_of_Forall rate _ 0%nat ps rows); [|assumption].
    intros k p r Hr.
    destruct (exit_tax_row_fields rate k p r Hr) as (Hstep & Hadd & _).
    apply add_years_result; [|lia|assumption].
    now apply created_at_step_valid with k p.
Qed.

(** *** Gain and tax *)

Lemma max_zero_not_negative (x : float) :
  PyFloat.ltb (PyFloat.max x PyFloat.zero) PyFloat.zero = false.
Proof.
  unfold PyFloat.max, PyFloat.gtb, PyFloat.ltb.
  destruct (SFltb x PyFloat.zero) eqn:E; [reflexivity|exact E].
Qed.

Lemma max_zero_positive (x : float) :
  PyFloat.ltb PyFloat.zero x = true -> PyFloat.max x PyFloat.zero = x.
Proof.
  unfold PyFloat.max, PyFloat.gtb, PyFloat.ltb.
  destruct x as [[]|[]| |[] m e]; simpl; intros H; try discriminate H; reflexivity.
Qed.

Lemma max_zero_not_positive (x : float) :
  PyFloat.leb x PyFloat.zero = true ->
  PyFloat.eqb (PyFloat.max x PyFloat.zero) PyFloat.zero = true.
Proof.
  unfold PyFloat.max, PyFloat.gtb, PyFloat.leb, PyFloat.eqb.
  destruct x as [[]|[]| |[] m e]; simpl; intros H; try discriminate H; reflexivity.
Qed.

(** The gain and the tax of one row. *)
Definition gain_rule (rate : float) (r : ExitTaxRow) : Prop :=
  let diff := PyFloat.sub (current_value r) (total_cost r) in
  taxable_gain_today r = PyFloat.max diff PyFloat.zero
  /\ (PyFloat.ltb PyFloat.zero diff = true -> taxable_gain_today r = diff)
  /\ (PyFloat.leb diff PyFloat.zero = true ->
      PyFloat.eqb (taxable_gain_today r) PyFloat.zero = true)
  /\ PyFloat.ltb (taxable_gain_today r) PyFloat.zero = false
  /\ exit_tax_due_today r = PyFloat.mul (taxable_gain_today r) rate.

Lemma row_gain_rule (rate : float) (i : nat) (p : json) (r : ExitTaxRow) :
  exit_tax_row rate i p = Ok r -> gain_rule rate r.
Proof.
  intros Hr.
  destruct (exit_tax_row_fields rate i p r Hr) as (_ & _ & Hgain & Hdue & _).
  unfold gain_rule. cbv zeta. rewrite Hgain.
  split; [reflexivity|]. split; [apply max_zero_positive|].
  split; [apply max_zero_not_positive|]. split; [apply max_zero_not_negative|].
  rewrite Hdue, Hgain. reflexivity.
Qed.

Lemma compute_gain_rule (data : json) (rate : float) (rows : list ExitTaxRow) :
  compute data rate = Ok rows -> Forall (gain_rule rate) rows.
Proof.
  intros Hrows. destruct (compute_rows _ _ _ Hrows) as [ps [_ Hof]].
  apply (rows_of_Forall rate _ 0%nat ps rows); [|assumption].
  intros k p r Hr. now apply (row_gain_rule rate k p r).
Qed.

(** C2. In the row of every position, for every rate, [taxable_gain_today]
    is [max(current_value - total_cost, 0.0)]: the difference when it is
    positive, zero when it is not, and in no case below zero; and
    [exit_tax_due_today] is that gain times the rate.  The rate is not
    checked: a position that yields a row for one rate yields one for any
    other, with the same gain. *)
Theorem taxable_gain_rule (rate : float) (i : nat) (p : json) (r : ExitTaxRow) :
  exit_tax_row rate i p = Ok r ->
  (let diff := PyFloat.sub (current_value r) (total_cost r) in
   taxable_gain_today r = PyFloat.max diff PyFloat.zero
   /\ (PyFloat.ltb PyFloat.zero diff = true -> taxable_gain_today r = diff)
   /\ (PyFloat.leb diff PyFloat.zero = true ->
       PyFloat.eqb (taxable_gain_today r) PyFloat.zero = true)
   /\ PyFloat.ltb (taxable_gain_today r) PyFloat.zero = false
   /\ exit_tax_due_today r = PyFloat.mul (taxable_gain_today r) rate)
  /\ forall rate' : float,
       exists r', exit_tax_row rate' i p = Ok r'
                  /\ taxable_gain_today r' = taxable_gain_today r
                  /\ exit_tax_due_today r' = PyFloat.mul (taxable_gain_today r) rate'.
Proof.
  intros Hr. split.
  - exact (row_gain_rule rate i p r Hr).
  - now destruct (exit_tax_row_fields rate i p r Hr) as (_ & _ & _ & _ & Hrate).
Qed.

End WithRuntime.

(** *** Closed examples *)

Local Notation run_row :=
  (ExitTax.exit_tax_row Examples.no_repr Examples.no_float_text IsoFormat.scan
     Examples.noon_2026).

(** The rate 0.38 as a binary64 value. *)
Definition rate_038 : float := S754_finite false 6845471433603154 (-54).

Definition float_of_Z (n : Z) : float := binary_normalize PyFloat.prec PyFloat.emax n 0 false.

(** The end-to-end scenario of the specification: cost 1000, value 1500,
    created on 2020-05-11, rate 0.38. *)
Definition scenario_position : json :=
  Examples.position (JStr "2020-05-11T17:55:09.000Z") 1000 1500.

Definition scenario_row : ExitTaxRow :=
  mkExitTaxRow "VWCE" "IE00BK5BQT80" "Vanguard FTSE All-World" "EUR"
    (mkDatetime (mkDate 2020 5 11) 17 55 9 0 (Some 0)) (mkDate 2028 5 11)
    (float_of_Z 1000) (float_of_Z 1500) (float_of_Z 500) (float_of_Z 500)
    (float_of_Z 190).

Example scenario_computed :
  Examples.compute (JList [scenario_position]) rate_038 = Ok [scenario_row].
Proof. reflexivity. Qed.

Example leap_day_kept : _add_years (mkDate 2020 2 29) 8 = Ok (mkDate 2028 2 29).
Proof. reflexivity. Qed.

Example leap_day_clamped : _add_years (mkDate 2092 2 29) 8 = Ok (mkDate 2100 2 28).
Proof. reflexivity. Qed.

Example loss_gives_no_gain :
  exists r, run_row rate_038 0 (Examples.position (JStr "2020-05-11") 100 80) = Ok r
            /\ taxable_gain_today r = PyFloat.zero
            /\ exit_tax_due_today r = PyFloat.zero.
Proof. eexists. repeat split. Qed.

Lemma noon_2026_sound : clock_sound Examples.noon_2026.
Proof. intros i. split; [reflexivity|]. vm_compute. discriminate. Qed.

Lemma deemed_disposal_date_rule_witness :
  valid_date (mkDate 2092 2 29) = true
  /\ _add_years (mkDate 2092 2 29) 8 = Ok (plus_years (mkDate 2092 2 29) 8)
  /\ plus_years (mkDate 2092 2 29) 8 = mkDate 2100 2 28.
Proof.
  split; [reflexivity|]. split; [|reflexivity].
  apply (proj1 (deemed_disposal_date_rule Examples.no_repr Examples.no_float_text
                  IsoFormat.scan Examples.noon_2026)).
  - reflexivity.
  - vm_compute. discriminate.
Defined.

(** C1 as stated fails: 1 January 9992 is a valid date, and adding eight
    years to it raises. *)
Lemma add_years_past_calendar_end :
  valid_date (mkDate 9992 1 1) = true
  /\ _add_years (mkDate 9992 1 1) 8 = Err ValueError
  /\ ExitTax._parse_datetime IsoFormat.scan "9992-01-01T00:00:00Z"
     = Ok (mkDatetime (mkDate 9992 1 1) 0 0 0 0 (Some 0)).
Proof. repeat split. Qed.

Lemma taxable_gain_rule_witness :
  run_row rate_038 0 scenario_position = Ok scenario_row
  /\ PyFloat.ltb (taxable_gain_today scenario_row) PyFloat.zero = false
  /\ exit_tax_due_today scenario_row
     = PyFloat.mul (taxable_gain_today scenario_row) rate_038.
Proof.
  split; [reflexivity|].
  destruct (taxable_gain_rule Examples.no_repr Examples.no_float_text IsoFormat.scan
              Examples.noon_2026 rate_038 0 scenario_position scenario_row eq_refl)
    as [(_ & _ & _ & Hneg & Hdue) _].
  split; assumption.
Defined.

Definition two_positions : list json :=
  [scenario_position; Examples.position (JStr "2026-01-22T10:05:14.015+02:00") 200 150].

Definition one_bad_position : list json :=
  [scenario_position; Examples.position (JStr "not-a-date") 200 150;
   Examples.position (JStr "2026-01-22T10:05:14.015+02:00") 200 150].

Lemma one_row_per_position_witness :
  exists rows,
    Examples.compute (JList two_positions) rate_038 = Ok rows
    /\ List.length rows = List.length two_positions
    /\ forall (k : nat) (p : json),
         nth_error two_positions k = Some p ->
         exists r, nth_error rows k = Some r /\ run_row rate_038 k p = Ok r.
Proof.
  apply (one_row_per_position Examples.no_repr Examples.no_float_text IsoFormat.scan
           Examples.noon_2026 two_positions rate_038).
  - exact noon_2026_sound.
  - repeat constructor.
  - repeat constructor.
Defined.

Definition late_position : json :=
  Examples.position (JStr "9995-05-11T17:55:09Z") 1000 1500.

(** C6 as stated fails: the timestamp below is parsed, the position is
    readable, and the computation returns no row for it. *)
Lemma parseable_timestamp_without_row :
  readable late_position = true
  /\ ExitTax._parse_datetime IsoFormat.scan "9995-05-11T17:55:09Z"
     = Ok (mkDatetime (mkDate 9995 5 11) 17 55 9 0 (Some 0))
  /\ Examples.compute (JList [late_position]) rate_038 = Err ValueError.
Proof. repeat split. Qed.

(** No row is left out for its classification: the registry of the tests
    does not know the scenario's ISIN, and the row is there. *)
Example ineligible_position_has_row :
  InstrumentDB.is_exit_tax Examples.no_repr RegistryFacts.test_dict_registry
    (JStr (isin scenario_row)) = false
  /\ Examples.compute (JList [scenario_position]) rate_038 = Ok [scenario_row].
Proof. split; reflexivity. Qed.

Lemma batch_fails_on_bad_timestamp_witness :
  Examples.compute (JList one_bad_position) rate_038 = Err ValueError
  /\ exists rows, Examples.compute (JList two_positions) rate_038 = Ok rows.
Proof.
  split.
  - apply (batch_fails_on_bad_timestamp Examples.no_repr Examples.no_float_text
             IsoFormat.scan Examples.noon_2026 one_bad_position rate_038).
    + exact noon_2026_sound.
    + repeat constructor.
    + reflexivity.
  - apply (batch_fails_on_bad_timestamp Examples.no_repr Examples.no_float_text
             IsoFormat.scan Examples.noon_2026 two_positions rate_038).
    + exact noon_2026_sound.
    + repeat constructor.
    + reflexivity.
Defined.

(** C3 as stated fails both ways: a timestamp with neither [Z] nor a
    numeric offset is outside the stated profile and the computation
    returns a row for it; a timestamp inside the stated profile, in the
    year 9995, makes the computation raise. *)
Lemma stated_profile_is_not_the_accepted_set :
  (IsoFormat.in_stated_profile "2020-05-11T17:55:09" = false
   /\ "2020-05-11T17:55:09" <> ""
   /\ exists r,
        Examples.compute
          (JList [Examples.position (JStr "2020-05-11T17:55:09") 1000 1500]) rate_038
        = Ok [r])
  /\ (IsoFormat.in_stated_profile "9995-05-11T17:55:09Z" = true
      /\ Examples.compute
           (JList [late_position]) rate_038
         = Err ValueError).
Proof.
  split; [split; [reflexivity|split; [discriminate|]]|split; reflexivity].
  eexists. reflexivity.
Qed.

End ExitTaxFacts.


(** ** The valuation snapshot *)

Module SnapshotFacts.

Import Snapshot.

(** The percentage as the specification words it: the quotient when both
    operands are present and the cost is not zero, absent otherwise. *)
Definition expected_pct (r : SnapshotRow) : option float :=
  match unrealized_pl r, total_cost r with
  | Some pl, Some tc =>
      if PyFloat.eqb tc PyFloat.zero then None else Some (PyFloat.div pl tc)
  | _, _ => None
  end.

Lemma pl_pct_expected (r : SnapshotRow) : pl_pct r = Ok (expected_pct r).
Proof.
  unfold pl_pct, expected_pct, not_none_or_zero, PyFloat.truediv.
  destruct (total_cost r) as [tc|], (unrealized_pl r) as [pl|]; try reflexivity.
  - destruct (PyFloat.eqb tc PyFloat.zero); reflexivity.
  - destruct (PyFloat.eqb tc PyFloat.zero); reflexivity.
Qed.

Lemma write_rows_total (rows : list SnapshotRow) :
  exists body, write_rows rows = Ok body
               /\ List.length body = List.length rows
               /\ forall k r, nth_error rows k = Some r ->
                    exists cells, nth_error body k = Some cells
                                  /\ row_cells r = Ok cells.
Proof.
  induction rows as [|r rows (body & Hbody & Hlen & Hnth)]; cbn [write_rows].
  - exists []. split; [reflexivity|split; [reflexivity|]].
    intros [|k] r H; discriminate H.
  - unfold row_cells at 1. rewrite pl_pct_expected. cbn [bind].
    rewrite Hbody. cbn [bind]. eexists. split; [reflexivity|].
    split; [simpl; now rewrite Hlen|].
    intros [|k] r' H; simpl in H.
    + injection H as <-. eexists. split; [reflexivity|].
      unfold row_cells. now rewrite pl_pct_expected.
    + exact (Hnth k r' H).
Qed.

(** C9. For every snapshot row the derived percentage is
    [unrealized_pl / total_cost] when both are present and [total_cost] is
    not zero, and is absent otherwise; it is the last cell of the row
    written, and the division never raises: the whole file is written, one
    line per row after the header. *)
Theorem unrealized_pl_pct_guarded :
  (forall r : SnapshotRow,
     pl_pct r = Ok (expected_pct r)
     /\ (total_cost r = None -> pl_pct r = Ok None)
     /\ (unrealized_pl r = None -> pl_pct r = Ok None)
     /\ (forall tc, total_cost r = Some tc -> PyFloat.eqb tc PyFloat.zero = true ->
                    pl_pct r = Ok None)
     /\ (forall tc pl, total_cost r = Some tc -> unrealized_pl r = Some pl ->
                       PyFloat.eqb tc PyFloat.zero = false ->
                       pl_pct r = Ok (Some (PyFloat.div pl tc)))
     /\ exists cells, row_cells r = Ok cells
                      /\ nth_error cells 10 = Some (cell_of (expected_pct r)))
  /\ (forall rows : list SnapshotRow,
        exists body, write_snapshot_csv rows = Ok (header :: body)
                     /\ List.length body = List.length rows).
Proof.
  split.
  - intros r. rewrite pl_pct_expected. unfold expected_pct.
    split; [reflexivity|]. split; [intros ->; now destruct (unrealized_pl r)|].
    split; [now intros ->|].
    split; [intros tc -> ->; now destruct (unrealized_pl r)|].
    split; [now intros tc pl -> -> ->|].
    unfold row_cells. rewrite pl_pct_expected. cbn [bind].
    eexists. split; reflexivity.
  - intros rows. destruct (write_rows_total rows) as (body & Hbody & Hlen & _).
    exists body. unfold write_snapshot_csv. rewrite Hbody. now split.
Qed.

(** The two cases the specification lists: cost 0, and cost 200 with a
    profit of 50. *)
Definition row_with (cost pl : option float) : SnapshotRow :=
  mkSnapshotRow "VWCE" "IE00BK5BQT80" "Vanguard FTSE All-World" "EUR"
    PyFloat.one None None cost None pl.

Example pct_absent_on_zero_cost :
  pl_pct (row_with (Some PyFloat.zero) (Some (ExitTaxFacts.float_of_Z 50))) = Ok None
  /\ pl_pct (row_with (Some (S754_zero true)) (Some (ExitTaxFacts.float_of_Z 50)))
     = Ok None.
Proof. split; reflexivity. Qed.

Example pct_quarter :
  pl_pct (row_with (Some (ExitTaxFacts.float_of_Z 200))
                   (Some (ExitTaxFacts.float_of_Z 50)))
  = Ok (Some (S754_finite false 4503599627370496 (-54))).
Proof. reflexivity. Qed.

End SnapshotFacts.


(** * Further properties of the code *)

(** ** The registry as a dictionary *)

Module RegistryMore.

Import InstrumentDB.

Lemma set_keys_in {V : Type} (d : list (string * V)) (k k' : string) (v : V) :
  In k' (PyDict.keys (PyDict.set d k v)) <-> k' = k \/ In k' (PyDict.keys d).
Proof.
  unfold PyDict.keys. induction d as [|[k0 v0] rest IH]; simpl.
  - intuition.
  - destruct (String.eqb k0 k) eqn:E; simpl.
    + apply String.eqb_eq in E. subst. intuition.
    + rewrite IH. intuition.
Qed.

Lemma set_keys_nodup {V : Type} (d : list (string * V)) (k : string) (v : V) :
  NoDup (PyDict.keys d) -> NoDup (PyDict.keys (PyDict.set d k v)).
Proof.
  induction d as [|[k0 v0] rest IH]; simpl; intros Hd.
  - constructor; [intros []|constructor].
  - inversion Hd as [|? ? Hnot Hrest]; subst.
    destruct (String.eqb k0 k) eqn:E; simpl.
    + now constructor.
    + constructor; [|now apply IH].
      intros Hin. apply set_keys_in in Hin as [->|Hin]; [|contradiction].
      now rewrite String.eqb_refl in E.
Qed.

Lemma in_keys_get {V : Type} (d : list (string * V)) (k : string) :
  In k (PyDict.keys d) -> exists v, PyDict.get d k = Some v.
Proof.
  induction d as [|[k0 v0] rest IH]; simpl; [intros []|].
  destruct (String.eqb k0 k) eqn:E; [eauto|].
  intros [->|Hin]; [now rewrite String.eqb_refl in E|now apply IH].
Qed.

Section WithRepr.
Variable repr_other : json -> string.

Notation normalize_isin := (InstrumentDB.normalize_isin repr_other).
Notation load := (InstrumentDB.load repr_other).
Notation is_exit_tax := (InstrumentDB.is_exit_tax repr_other).
Notation record_identifier := (RegistryFacts.record_identifier repr_other).

(** The normalized identifiers a source lists, entry by entry. *)
Definition source_identifiers (data : json) : list string :=
  match data with
  | JDict items => map (fun kv => normalize_isin (JStr (fst kv))) items
  | JList recs => map record_identifier recs
  | _ => []
  end.

Definition registry_of (base : registry) (ids : list string) (db : registry) : Prop :=
  (NoDup (PyDict.keys base) -> NoDup (PyDict.keys db))
  /\ forall k, In k (PyDict.keys db) <->
               In k (PyDict.keys base) \/ (k <> "" /\ In k ids).

Lemma registry_of_step (base db db' : registry) (ids : list string) (id : string) :
  registry_of base ids db ->
  (NoDup (PyDict.keys db) -> NoDup (PyDict.keys db')) ->
  (forall k, In k (PyDict.keys db') <->
             In k (PyDict.keys db) \/ (k <> "" /\ k = id)) ->
  registry_of base (ids ++ [id]) db'.
Proof.
  intros [Hnd Hin] Hnd' Hin'. split; [auto|].
  intros k. rewrite Hin', Hin, in_app_iff. simpl. intuition.
Qed.

Lemma load_list_step_keys_in (db : registry) (rec : json) (k : string) :
  In k (PyDict.keys (load_list_step repr_other db rec)) <->
  In k (PyDict.keys db) \/ (k <> "" /\ k = record_identifier rec).
Proof.
  destruct rec; simpl; try (intuition congruence).
  destruct (PyStr.nonempty (normalize_isin _)) eqn:E; cbn [negb].
  - apply StrFacts.nonempty_true in E. rewrite set_keys_in. intuition congruence.
  - apply StrFacts.nonempty_false in E. rewrite E. intuition congruence.
Qed.

Lemma load_list_step_nodup (db : registry) (rec : json) :
  NoDup (PyDict.keys db) -> NoDup (PyDict.keys (load_list_step repr_other db rec)).
Proof.
  destruct rec; simpl; try easy.
  destruct (PyStr.nonempty (normalize_isin _)); cbn [negb]; [|easy].
  apply set_keys_nodup.
Qed.

Lemma load_dict_step_keys_in (db : registry) (kv : string * json) (k : string) :
  In k (PyDict.keys (load_dict_step repr_other db kv)) <->
  In k (PyDict.keys db) \/ (k <> "" /\ k = normalize_isin (JStr (fst kv))).
Proof.
  destruct kv as [k0 v]. unfold load_dict_step. cbn [fst].
  destruct (PyStr.nonempty (normalize_isin (JStr k0))) eqn:E; cbn [negb].
  - apply StrFacts.nonempty_true in E.
    destruct v; rewrite set_keys_in; intuition congruence.
  - apply StrFacts.nonempty_false in E. rewrite E. intuition congruence.
Qed.

Lemma load_dict_step_nodup (db : registry) (kv : string * json) :
  NoDup (PyDict.keys db) -> NoDup (PyDict.keys (load_dict_step repr_other db kv)).
Proof.
  destruct kv as [k0 v]. unfold load_dict_step.
  destruct (PyStr.nonempty (normalize_isin (JStr k0))); cbn [negb]; [|easy].
  destruct v; apply set_keys_nodup.
Qed.

Lemma fold_list_registry_of (recs : list json) (base : registry) :
  registry_of base (map record_identifier recs)
    (fold_left (load_list_step repr_other) recs base).
Proof.
  induction recs as [|rec recs IH] using rev_ind.
  - split; [auto|]. simpl. intuition.
  - rewrite fold_left_app, map_app. cbn [fold_left map].
    eapply registry_of_step; [exact IH|apply load_list_step_nodup|].
    apply load_list_step_keys_in.
Qed.

Lemma fold_dict_registry_of (items : list (string * json)) (base : registry) :
  registry_of base (map (fun kv => normalize_isin (JStr (fst kv))) items)
    (fold_left (load_dict_step repr_other) items base).
Proof.
  induction items as [|kv items IH] using rev_ind.
  - split; [auto|]. simpl. intuition.
  - rewrite fold_left_app, map_app. cbn [fold_left map].
    eapply registry_of_step; [exact IH|apply load_dict_step_nodup|].
    apply load_dict_step_keys_in.
Qed.

Lemma load_registry_of (data : json) (db : registry) :
  load data = Ok db -> registry_of [] (source_identifiers data) db.
Proof.
  destruct data; simpl; try discriminate; intros [= <-].
  - apply fold_list_registry_of.
  - apply fold_dict_registry_of.
Qed.

(** X1. The keys of a loaded registry are the distinct non-empty normalized
    identifiers of its source, each once; [count] is their number. *)
Theorem count_distinct_identifiers (data : json) (db : registry) :
  load data = Ok db ->
  NoDup (PyDict.keys db)
  /\ (forall k, In k (PyDict.keys db) <->
                k <> "" /\ In k (source_identifiers data))
  /\ count db
     = Z.of_nat (List.length
                   (nodup string_dec
                      (filter PyStr.nonempty (source_identifiers data)))).
Proof.
  intros Hload. destruct (load_registry_of _ _ Hload) as [Hnd Hin].
  assert (Hnodup : NoDup (PyDict.keys db)) by (apply Hnd; constructor).
  assert (Hkeys : forall k, In k (PyDict.keys db) <->
                            k <> "" /\ In k (source_identifiers data)).
  { intros k. rewrite Hin. simpl. intuition. }
  split; [exact Hnodup|]. split; [exact Hkeys|].
  unfold count. f_equal.
  transitivity (List.length (PyDict.keys db)).
  { unfold PyDict.keys. now rewrite length_map. }
  apply Permutation_length, NoDup_Permutation; [exact Hnodup|apply NoDup_nodup|].
  intros k. rewrite Hkeys, nodup_In, filter_In, StrFacts.nonempty_true. tauto.
Qed.

(** *** Lookups *)

Lemma upper_app (a b : string) :
  PyStr.upper (a ++ b) = PyStr.upper a ++ PyStr.upper b.
Proof. induction a as [|c r IH]; simpl; [reflexivity|]. now rewrite IH. Qed.

Lemma remove_spaces_app (a b : string) :
  PyStr.remove_spaces (a ++ b) = PyStr.remove_spaces a ++ PyStr.remove_spaces b.
Proof.
  induction a as [|c r IH]; simpl; [reflexivity|].
  destruct (PyStr.isspace c); simpl; now rewrite IH.
Qed.

Lemma normalize_isin_upper (x : string) :
  normalize_isin (JStr (PyStr.upper x)) = normalize_isin (JStr x).
Proof. now rewrite !RegistryFacts.normalize_isin_text, StrFacts.upper_idem. Qed.

Lemma normalize_isin_blank (a b : string) (c : ascii) :
  PyStr.isspace c = true ->
  normalize_isin (JStr (a ++ String c b)) = normalize_isin (JStr (a ++ b)).
Proof.
  intros Hc. rewrite !RegistryFacts.normalize_isin_text, !upper_app.
  rewrite !remove_spaces_app. simpl.
  now rewrite StrFacts.isspace_upper_char, Hc.
Qed.

Lemma is_exit_tax_by_key (db : registry) (x y : json) :
  normalize_isin x = normalize_isin y -> is_exit_tax db x = is_exit_tax db y.
Proof. unfold InstrumentDB.is_exit_tax. now intros ->. Qed.

Lemma get_by_key (db : registry) (x y : json) :
  normalize_isin x = normalize_isin y ->
  InstrumentDB.get repr_other db x = InstrumentDB.get repr_other db y.
Proof. unfold InstrumentDB.get. now intros ->. Qed.

(** X2. [is_exit_tax] and [get] look an identifier up under its
    normalized form only, and that form does not change when the
    identifier is upper-cased or when a whitespace character is inserted
    anywhere in it: for any registry both answer alike for these
    spellings.  The normalized form is invariant in the 8-bit model and,
    with the case table of the interpreter, on Unicode text.  (Lower-casing
    is not such a change: see [UnicodeFacts.kelvin_sign_is_not_k].) *)
Theorem lookup_ignores_spelling (db : registry) :
  (forall x y : json,
     normalize_isin x = normalize_isin y ->
     is_exit_tax db x = is_exit_tax db y
     /\ InstrumentDB.get repr_other db x = InstrumentDB.get repr_other db y)
  /\ (forall x : string,
        is_exit_tax db (JStr (PyStr.upper x)) = is_exit_tax db (JStr x)
        /\ InstrumentDB.get repr_other db (JStr (PyStr.upper x))
           = InstrumentDB.get repr_other db (JStr x))
  /\ (forall (a b : string) (c : ascii),
        PyStr.isspace c = true ->
        is_exit_tax db (JStr (a ++ String c b)) = is_exit_tax db (JStr (a ++ b))
        /\ InstrumentDB.get repr_other db (JStr (a ++ String c b))
           = InstrumentDB.get repr_other db (JStr (a ++ b)))
  /\ (forall x : Unicode.text,
        Unicode.normalize_isin Unicode.upper_char
          (Some (Unicode.upper Unicode.upper_char x))
        = Unicode.normalize_isin Unicode.upper_char (Some x))
  /\ (forall (a b : Unicode.text) (c : N),
        Unicode.isspace c = true ->
        Unicode.normalize_isin Unicode.upper_char (Some (a ++ c :: b)%list)
        = Unicode.normalize_isin Unicode.upper_char (Some (a ++ b)%list)).
Proof.
  split; [|split; [|split; [|split]]].
  - intros x y Hxy. split; [now apply is_exit_tax_by_key|now apply get_by_key].
  - intros x. split;
      (apply is_exit_tax_by_key || apply get_by_key);
      apply normalize_isin_upper.
  - intros a b c Hc. split;
      (apply is_exit_tax_by_key || apply get_by_key);
      now apply normalize_isin_blank.
  - apply UnicodeFacts.normalize_upper.
    + apply UnicodeFacts.upper_char_fixed.
    + apply UnicodeFacts.upper_char_space.
  - apply UnicodeFacts.normalize_blank.
    apply UnicodeFacts.upper_char_space.
Qed.

(** The record a Shape A entry stores. *)
Definition stored_record (v : json) : record :=
  match v with
  | JDict r => r
  | _ => [("TYPE", v)]
  end.

(** X3. An entry added at the end of a source replaces whatever the
    registry held under its normalized identifier and changes no other
    key: after the load, the key maps to the record of that last entry,
    in both shapes. *)
Theorem last_entry_wins :
  (forall (recs : list json) (r : record) (db db' : registry),
     load (JList recs) = Ok db ->
     load (JList (recs ++ [JDict r])) = Ok db' ->
     record_identifier (JDict r) <> "" ->
     PyDict.get db' (record_identifier (JDict r)) = Some r
     /\ forall k, k <> record_identifier (JDict r) ->
                  PyDict.get db' k = PyDict.get db k)
  /\ (forall (items : list (string * json)) (k0 : string) (v : json)
             (db db' : registry),
        load (JDict items) = Ok db ->
        load (JDict (items ++ [(k0, v)])) = Ok db' ->
        normalize_isin (JStr k0) <> "" ->
        PyDict.get db' (normalize_isin (JStr k0)) = Some (stored_record v)
        /\ forall k, k <> normalize_isin (JStr k0) ->
                     PyDict.get db' k = PyDict.get db k).
Proof.
  split.
  - intros recs r db db' [= <-] [= <-] Hid.
    rewrite fold_left_app. cbn [fold_left]. unfold load_list_step at 1 3.
    cbn [RegistryFacts.record_identifier] in Hid.
    apply StrFacts.nonempty_true in Hid.
    cbn [RegistryFacts.record_identifier]. rewrite Hid. cbn [negb].
    split; [apply DictFacts.get_set_same|].
    intros k Hk. apply DictFacts.get_set_other. congruence.
  - intros items k0 v db db' [= <-] [= <-] Hid.
    rewrite fold_left_app. cbn [fold_left]. unfold load_dict_step at 1 3.
    apply StrFacts.nonempty_true in Hid. rewrite Hid. cbn [negb].
    split.
    + destruct v; apply DictFacts.get_set_same.
    + intros k Hk. destruct v; apply DictFacts.get_set_other; congruence.
Qed.

(** X4. [is_exit_tax] and [get] tell the same story: an identifier is
    classified as exit-tax exactly when [get] finds its record and the type
    that record reports, as text, upper-cased and stripped, is [ETF] or
    [INDEX]; an identifier [get] does not find is never exit-tax. *)
Theorem is_exit_tax_agrees_with_get (db : registry) (isin : json) :
  is_exit_tax db isin =
  match InstrumentDB.get repr_other db isin with
  | Some info =>
      in_exit_tax_types
        (PyStr.strip (PyStr.upper
           (Json.str repr_other (Json.or_else (InstrumentDB.type info) (JStr "")))))
  | None => false
  end.
Proof.
  unfold InstrumentDB.is_exit_tax, InstrumentDB.get.
  destruct (PyStr.nonempty (normalize_isin isin)); cbn [negb]; [|reflexivity].
  destruct (PyDict.get db (normalize_isin isin)) as [[|f rec]|]; reflexivity.
Qed.

(** X5. [sample_isins] returns nothing for a limit of zero or less, and
    otherwise the first [limit] keys of the registry in its iteration
    order (all of them when there are fewer): identifiers in normalized
    form, without repetition, each of them a key under which the registry
    holds a record. *)
Theorem sample_isins_prefix (data : json) (db : registry) (limit : Z) :
  load data = Ok db ->
  (limit <= 0 -> sample_isins db limit = [])
  /\ Z.of_nat (List.length (sample_isins db limit))
     = Z.min (Z.max limit 0) (count db)
  /\ (exists rest, PyDict.keys db = (sample_isins db limit ++ rest)%list)
  /\ NoDup (sample_isins db limit)
  /\ forall x, In x (sample_isins db limit) ->
               normalize_isin (JStr x) = x
               /\ exists rec, PyDict.get db x = Some rec.
Proof.
  intros Hload.
  destruct (load_registry_of _ _ Hload) as [Hnd _].
  assert (Hnodup : NoDup (PyDict.keys db)) by (apply Hnd; constructor).
  pose proof (RegistryFacts.load_keys repr_other _ _ Hload) as Hnorm.
  assert (Hcount : count db = Z.of_nat (List.length (PyDict.keys db))).
  { unfold count, PyDict.keys. now rewrite length_map. }
  unfold sample_isins. destruct (limit <=? 0) eqn:E.
  - apply Z.leb_le in E. split; [reflexivity|]. split; [simpl; lia|].
    split; [now exists (PyDict.keys db)|]. split; [constructor|intros x []].
  - apply Z.leb_gt in E. split; [lia|]. split.
    + rewrite length_firstn, Hcount. lia.
    + split; [exists (skipn (Z.to_nat limit) (PyDict.keys db));
              now rewrite firstn_skipn|].
      assert (Hsub : forall x, In x (firstn (Z.to_nat limit) (PyDict.keys db)) ->
                               In x (PyDict.keys db)).
      { intros x Hx. rewrite <- (firstn_skipn (Z.to_nat limit) (PyDict.keys db)).
        apply in_or_app. now left. }
      split.
      * rewrite <- (firstn_skipn (Z.to_nat limit) (PyDict.keys db)) in Hnodup.
        now apply NoDup_app_remove_r in Hnodup.
      * intros x Hx. apply Hsub in Hx. split.
        -- now destruct (RegistryFacts.keys_normalized_in repr_other db x Hnorm Hx).
        -- now apply in_keys_get.
Qed.

End WithRepr.

(** *** Closed examples *)

Local Notation r0 := Examples.no_repr.

Lemma count_distinct_identifiers_witness :
  InstrumentDB.load r0 RegistryFacts.test_list_payload
  = Ok RegistryFacts.test_list_registry
  /\ source_identifiers r0 RegistryFacts.test_list_payload
     = ["IE00B3"; "GB000000"; ""]
  /\ count RegistryFacts.test_list_registry = 2
  /\ NoDup (PyDict.keys RegistryFacts.test_list_registry).
Proof.
  split; [reflexivity|]. split; [reflexivity|]. split; [reflexivity|].
  apply (count_distinct_identifiers r0 RegistryFacts.test_list_payload
           RegistryFacts.test_list_registry).
  reflexivity.
Defined.

Definition overriding_record : record :=
  [("Isin", JStr "ie00 b3"); ("type", JStr "Equity")].

Lemma last_entry_wins_witness :
  PyDict.get
    (fold_left (load_list_step r0)
       [JDict [("isin", JStr " ie00b3 "); ("type", JStr "index")];
        JDict overriding_record] [])
    "IE00B3"
  = Some overriding_record.
Proof.
  apply (proj1 (last_entry_wins r0)
           [JDict [("isin", JStr " ie00b3 "); ("type", JStr "index")]]
           overriding_record
           [("IE00B3", [("isin", JStr " ie00b3 "); ("type", JStr "index")])]).
  - reflexivity.
  - reflexivity.
  - discriminate.
Defined.

Lemma sample_isins_prefix_witness :
  InstrumentDB.load r0 RegistryFacts.test_dict_payload
  = Ok RegistryFacts.test_dict_registry
  /\ sample_isins RegistryFacts.test_dict_registry 1 = ["IE00B3"]
  /\ Z.of_nat (List.length (sample_isins RegistryFacts.test_dict_registry 5))
     = Z.min (Z.max 5 0) (count RegistryFacts.test_dict_registry).
Proof.
  split; [reflexivity|]. split; [reflexivity|].
  apply (sample_isins_prefix r0 RegistryFacts.test_dict_payload
           RegistryFacts.test_dict_registry 5).
  reflexivity.
Defined.

End RegistryMore.


(** ** Dates and timestamps *)

Module CalendarMore.

Import Calendar ExitTax CalendarFacts.

Lemma date_new_inv (y m d : Z) (r : date) :
  date_new y m d = Ok r -> r = mkDate y m d /\ valid_date r = true.
Proof.
  unfold date_new. destruct (check_date_fields y m d) eqn:E; [|discriminate].
  intros [= <-]. split; [reflexivity|exact E].
Qed.

Lemma date_new_error (y m d : Z) (e : exn) :
  date_new y m d = Err e -> e = ValueError.
Proof.
  unfold date_new. destruct (check_date_fields y m d); [discriminate|].
  now intros [= <-].
Qed.

Lemma date_new_year_low (y m d : Z) : y < MINYEAR -> date_new y m d = Err ValueError.
Proof.
  intros Hy. unfold date_new, check_date_fields.
  replace (MINYEAR <=? y) with false by (symmetry; apply Z.leb_gt; lia).
  reflexivity.
Qed.

Lemma add_years_error (d : date) (n : Z) (e : exn) :
  _add_years d n = Err e -> e = ValueError.
Proof.
  unfold _add_years, replace.
  destruct (date_new (year d + n) (month d) (day d)) as [r|e1] eqn:E1;
    [discriminate|].
  apply date_new_error in E1. subst e1. apply date_new_error.
Qed.

Lemma add_years_valid (d r : date) (n : Z) :
  _add_years d n = Ok r -> valid_date r = true.
Proof.
  unfold _add_years, replace.
  destruct (date_new (year d + n) (month d) (day d)) as [r1|e1] eqn:E1.
  - intros [= <-]. now apply date_new_inv in E1.
  - apply date_new_error in E1. subst e1. intros H. now apply date_new_inv in H.
Qed.

Lemma add_years_range (d : date) (n : Z) :
  valid_date d = true ->
  (MINYEAR <= year d + n <= MAXYEAR -> _add_years d n = Ok (plus_years d n))
  /\ (~ MINYEAR <= year d + n <= MAXYEAR -> _add_years d n = Err ValueError).
Proof.
  intros Hv. split; [now apply add_years_in_range|].
  intros Hy. destruct (Z_lt_le_dec (year d + n) MINYEAR) as [Hlow|Hhigh].
  - unfold _add_years, replace. now rewrite !date_new_year_low.
  - apply add_years_out_of_range. lia.
Qed.

Lemma add_years_ok_range (d r : date) (n : Z) :
  valid_date d = true -> _add_years d n = Ok r ->
  MINYEAR <= year d + n <= MAXYEAR /\ r = plus_years d n.
Proof.
  intros Hv Hr. destruct (add_years_range d n Hv) as [Hin Hout].
  destruct (Z_le_dec MINYEAR (year d + n)) as [Hlo|Hlo];
    [destruct (Z_le_dec (year d + n) MAXYEAR) as [Hhi|Hhi]|].
  - split; [lia|]. rewrite Hin in Hr by lia. congruence.
  - rewrite Hout in Hr by lia. discriminate.
  - rewrite Hout in Hr by lia. discriminate.
Qed.

Lemma add_years_shape (d r : date) (n : Z) :
  valid_date d = true -> _add_years d n = Ok r ->
  valid_date r = true
  /\ year r = year d + n
  /\ month r = month d
  /\ (day r = day d
      \/ (month d = 2 /\ day d = 29 /\ day r = 28
          /\ is_leap (year d + n) = false)).
Proof.
  intros Hv Hr. split; [now apply add_years_valid with d n|].
  destruct (add_years_ok_range d r n Hv Hr) as [_ ->]. unfold plus_years.
  destruct (month d =? 2) eqn:Em; cbn [andb]; [|simpl; auto].
  destruct (day d =? 29) eqn:Ed; cbn [andb]; [|simpl; auto].
  destruct (is_leap (year d + n)) eqn:El; cbn [negb]; [simpl; auto|].
  apply Z.eqb_eq in Em, Ed. simpl. rewrite Em. auto 10.
Qed.

Lemma add_years_compose (d d1 : date) (a b : Z) :
  valid_date d = true ->
  ~ (month d = 2 /\ day d = 29) ->
  _add_years d a = Ok d1 ->
  _add_years d1 b = _add_years d (a + b).
Proof.
  intros Hv Hleap H1.
  assert (Hplain : forall n, plus_years d n = mkDate (year d + n) (month d) (day d)).
  { intros n. unfold plus_years.
    destruct (month d =? 2) eqn:Em; cbn [andb]; [|reflexivity].
    destruct (day d =? 29) eqn:Ed; cbn [andb]; [|reflexivity].
    apply Z.eqb_eq in Em, Ed. tauto. }
  pose proof (add_years_valid d d1 a H1) as Hv1.
  destruct (add_years_ok_range d d1 a Hv H1) as [_ Hd1].
  rewrite Hplain in Hd1.
  assert (Hy1 : year d1 = year d + a) by (now rewrite Hd1).
  assert (Hm1 : month d1 = month d) by (now rewrite Hd1).
  assert (Hday : day d1 = day d) by (now rewrite Hd1).
  destruct (add_years_range d1 b Hv1) as (Hin1 & Hout1).
  destruct (add_years_range d (a + b) Hv) as (Hin2 & Hout2).
  destruct (Z_le_dec MINYEAR (year d + (a + b))) as [Hlo|Hlo];
    [destruct (Z_le_dec (year d + (a + b)) MAXYEAR) as [Hhi|Hhi]|].
  - rewrite Hin1 by lia. rewrite Hin2 by lia. f_equal.
    rewrite Hplain. unfold plus_years.
    destruct (month d1 =? 2) eqn:Em; cbn [andb];
      [destruct (day d1 =? 29) eqn:Ed; cbn [andb];
       [apply Z.eqb_eq in Em, Ed; rewrite Hm1 in Em; rewrite Hday in Ed; tauto|]|];
      rewrite Hy1, Hm1, Hday; f_equal; lia.
  - rewrite Hout1 by lia. now rewrite Hout2 by lia.
  - rewrite Hout1 by lia. now rewrite Hout2 by lia.
Qed.

Example leap_day_does_not_compose :
  (d1 <- _add_years (mkDate 2020 2 29) 1 ;; _add_years d1 3) = Ok (mkDate 2024 2 28)
  /\ _add_years (mkDate 2020 2 29) 4 = Ok (mkDate 2024 2 29).
Proof. split; reflexivity. Qed.

(** *** Any number of years *)

Lemma year_fits (y : Z) : MINYEAR <= y <= MAXYEAR -> CInt.fits y = true.
Proof.
  unfold MINYEAR, MAXYEAR, CInt.fits. intros H.
  apply andb_true_iff. split; apply Z.leb_le; lia.
Qed.

Lemma add_years_fits (d : date) (n : Z) :
  CInt.fits (year d + n) = true -> CInt._add_years d n = _add_years d n.
Proof.
  intros H. unfold CInt._add_years, CInt.replace, CInt.arg_fits.
  rewrite !H. reflexivity.
Qed.

Lemma add_years_overflow (d : date) (n : Z) :
  CInt.fits (year d + n) = false -> CInt._add_years d n = Err OverflowError.
Proof.
  intros H. unfold CInt._add_years, CInt.replace, CInt.arg_fits.
  rewrite !H. reflexivity.
Qed.

(** X6. [_add_years] for any number of years, negative ones included, on a
    valid date.  It returns exactly when the target year is one of 1 to
    9999; for another target year it raises [ValueError] when that year
    fits a C [int] and [OverflowError] when it does not.  What it returns
    is a valid date of the target year, in the same month, on the same day
    or, for a 29 February moved into a year that is not a leap year, on
    the 28th. *)
Theorem add_years_any (d : date) (n : Z) :
  valid_date d = true ->
  (MINYEAR <= year d + n <= MAXYEAR -> CInt._add_years d n = Ok (plus_years d n))
  /\ (~ MINYEAR <= year d + n <= MAXYEAR -> CInt.fits (year d + n) = true ->
      CInt._add_years d n = Err ValueError)
  /\ (CInt.fits (year d + n) = false -> CInt._add_years d n = Err OverflowError)
  /\ (forall r, CInt._add_years d n = Ok r ->
        MINYEAR <= year d + n <= MAXYEAR
        /\ valid_date r = true
        /\ year r = year d + n
        /\ month r = month d
        /\ (day r = day d
            \/ (month d = 2 /\ day d = 29 /\ day r = 28
                /\ is_leap (year d + n) = false))).
Proof.
  intros Hv. destruct (add_years_range d n Hv) as [Hin Hout].
  split; [|split; [|split]].
  - intros Hy. rewrite add_years_fits by now apply year_fits. now apply Hin.
  - intros Hy Hfit. rewrite add_years_fits by exact Hfit. now apply Hout.
  - apply add_years_overflow.
  - intros r Hr. destruct (CInt.fits (year d + n)) eqn:Hfit.
    + rewrite add_years_fits in Hr by exact Hfit.
      split; [now apply (add_years_ok_range d r n)|now apply add_years_shape].
    + rewrite add_years_overflow in Hr by exact Hfit. discriminate Hr.
Qed.

(** X7. Adding years in two steps is adding them at once, for every valid
    date other than a 29 February (for which the first step may already
    have moved the day to the 28th): when the first step returns, the
    second step and the single step return the same date or raise the same
    exception. *)
Theorem add_years_twice (d d1 : date) (a b : Z) :
  valid_date d = true ->
  ~ (month d = 2 /\ day d = 29) ->
  CInt._add_years d a = Ok d1 ->
  CInt._add_years d1 b = CInt._add_years d (a + b).
Proof.
  intros Hv Hleap H1.
  destruct (CInt.fits (year d + a)) eqn:Hfa;
    [|rewrite add_years_overflow in H1 by exact Hfa; discriminate H1].
  rewrite add_years_fits in H1 by exact Hfa.
  destruct (add_years_shape d d1 a Hv H1) as (_ & Hy1 & _).
  assert (Hy : year d1 + b = year d + (a + b)) by lia.
  destruct (CInt.fits (year d + (a + b))) eqn:Hfb.
  - rewrite (add_years_fits d (a + b)) by exact Hfb.
    rewrite (add_years_fits d1 b) by (now rewrite Hy).
    now apply add_years_compose.
  - rewrite (add_years_overflow d (a + b)) by exact Hfb.
    apply add_years_overflow. now rewrite Hy.
Qed.

Lemma add_years_any_witness :
  CInt._add_years (mkDate 2024 2 29) (-3) = Ok (mkDate 2021 2 28)
  /\ CInt._add_years (mkDate 5 6 7) (-5) = Err ValueError
  /\ CInt._add_years (mkDate 2020 1 1) 2147483648 = Err OverflowError.
Proof.
  destruct (add_years_any (mkDate 2024 2 29) (-3) eq_refl) as (Hin & _).
  destruct (add_years_any (mkDate 5 6 7) (-5) eq_refl) as (_ & Hout & _).
  destruct (add_years_any (mkDate 2020 1 1) 2147483648 eq_refl) as (_ & _ & Hover & _).
  split; [|split].
  - apply Hin. vm_compute. split; discriminate.
  - apply Hout; [|reflexivity]. vm_compute. intros [H _]. now apply H.
  - apply Hover. reflexivity.
Defined.

Lemma add_years_twice_witness :
  CInt._add_years (mkDate 2021 3 31) 5 = CInt._add_years (mkDate 2020 3 31) (1 + 5)
  /\ CInt._add_years (mkDate 2021 3 31) 2147483648
     = CInt._add_years (mkDate 2020 3 31) (1 + 2147483648).
Proof.
  split.
  - apply (add_years_twice (mkDate 2020 3 31) (mkDate 2021 3 31) 1 5).
    + reflexivity.
    + intros [H _]. discriminate H.
    + reflexivity.
  - apply (add_years_twice (mkDate 2020 3 31) (mkDate 2021 3 31) 1 2147483648).
    + reflexivity.
    + intros [H _]. discriminate H.
    + reflexivity.
Defined.

End CalendarMore.


(** ** Suffixes and slices *)

Module StrMore.

Import PyStr.

Lemma length_append (a b : string) :
  String.length (a ++ b) = (String.length a + String.length b)%nat.
Proof. induction a as [|c r IH]; simpl; [reflexivity|]. now rewrite IH. Qed.

Lemma substring_whole (s : string) : substring 0 (String.length s) s = s.
Proof. induction s as [|c r IH]; simpl; [reflexivity|]. now rewrite IH. Qed.

Lemma substring_tail (a b : string) :
  substring (String.length a) (String.length b) (a ++ b) = b.
Proof. induction a as [|c r IH]; simpl; [apply substring_whole|exact IH]. Qed.

Lemma substring_head (a b : string) :
  substring 0 (String.length a) (a ++ b) = a.
Proof.
  induction a as [|c r IH]; simpl.
  - destruct b; reflexivity.
  - now rewrite IH.
Qed.

Lemma endswith_append (a b : string) : endswith (a ++ b) b = true.
Proof.
  unfold endswith. rewrite length_append.
  replace (String.length a + String.length b - String.length b)%nat
    with (String.length a) by lia.
  rewrite substring_tail, String.eqb_refl.
  replace (String.length b <=? String.length a + String.length b)%nat with true
    by (symmetry; apply Nat.leb_le; lia).
  reflexivity.
Qed.

Lemma endswith_other_char (a : string) (c c' : ascii) :
  c <> c' -> endswith (a ++ String c EmptyString) (String c' EmptyString) = false.
Proof.
  intros Hc. unfold endswith. rewrite length_append. simpl String.length.
  replace (String.length a + 1 - 1)%nat with (String.length a) by lia.
  pose proof (substring_tail a (String c EmptyString)) as Htail.
  cbn [String.length] in Htail. rewrite Htail.
  replace (String.eqb (String c "") (String c' "")) with false.
  - apply andb_false_r.
  - symmetry. apply String.eqb_neq. congruence.
Qed.

Lemma drop_last_append (a : string) (c : ascii) :
  drop_last (a ++ String c EmptyString) = a.
Proof.
  unfold drop_last. rewrite length_append. simpl String.length.
  replace (String.length a + 1 - 1)%nat with (String.length a) by lia.
  apply substring_head.
Qed.

Lemma lstrip_append (a b : string) :
  match b with
  | String c _ => isspace c = false
  | EmptyString => False
  end ->
  lstrip (a ++ b) = lstrip a ++ b.
Proof.
  intros Hb. induction a as [|x a IH]; simpl.
  - destruct b as [|c b]; [contradiction|]. simpl. now rewrite Hb.
  - destruct (isspace x); [exact IH|reflexivity].
Qed.

Lemma rstrip_append_char (a : string) (c : ascii) :
  isspace c = false ->
  rstrip (a ++ String c EmptyString) = a ++ String c EmptyString.
Proof.
  intros Hc. induction a as [|x a IH].
  - simpl. now rewrite Hc.
  - change ((String x a) ++ String c "") with (String x (a ++ String c "")).
    rewrite StrFacts.rstrip_cons, IH. destruct a; reflexivity.
Qed.

(** Stripping a text that ends with a character that is not blank only
    removes its leading blanks. *)
Lemma strip_append_char (a : string) (c : ascii) :
  isspace c = false ->
  strip (a ++ String c EmptyString) = lstrip a ++ String c EmptyString.
Proof.
  intros Hc. unfold strip. rewrite lstrip_append by exact Hc.
  now apply rstrip_append_char.
Qed.

End StrMore.


(** ** Rows and their positions *)

Module ExitTaxMore.

Import Calendar ExitTax CalendarFacts ExitTaxFacts.

(** [d.get(key, default)] on the items of an object, and the two nested
    objects the loops read: [p.get("instrument", {}) or {}] and
    [p.get("walletImpact", {}) or {}]. *)
Definition entry_or (items : list (string * json)) (key : string) (default : json)
  : json :=
  match PyDict.get items key with
  | Some v => v
  | None => default
  end.

Definition instrument_of (items : list (string * json)) : json :=
  Json.or_else (entry_or items "instrument" (JDict [])) (JDict []).

Definition wallet_of (items : list (string * json)) : json :=
  Json.or_else (entry_or items "walletImpact" (JDict [])) (JDict []).

Definition iterable (data : json) : bool :=
  match data with
  | JList _ | JDict _ | JStr _ => true
  | _ => false
  end.

Lemma or_else_not_object (v : json) (k : string) (d : json) :
  object_or_falsy v = false ->
  Json.get (Json.or_else v (JDict [])) k d = Err AttributeError.
Proof.
  intros H. unfold Json.or_else.
  destruct v as [| b | n | f | s | l | items]; try discriminate H;
    cbn [object_or_falsy] in H; apply negb_false_iff in H; rewrite H; reflexivity.
Qed.

Section WithRuntime.

Variable repr_other : json -> string.
Variable float_of_str : string -> option float.
Variable iso_scan : string -> option datetime.
Variable clock : nat -> datetime.

Notation exit_tax_row := (ExitTax.exit_tax_row repr_other float_of_str iso_scan clock).
Notation rows_loop := (ExitTax.rows_loop repr_other float_of_str iso_scan clock).
Notation compute :=
  (ExitTax.compute_exit_tax_from_positions repr_other float_of_str iso_scan clock).
Notation _parse_datetime := (ExitTax._parse_datetime iso_scan).
Notation _to_float := (ExitTax._to_float float_of_str).
Notation str := (Json.str repr_other).
Notation created_at_step := (ExitTaxFacts.created_at_step repr_other iso_scan clock).

(** *** Timestamps *)

Lemma parse_datetime_error (s : string) (e : exn) :
  _parse_datetime s = Err e -> e = ValueError.
Proof.
  unfold ExitTax._parse_datetime, fromisoformat.
  destruct (iso_scan _) as [dt|]; [|now intros [= <-]].
  destruct (valid_datetime dt); [discriminate|now intros [= <-]].
Qed.

(** X8. [_parse_datetime] reads a trailing [Z] as the offset [+00:00]
    (whatever stands before it), ignores blanks around the text, raises
    nothing but [ValueError], and returns only datetimes whose fields are
    in range. *)
Theorem parse_datetime_zulu :
  (forall t : string, _parse_datetime (t ++ "Z") = _parse_datetime (t ++ "+00:00"))
  /\ (forall s : string, _parse_datetime (PyStr.strip s) = _parse_datetime s)
  /\ (forall (s : string) (e : exn), _parse_datetime s = Err e -> e = ValueError)
  /\ (forall (s : string) (dt : datetime),
        _parse_datetime s = Ok dt -> valid_datetime dt = true).
Proof.
  split; [|split; [|split]].
  - intros t. unfold ExitTax._parse_datetime.
    rewrite (StrMore.strip_append_char t "Z") by reflexivity.
    rewrite StrMore.endswith_append, StrMore.drop_last_append.
    replace (t ++ "+00:00") with ((t ++ "+00:0") ++ "0")
      by (now rewrite StrFacts.append_assoc).
    rewrite (StrMore.strip_append_char (t ++ "+00:0") "0") by reflexivity.
    rewrite StrMore.endswith_other_char by discriminate.
    rewrite (StrMore.lstrip_append t "+00:0") by reflexivity.
    now rewrite StrFacts.append_assoc.
  - intros s. unfold ExitTax._parse_datetime. now rewrite StrFacts.strip_idem.
  - apply parse_datetime_error.
  - apply (ExitTaxFacts.parse_datetime_valid iso_scan).
Qed.

(** *** Errors *)

Lemma created_at_step_error (i : nat) (p : json) (e : exn) :
  created_at_step i p = Err e -> e = ValueError.
Proof.
  unfold ExitTaxFacts.created_at_step.
  destruct (PyStr.nonempty _); [apply parse_datetime_error|discriminate].
Qed.

Lemma readable_row_error (rate : float) (i : nat) (p : json) (e : exn) :
  readable p = true -> exit_tax_row rate i p = Err e -> e = ValueError.
Proof.
  intros Hr He.
  pose proof (ExitTaxFacts.exit_tax_row_readable repr_other float_of_str iso_scan
                clock rate i p Hr) as Hrow.
  destruct (created_at_step i p) as [dt|e1] eqn:E1.
  - destruct (_add_years (date_of dt) 8) as [d|e2] eqn:E2.
    + destruct Hrow as [r Hrow]. congruence.
    + apply CalendarMore.add_years_error in E2. congruence.
  - apply created_at_step_error in E1. congruence.
Qed.

Lemma unreadable_row_error (rate : float) (i : nat) (p : json) :
  readable p = false -> exit_tax_row rate i p = Err AttributeError.
Proof.
  intros Hr. destruct p as [| | | | | |items]; try reflexivity.
  cbn [readable] in Hr. unfold ExitTax.exit_tax_row.
  rewrite !ExitTaxFacts.json_get_dict. cbn [bind].
  destruct (object_or_falsy
              match PyDict.get items "instrument" with
              | Some v => v
              | None => JDict []
              end) eqn:Ei.
  - cbn [andb] in Hr. destruct (ExitTaxFacts.or_else_object _ Ei) as [inst ->].
    rewrite !ExitTaxFacts.json_get_dict. cbn [bind].
    now rewrite (or_else_not_object _ "currency" JNull Hr).
  - now rewrite (or_else_not_object _ "ticker" (JStr "") Ei).
Qed.

(** X9. The exceptions of the computation. A position raises
    [AttributeError] exactly when it is not readable (it is not an object,
    or its [instrument] or [walletImpact] entry is a non-empty value that
    is not an object), and otherwise only [ValueError]; the whole
    computation raises [TypeError] exactly when the document cannot be
    iterated ([null], a boolean or a number), and nothing but these three;
    an empty list gives no rows, and an object holding entries in place of
    the list raises [AttributeError]. *)
Theorem exit_tax_errors (rate : float) :
  (forall (i : nat) (p : json),
     exit_tax_row rate i p = Err AttributeError <-> readable p = false)
  /\ (forall (i : nat) (p : json) (e : exn),
        exit_tax_row rate i p = Err e -> e = ValueError \/ e = AttributeError)
  /\ (forall data : json,
        compute data rate = Err TypeError <-> iterable data = false)
  /\ (forall (data : json) (e : exn),
        compute data rate = Err e ->
        e = TypeError \/ e = ValueError \/ e = AttributeError)
  /\ compute (JList []) rate = Ok []
  /\ (forall (kv : string * json) (rest : list (string * json)),
        compute (JDict (kv :: rest)) rate = Err AttributeError).
Proof.
  assert (Hrow : forall i p e, exit_tax_row rate i p = Err e ->
                               e = ValueError \/ e = AttributeError).
  { intros i p e He. destruct (readable p) eqn:Hr.
    - left. now apply readable_row_error with rate i p.
    - right. rewrite (unreadable_row_error rate i p Hr) in He. congruence. }
  assert (Hloop : forall ps e, rows_loop rate [] 0 ps = Err e ->
                               e = ValueError \/ e = AttributeError).
  { intros ps e He.
    apply (ExitTaxFacts.rows_loop_first_error repr_other float_of_str iso_scan clock)
      in He as (before & p & after & rs & _ & _ & Hp).
    now apply Hrow in Hp. }
  split; [|split; [exact Hrow|split; [|split; [|split]]]].
  - intros i p. split.
    + intros He. destruct (readable p) eqn:Hr; [|reflexivity].
      apply (readable_row_error rate i p _ Hr) in He. discriminate.
    + apply unreadable_row_error.
  - intros data. unfold ExitTax.compute_exit_tax_from_positions.
    destruct data; cbn [Json.iter bind iterable]; split; try reflexivity;
      try discriminate;
      intros He; apply Hloop in He; destruct He; discriminate.
  - intros data e. unfold ExitTax.compute_exit_tax_from_positions.
    destruct (Json.iter data) as [ps|e1] eqn:Ei; cbn [bind].
    + intros He. apply Hloop in He. tauto.
    + intros [= <-]. left. destruct data; simpl in Ei; congruence.
  - reflexivity.
  - intros kv rest. reflexivity.
Qed.

(** *** What a row holds *)

Lemma bind_if_ok {A B : Type} (b : bool) (x y : A) (k : A -> result B) :
  bind (if b then Ok x else Ok y) k = k (if b then x else y).
Proof. destruct b; reflexivity. Qed.

(** The fields of the row of an object, read off its two nested objects. *)
Lemma exit_tax_row_inv (rate : float) (i : nat) (items : list (string * json))
  (r : ExitTaxRow) :
  exit_tax_row rate i (JDict items) = Ok r ->
  exists inst wi,
    instrument_of items = JDict inst
    /\ wallet_of items = JDict wi
    /\ ticker r = str (entry_or inst "ticker" (JStr ""))
    /\ isin r = str (entry_or inst "isin" (JStr ""))
    /\ name r = str (entry_or inst "name" (JStr ""))
    /\ currency r
       = str (if Json.truthy (entry_or wi "currency" JNull)
              then entry_or wi "currency" JNull
              else Json.or_else (entry_or inst "currency" JNull) (JStr ""))
    /\ total_cost r = _to_float (entry_or wi "totalCost" JNull) PyFloat.zero
    /\ current_value r = _to_float (entry_or wi "currentValue" JNull) PyFloat.zero
    /\ unrealised_pl r
       = _to_float (entry_or wi "unrealizedProfitLoss" JNull)
           (PyFloat.sub (current_value r) (total_cost r)).
Proof.
  intros H. unfold ExitTax.exit_tax_row in H.
  rewrite !ExitTaxFacts.json_get_dict in H. cbn [bind] in H.
  change (Json.or_else
            match PyDict.get items "instrument" with
            | Some v => v
            | None => JDict []
            end (JDict [])) with (instrument_of items) in H.
  change (Json.or_else
            match PyDict.get items "walletImpact" with
            | Some v => v
            | None => JDict []
            end (JDict [])) with (wallet_of items) in H.
  destruct (instrument_of items) as [| | | | | |inst] eqn:Ei; try discriminate H.
  rewrite !ExitTaxFacts.json_get_dict in H. cbn [bind] in H.
  destruct (wallet_of items) as [| | | | | |wi] eqn:Ew; try discriminate H.
  rewrite !ExitTaxFacts.json_get_dict in H. cbn [bind] in H.
  rewrite bind_if_ok in H.
  do 2 ExitTaxFacts.bind_ok H. injection H as <-.
  exists inst, wi. cbn [ticker isin name currency total_cost current_value
                       unrealised_pl].
  unfold entry_or.
  repeat split; reflexivity.
Qed.

End WithRuntime.

End ExitTaxMore.


(** ** The position normalizer and the two kinds of rows *)

Module SnapshotMore.

Import ExitTaxFacts ExitTaxMore.

Lemma or_zero_cases (x : option float) :
  Snapshot.or_zero x = PyFloat.zero
  \/ exists f, x = Some f /\ Snapshot.or_zero x = f
               /\ PyFloat.eqb f PyFloat.zero = false.
Proof.
  destruct x as [f|]; simpl; [|now left].
  destruct (PyFloat.eqb f PyFloat.zero) eqn:E; [now left|right; eauto].
Qed.

Lemma row_cells_length (r : Snapshot.SnapshotRow) :
  exists cells, Snapshot.row_cells r = Ok cells
                /\ List.length cells = List.length Snapshot.header.
Proof.
  unfold Snapshot.row_cells. rewrite SnapshotFacts.pl_pct_expected. cbn [bind].
  eexists. split; reflexivity.
Qed.

Lemma write_rows_cells (rows : list Snapshot.SnapshotRow) :
  exists body,
    Snapshot.write_rows rows = Ok body
    /\ Forall2 (fun r line => Snapshot.row_cells r = Ok line
                              /\ List.length line = 11%nat) rows body.
Proof.
  induction rows as [|r rows (body & Hbody & Hall)]; cbn [Snapshot.write_rows].
  - exists []. split; [reflexivity|constructor].
  - destruct (row_cells_length r) as (cells & Hcells & Hn).
    rewrite Hcells, Hbody. cbn [bind]. exists (cells :: body).
    split; [reflexivity|]. constructor; [now split|exact Hall].
Qed.

Section WithRuntime.

Variable repr_other : json -> string.
Variable float_of_str : string -> option float.

Notation snapshot_row := (Snapshot.snapshot_row repr_other float_of_str).
Notation load_positions := (Snapshot.load_positions repr_other float_of_str).
Notation _f := (Snapshot._f float_of_str).
Notation _to_float := (ExitTax._to_float float_of_str).
Notation str := (Json.str repr_other).

(** The text of the currency the snapshot keeps: the instrument's when it
    is not empty, else the wallet's. *)
Definition snapshot_currency (inst wi : list (string * json)) : string :=
  if PyStr.nonempty (str (entry_or inst "currency" (JStr "")))
  then str (entry_or inst "currency" (JStr ""))
  else str (entry_or wi "currency" (JStr "")).

Lemma snapshot_row_inv (items : list (string * json)) (s : Snapshot.SnapshotRow) :
  snapshot_row (JDict items) = Ok s ->
  exists inst wi,
    instrument_of items = JDict inst
    /\ wallet_of items = JDict wi
    /\ Snapshot.ticker s = str (entry_or inst "ticker" (JStr ""))
    /\ Snapshot.isin s = str (entry_or inst "isin" (JStr ""))
    /\ Snapshot.name s = str (entry_or inst "name" (JStr ""))
    /\ Snapshot.currency s = snapshot_currency inst wi
    /\ Snapshot.quantity s = Snapshot.or_zero (_f (entry_or items "quantity" JNull))
    /\ Snapshot.avg_price_paid s = _f (entry_or items "averagePricePaid" JNull)
    /\ Snapshot.current_price s = _f (entry_or items "currentPrice" JNull)
    /\ Snapshot.total_cost s = _f (entry_or wi "totalCost" JNull)
    /\ Snapshot.current_value s = _f (entry_or wi "currentValue" JNull)
    /\ Snapshot.unrealized_pl s = _f (entry_or wi "unrealizedProfitLoss" JNull).
Proof.
  intros H. unfold Snapshot.snapshot_row, Snapshot.field in H.
  rewrite !json_get_dict in H. cbn [bind] in H.
  change (Json.or_else
            match PyDict.get items "instrument" with
            | Some v => v
            | None => JDict []
            end (JDict [])) with (instrument_of items) in H.
  change (Json.or_else
            match PyDict.get items "walletImpact" with
            | Some v => v
            | None => JDict []
            end (JDict [])) with (wallet_of items) in H.
  destruct (instrument_of items) as [| | | | | |inst] eqn:Ei; try discriminate H.
  rewrite !json_get_dict in H. cbn [bind] in H.
  destruct (wallet_of items) as [| | | | | |wi] eqn:Ew;
    try (destruct (PyStr.nonempty _) in H; discriminate H).
  rewrite !json_get_dict in H. cbn [bind] in H.
  rewrite bind_if_ok in H. cbn [bind] in H. injection H as <-.
  exists inst, wi. unfold snapshot_currency, entry_or. cbn.
  repeat split; reflexivity.
Qed.

Lemma snapshot_row_readable (p : json) :
  readable p = true -> exists s, snapshot_row p = Ok s.
Proof.
  intros Hr. destruct p as [| | | | | |items]; try discriminate Hr.
  cbn [readable] in Hr. apply andb_true_iff in Hr as [Hi Hw].
  destruct (or_else_object _ Hi) as [inst Einst].
  destruct (or_else_object _ Hw) as [wi Ewi].
  unfold Snapshot.snapshot_row, Snapshot.field.
  rewrite !json_get_dict. cbn [bind]. rewrite Einst, Ewi.
  rewrite !json_get_dict. cbn [bind]. rewrite bind_if_ok. cbn [bind].
  eexists. reflexivity.
Qed.

Lemma snapshot_row_unreadable (p : json) :
  readable p = false -> snapshot_row p = Err AttributeError.
Proof.
  intros Hr. destruct p as [| | | | | |items]; try reflexivity.
  cbn [readable] in Hr. unfold Snapshot.snapshot_row, Snapshot.field.
  rewrite !json_get_dict. cbn [bind].
  destruct (object_or_falsy
              match PyDict.get items "instrument" with
              | Some v => v
              | None => JDict []
              end) eqn:Ei.
  - cbn [andb] in Hr. destruct (or_else_object _ Ei) as [inst ->].
    rewrite !json_get_dict. cbn [bind].
    rewrite (or_else_not_object _ "currency" (JStr "") Hr).
    rewrite (or_else_not_object _ "totalCost" JNull Hr).
    destruct (PyStr.nonempty _); reflexivity.
  - now rewrite (or_else_not_object _ "ticker" (JStr "") Ei).
Qed.

Lemma snapshot_rows_loop (ps : list json) (acc : list Snapshot.SnapshotRow) :
  Forall (fun p => readable p = true) ps ->
  exists rows,
    Snapshot.rows_loop repr_other float_of_str acc ps = Ok (acc ++ rows)%list
    /\ Forall2 (fun p s => snapshot_row p = Ok s) ps rows.
Proof.
  intros Hread. revert acc.
  induction Hread as [|p ps Hp Hps IH]; intros acc; cbn [Snapshot.rows_loop].
  - exists []. split; [now rewrite app_nil_r|constructor].
  - destruct (snapshot_row_readable p Hp) as [s Hs]. rewrite Hs. cbn [bind].
    destruct (IH (acc ++ [s])%list) as (rows & Hrows & Hall).
    exists (s :: rows). split; [now rewrite Hrows, <- app_assoc|now constructor].
Qed.

(** X10. The position normalizer never stops on a number or a timestamp:
    [load_positions] builds a row for a position exactly when the position
    is readable, raises nothing but [AttributeError] otherwise, and for a
    list of readable positions returns one row for each, in the order of
    the list. *)
Theorem load_positions_rows :
  (forall p : json, (exists s, snapshot_row p = Ok s) <-> readable p = true)
  /\ (forall (p : json) (e : exn), snapshot_row p = Err e -> e = AttributeError)
  /\ (forall ps : list json,
        Forall (fun p => readable p = true) ps ->
        exists rows,
          load_positions (JList ps) = Ok rows
          /\ Forall2 (fun p s => snapshot_row p = Ok s) ps rows
          /\ List.length rows = List.length ps).
Proof.
  split; [|split].
  - intros p. split; [|apply snapshot_row_readable].
    intros [s Hs]. destruct (readable p) eqn:Hr; [reflexivity|].
    rewrite (snapshot_row_unreadable p Hr) in Hs. discriminate.
  - intros p e He. destruct (readable p) eqn:Hr.
    + destruct (snapshot_row_readable p Hr) as [s Hs]. congruence.
    + rewrite (snapshot_row_unreadable p Hr) in He. congruence.
  - intros ps Hread. destruct (snapshot_rows_loop ps [] Hread) as (rows & Hrows & Hall).
    exists rows. split; [exact Hrows|]. split; [exact Hall|].
    symmetry. now apply Forall2_length with (1 := Hall).
Qed.

(** X11. The lines of the snapshot: for a list of readable positions,
    [load_positions] and then the loop of [write_snapshot_csv] hand the CSV
    writer the header and then one line per position, in the order of the
    list, each line being the cells of the row of its position; computing
    them raises nothing, and every line has as many cells as the header
    has columns.  (What the writer then does with a line, encoding its
    text for the file included, is not part of this.) *)
Theorem snapshot_lines (ps : list json) :
  Forall (fun p => readable p = true) ps ->
  exists rows body,
    load_positions (JList ps) = Ok rows
    /\ Snapshot.write_snapshot_csv rows = Ok (Snapshot.header :: body)
    /\ Forall2 (fun p line =>
                  exists s, snapshot_row p = Ok s
                            /\ Snapshot.row_cells s = Ok line) ps body
    /\ Forall (fun line => List.length line = 11%nat) (Snapshot.header :: body).
Proof.
  intros Hread.
  destruct (snapshot_rows_loop ps [] Hread) as (rows & Hrows & Hall).
  destruct (write_rows_cells rows) as (body & Hbody & Hcells).
  exists rows, body. split; [exact Hrows|].
  split; [unfold Snapshot.write_snapshot_csv; now rewrite Hbody|].
  split.
  - clear Hrows Hbody Hread. revert body Hcells.
    induction Hall as [|p s ps rows Hp Hps IH]; intros body Hcells;
      inversion Hcells as [|s' line rows' body' [Hline _] Hrest]; subst;
      constructor.
    + exists s. now split.
    + now apply IH.
  - constructor; [reflexivity|].
    clear Hrows Hbody Hall. induction Hcells as [|s line rows body [_ Hn] _ IH];
      constructor; assumption.
Qed.

End WithRuntime.

End SnapshotMore.


(** ** One position, two rows *)

Module RowsCompared.

Import ExitTaxFacts ExitTaxMore SnapshotMore.

Section WithRuntime.

Variable repr_other : json -> string.
Variable float_of_str : string -> option float.
Variable iso_scan : string -> option Calendar.datetime.
Variable clock : nat -> Calendar.datetime.

Notation exit_tax_row := (ExitTax.exit_tax_row repr_other float_of_str iso_scan clock).
Notation snapshot_row := (Snapshot.snapshot_row repr_other float_of_str).
Notation _f := (Snapshot._f float_of_str).
Notation _to_float := (ExitTax._to_float float_of_str).
Notation str := (Json.str repr_other).

Definition known_or (x : option float) (default : float) : float :=
  match x with
  | Some f => f
  | None => default
  end.

Lemma to_float_known_or (x : json) (default : float) :
  _to_float x default = known_or (_f x) default.
Proof.
  unfold ExitTax._to_float, Snapshot._f, known_or.
  destruct x as [| b | n | f | s | l | items]; simpl; try reflexivity.
  - destruct (PyFloat.of_int n); reflexivity.
  - destruct (float_of_str s); reflexivity.
Qed.

Lemma same_objects (items inst inst' wi wi' : list (string * json)) :
  instrument_of items = JDict inst -> instrument_of items = JDict inst' ->
  wallet_of items = JDict wi -> wallet_of items = JDict wi' ->
  inst' = inst /\ wi' = wi.
Proof. intros H1 H2 H3 H4. split; congruence. Qed.

(** X12. The exit-tax row and the snapshot row of one position carry the
    same ticker, ISIN and name, and the same figures wherever the snapshot
    knows them: the exit-tax row has 0.0 for a cost or a value the snapshot
    leaves unknown, and [current_value - total_cost] for an unknown
    profit. *)
Theorem rows_agree (rate : float) (i : nat) (p : json)
  (r : ExitTax.ExitTaxRow) (s : Snapshot.SnapshotRow) :
  exit_tax_row rate i p = Ok r ->
  snapshot_row p = Ok s ->
  ExitTax.ticker r = Snapshot.ticker s
  /\ ExitTax.isin r = Snapshot.isin s
  /\ ExitTax.name r = Snapshot.name s
  /\ ExitTax.total_cost r = known_or (Snapshot.total_cost s) PyFloat.zero
  /\ ExitTax.current_value r = known_or (Snapshot.current_value s) PyFloat.zero
  /\ ExitTax.unrealised_pl r
     = known_or (Snapshot.unrealized_pl s)
         (PyFloat.sub (ExitTax.current_value r) (ExitTax.total_cost r)).
Proof.
  intros Hr Hs. destruct p as [| | | | | |items]; try discriminate Hr.
  apply (exit_tax_row_inv repr_other float_of_str iso_scan clock) in Hr
    as (inst & wi & Ei & Ew & Ht & Hi & Hn & _ & Htc & Hcv & Hpl).
  apply snapshot_row_inv in Hs
    as (inst' & wi' & Ei' & Ew' & Ht' & Hi' & Hn' & _ & _ & _ & _ & Htc' & Hcv' & Hpl').
  destruct (same_objects items inst inst' wi wi' Ei Ei' Ew Ew') as [-> ->].
  rewrite Hpl, Htc, Hcv, Ht, Hi, Hn, Ht', Hi', Hn', Htc', Hcv', Hpl'.
  rewrite !to_float_known_or. repeat split; reflexivity.
Qed.

(** X13. The two rows do not choose the currency alike. With [a] the
    instrument's currency and [b] the wallet's (texts, empty when
    missing), the exit-tax row takes [b] unless it is empty and the
    snapshot row takes [a] unless it is empty: they differ exactly when
    both are given and are not the same. *)
Theorem currency_precedence (rate : float) (i : nat)
  (items inst wi : list (string * json)) (a b : string)
  (r : ExitTax.ExitTaxRow) (s : Snapshot.SnapshotRow) :
  instrument_of items = JDict inst ->
  wallet_of items = JDict wi ->
  entry_or inst "currency" (JStr "") = JStr a ->
  entry_or wi "currency" (JStr "") = JStr b ->
  exit_tax_row rate i (JDict items) = Ok r ->
  snapshot_row (JDict items) = Ok s ->
  ExitTax.currency r = (if PyStr.nonempty b then b else a)
  /\ Snapshot.currency s = (if PyStr.nonempty a then a else b)
  /\ (ExitTax.currency r <> Snapshot.currency s <-> a <> "" /\ b <> "" /\ a <> b).
Proof.
  intros Ei Ew Ha Hb Hr Hs.
  apply (exit_tax_row_inv repr_other float_of_str iso_scan clock) in Hr
    as (inst' & wi' & Ei' & Ew' & _ & _ & _ & Hc & _).
  destruct (same_objects items inst inst' wi wi' Ei Ei' Ew Ew') as [-> ->].
  apply snapshot_row_inv in Hs as (inst' & wi' & Ei'' & Ew'' & _ & _ & _ & Hc' & _).
  destruct (same_objects items inst inst' wi wi' Ei Ei'' Ew Ew'') as [-> ->].
  assert (Hexit : ExitTax.currency r = if PyStr.nonempty b then b else a).
  { rewrite Hc. unfold entry_or in *.
    destruct (PyDict.get wi "currency") as [vb|]; [subst vb|injection Hb as <-];
      (destruct (PyDict.get inst "currency") as [va|]; [subst va|injection Ha as <-]);
      cbn; try reflexivity;
      try (destruct b; cbn; try reflexivity);
      try (destruct a; reflexivity). }
  assert (Hsnap : Snapshot.currency s = if PyStr.nonempty a then a else b).
  { rewrite Hc'. unfold snapshot_currency. now rewrite Ha, Hb. }
  split; [exact Hexit|]. split; [exact Hsnap|].
  rewrite Hexit, Hsnap.
  destruct a as [|ca a]; destruct b as [|cb b]; cbn; split;
    try (intros H; now elim H);
    try (intros (H1 & H2 & H3); congruence);
    intros H; repeat split; try discriminate; exact (fun E => H (eq_sym E)).
Qed.

(** X14. A position without wallet data (no [walletImpact] entry, or an
    empty or null one): its exit-tax row has cost, value, profit and
    taxable gain all 0.0, while its snapshot row leaves cost, value and
    profit unknown and its percentage absent. *)
Theorem position_without_wallet (rate : float) (i : nat)
  (items : list (string * json))
  (r : ExitTax.ExitTaxRow) (s : Snapshot.SnapshotRow) :
  Json.truthy (entry_or items "walletImpact" (JDict [])) = false ->
  exit_tax_row rate i (JDict items) = Ok r ->
  snapshot_row (JDict items) = Ok s ->
  (ExitTax.total_cost r = PyFloat.zero
   /\ ExitTax.current_value r = PyFloat.zero
   /\ ExitTax.unrealised_pl r = PyFloat.zero
   /\ ExitTax.taxable_gain_today r = PyFloat.zero)
  /\ (Snapshot.total_cost s = None
      /\ Snapshot.current_value s = None
      /\ Snapshot.unrealized_pl s = None
      /\ Snapshot.pl_pct s = Ok None).
Proof.
  intros Hw Hr Hs.
  assert (Ewallet : wallet_of items = JDict []).
  { unfold wallet_of, Json.or_else. now rewrite Hw. }
  destruct (exit_tax_row_fields repr_other float_of_str iso_scan clock rate i _ r Hr)
    as (_ & _ & Hgain & _).
  apply (exit_tax_row_inv repr_other float_of_str iso_scan clock) in Hr
    as (inst & wi & _ & Ew & _ & _ & _ & _ & Htc & Hcv & Hpl).
  apply snapshot_row_inv in Hs
    as (inst' & wi' & _ & Ew' & _ & _ & _ & _ & _ & _ & _ & Htc' & Hcv' & Hpl').
  rewrite Ewallet in Ew, Ew'. injection Ew as <-. injection Ew' as <-.
  cbn in Htc, Hcv, Htc', Hcv', Hpl'.
  rewrite Htc, Hcv in Hpl, Hgain. cbn in Hpl, Hgain.
  split; [now repeat split|].
  split; [exact Htc'|]. split; [exact Hcv'|]. split; [exact Hpl'|].
  rewrite SnapshotFacts.pl_pct_expected. unfold SnapshotFacts.expected_pct.
  now rewrite Htc', Hpl'.
Qed.

End WithRuntime.

End RowsCompared.


(** ** The commands *)

Module CliFacts.

Import ExitTax.

(** A float that is not below zero: a zero of either sign, a positive
    number, plus infinity, or not a number. *)
Definition nonneg (f : float) : bool :=
  match f with
  | S754_nan => true
  | S754_zero _ => true
  | S754_infinity s => negb s
  | S754_finite s _ _ => negb s
  end.

Lemma nonneg_ltb (f : float) : nonneg f = negb (PyFloat.ltb f PyFloat.zero).
Proof. destruct f as [[]|[]| |[] m e]; reflexivity. Qed.

Lemma leb_zero_nonneg (f : float) :
  PyFloat.leb PyFloat.zero f = true -> nonneg f = true.
Proof. destruct f as [[]|[]| |[] m e]; simpl; intros H; try discriminate H; reflexivity. Qed.

Lemma binary_round_aux_nonneg (mx ex : Z) (lx : location) :
  nonneg (binary_round_aux PyFloat.prec PyFloat.emax false mx ex lx) = true.
Proof.
  unfold binary_round_aux.
  destruct (shr_fexp PyFloat.prec PyFloat.emax mx ex lx) as [mrs' e'].
  destruct (shr_fexp PyFloat.prec PyFloat.emax _ e' loc_Exact) as [mrs'' e''].
  destruct (shr_m mrs''); [reflexivity| |reflexivity].
  destruct (Z.leb e'' (Z.sub PyFloat.emax PyFloat.prec)); reflexivity.
Qed.

Lemma binary_round_nonneg (m : positive) (e : Z) :
  nonneg (binary_round PyFloat.prec PyFloat.emax false m e) = true.
Proof.
  unfold binary_round. destruct (shl_align m e _) as [mz ez].
  apply binary_round_aux_nonneg.
Qed.

Lemma fadd_nonneg (x y : float) :
  nonneg x = true -> nonneg y = true -> nonneg (Cli.fadd x y) = true.
Proof.
  unfold Cli.fadd.
  destruct x as [sx|sx| |sx mx ex], y as [sy|sy| |sy my ey]; simpl;
    intros Hx Hy; try reflexivity; try (destruct sx; destruct sy; easy);
    try (destruct sx; easy); try (destruct sy; easy).
  apply negb_true_iff in Hx, Hy. subst sx sy.
  cbn [cond_Zopp Z.add binary_normalize]. apply binary_round_nonneg.
Qed.

Lemma fmul_nonneg (x y : float) :
  nonneg x = true -> nonneg y = true -> nonneg (PyFloat.mul x y) = true.
Proof.
  unfold PyFloat.mul.
  destruct x as [sx|sx| |sx mx ex], y as [sy|sy| |sy my ey]; simpl;
    intros Hx Hy; try reflexivity;
    try (apply negb_true_iff in Hx); try (apply negb_true_iff in Hy);
    subst; try reflexivity.
  apply binary_round_aux_nonneg.
Qed.

Lemma max_zero_nonneg (x : float) : nonneg (PyFloat.max x PyFloat.zero) = true.
Proof. rewrite nonneg_ltb. now rewrite ExitTaxFacts.max_zero_not_negative. Qed.

Lemma total_tax_nonneg (rows : list ExitTaxRow) :
  Forall (fun r => nonneg (exit_tax_due_today r) = true) rows ->
  nonneg (Cli.total_tax rows) = true.
Proof.
  unfold Cli.total_tax. intros Hrows.
  assert (Hgen : forall acc, nonneg acc = true ->
            nonneg (fold_left (fun total r => Cli.fadd total (exit_tax_due_today r))
                      rows acc) = true).
  { induction Hrows as [|r rows Hr Hrest IH]; intros acc Hacc; simpl.
    - exact Hacc.
    - apply IH. now apply fadd_nonneg. }
  now apply Hgen.
Qed.

Section WithRuntime.

Variable repr_other : json -> string.
Variable float_of_str : string -> option float.
Variable iso_scan : string -> option Calendar.datetime.
Variable clock : nat -> Calendar.datetime.

Notation exit_tax := (Cli.exit_tax repr_other float_of_str iso_scan clock).
Notation compute :=
  (ExitTax.compute_exit_tax_from_positions repr_other float_of_str iso_scan clock).
Notation load := (InstrumentDB.load repr_other).
Notation is_exit_tax := (InstrumentDB.is_exit_tax repr_other).
Notation matched_rows := (Cli.matched_rows repr_other).

Lemma exit_tax_outcome_inv (db_file positions_file : option json) (rate : float)
  (out : Cli.exit_tax_outcome) :
  exit_tax db_file positions_file rate = out ->
  match out with
  | Cli.ExitTaxReport scanned matched excluded rows total =>
      exists db_data db data all_rows,
        db_file = Some db_data /\ load db_data = Ok db
        /\ InstrumentDB.count db <> 0
        /\ positions_file = Some data /\ compute data rate = Ok all_rows
        /\ scanned = Z.of_nat (List.length all_rows)
        /\ rows = matched_rows db all_rows /\ rows <> []
        /\ matched = Z.of_nat (List.length rows)
        /\ excluded = scanned - matched
        /\ total = Cli.total_tax rows
  | Cli.ExitTaxNoHoldings scanned matched excluded =>
      exists db_data db data all_rows,
        db_file = Some db_data /\ load db_data = Ok db
        /\ positions_file = Some data /\ compute data rate = Ok all_rows
        /\ scanned = Z.of_nat (List.length all_rows)
        /\ matched_rows db all_rows = []
        /\ matched = 0 /\ excluded = scanned
  | _ => True
  end.
Proof.
  unfold Cli.exit_tax. intros <-.
  destruct db_file as [db_data|]; [|exact I].
  destruct (load db_data) as [db|e] eqn:El; [|exact I].
  destruct (InstrumentDB.count db =? 0) eqn:Ec; [exact I|].
  apply Z.eqb_neq in Ec.
  destruct positions_file as [data|]; [|exact I].
  destruct (compute data rate) as [all_rows|e] eqn:Er; [|exact I].
  cbv zeta. destruct (matched_rows db all_rows) as [|r rows] eqn:Em.
  - exists db_data, db, data, all_rows. repeat split; try reflexivity; try assumption.
    simpl. lia.
  - exists db_data, db, data, all_rows. rewrite Em.
    repeat split; try reflexivity; try assumption. discriminate.
Qed.

Lemma filter_length_le {A : Type} (f : A -> bool) (l : list A) :
  (List.length (filter f l) <= List.length l)%nat.
Proof. induction l as [|x l IH]; simpl; [lia|]. destruct (f x); simpl; lia. Qed.

(** X15. What the command [exit-tax] reports. When it ends with a report,
    the rows it prints are the rows of the computation whose ISIN the
    registry classifies as exit-tax, in the order of the positions: no
    such row is left out and no other row is printed; there is at least
    one; and the three counts it echoes add up, scanned = matched +
    excluded, with none of them negative. *)
Theorem exit_tax_report (db_file positions_file : option json) (rate : float)
  (scanned matched excluded : Z) (rows : list ExitTaxRow) (total : float) :
  exit_tax db_file positions_file rate
  = Cli.ExitTaxReport scanned matched excluded rows total ->
  exists db_data db data all_rows,
    db_file = Some db_data /\ load db_data = Ok db
    /\ positions_file = Some data /\ compute data rate = Ok all_rows
    /\ rows = filter (fun r => is_exit_tax db (JStr (isin r))) all_rows
    /\ (forall r, In r rows <->
                  In r all_rows /\ is_exit_tax db (JStr (isin r)) = true)
    /\ scanned = Z.of_nat (List.length all_rows)
    /\ matched = Z.of_nat (List.length rows)
    /\ scanned = matched + excluded
    /\ 1 <= matched <= scanned /\ 0 <= excluded.
Proof.
  intros H. apply exit_tax_outcome_inv in H
    as (db_data & db & data & all_rows & Hdb & Hload & _ & Hpos & Hrows
        & Hscanned & Hm & Hne & Hmatched & Hexcl & _).
  exists db_data, db, data, all_rows.
  assert (Hlen : (List.length rows <= List.length all_rows)%nat).
  { rewrite Hm. apply filter_length_le. }
  assert (Hpos1 : (1 <= List.length rows)%nat).
  { destruct rows; [congruence|simpl; lia]. }
  split; [exact Hdb|]. split; [exact Hload|]. split; [exact Hpos|].
  split; [exact Hrows|]. split; [exact Hm|].
  split; [intros r; rewrite Hm; unfold Cli.matched_rows; apply filter_In|].
  split; [exact Hscanned|]. split; [exact Hmatched|].
  split; [lia|]. split; lia.
Qed.

(** X16. With a rate that is not below zero, no row of the computation
    has a tax below zero, and the total the command [exit-tax] echoes is
    not below zero either. *)
Theorem total_tax_not_negative (db_file positions_file : option json) (rate : float)
  (scanned matched excluded : Z) (rows : list ExitTaxRow) (total : float) :
  PyFloat.leb PyFloat.zero rate = true ->
  exit_tax db_file positions_file rate
  = Cli.ExitTaxReport scanned matched excluded rows total ->
  PyFloat.ltb total PyFloat.zero = false
  /\ Forall (fun r => PyFloat.ltb (exit_tax_due_today r) PyFloat.zero = false) rows.
Proof.
  intros Hrate H. apply exit_tax_outcome_inv in H
    as (db_data & db & data & all_rows & _ & _ & _ & _ & Hrows
        & _ & Hm & _ & _ & _ & Htotal).
  assert (Hall : Forall (fun r => nonneg (exit_tax_due_today r) = true) all_rows).
  { destruct (ExitTaxFacts.compute_rows _ _ _ _ _ _ _ Hrows) as [ps [_ Hof]].
    apply (ExitTaxFacts.rows_of_Forall repr_other float_of_str iso_scan clock
             rate _ 0%nat ps all_rows); [|assumption].
    intros k p r Hr.
    destruct (ExitTaxFacts.exit_tax_row_fields _ _ _ _ rate k p r Hr)
      as (_ & _ & Hgain & Hdue & _).
    rewrite Hdue, Hgain. apply fmul_nonneg; [apply max_zero_nonneg|].
    now apply leb_zero_nonneg. }
  assert (Hsome : Forall (fun r => nonneg (exit_tax_due_today r) = true) rows).
  { rewrite Hm. unfold Cli.matched_rows. rewrite Forall_forall in *.
    intros r Hin. apply filter_In in Hin. now apply Hall. }
  split.
  - rewrite Htotal. apply negb_true_iff. rewrite <- nonneg_ltb.
    now apply total_tax_nonneg.
  - rewrite Forall_forall in *. intros r Hin.
    apply negb_true_iff. rewrite <- nonneg_ltb. now apply Hsome.
Qed.

(** X17. When the command [exit-tax] has nothing to report. Without a
    registry file, or with a registry in which no entry has an identifier,
    it ends with a bad-parameter error whatever the positions are (they
    are not even read); and when it ends with its message that no holding
    was found, no row of the computation was classified as exit-tax, and
    the counts it echoed are 0 matched and all scanned rows excluded. *)
Theorem exit_tax_nothing_to_report :
  (forall (positions_file : option json) (rate : float),
     exit_tax None positions_file rate
     = Cli.ExitTaxBadParameter Cli.InstrumentDbNotFound)
  /\ (forall (db_data : json) (db : InstrumentDB.registry)
             (positions_file : option json) (rate : float),
        load db_data = Ok db ->
        Forall (fun k => k = "") (RegistryMore.source_identifiers repr_other db_data) ->
        exit_tax (Some db_data) positions_file rate
        = Cli.ExitTaxBadParameter Cli.InstrumentDbEmpty)
  /\ (forall (db_file positions_file : option json) (rate : float)
             (scanned matched excluded : Z),
        exit_tax db_file positions_file rate
        = Cli.ExitTaxNoHoldings scanned matched excluded ->
        matched = 0 /\ excluded = scanned
        /\ exists db_data db data all_rows,
             db_file = Some db_data /\ load db_data = Ok db
             /\ positions_file = Some data /\ compute data rate = Ok all_rows
             /\ scanned = Z.of_nat (List.length all_rows)
             /\ Forall (fun r => is_exit_tax db (JStr (isin r)) = false) all_rows).
Proof.
  split; [reflexivity|split].
  - intros db_data db positions_file rate Hload Hids.
    destruct (RegistryMore.load_registry_of repr_other _ _ Hload) as [_ Hin].
    assert (Hkeys : PyDict.keys db = []).
    { destruct (PyDict.keys db) as [|k ks] eqn:E; [reflexivity|].
      assert (Hk : In k (k :: ks)) by now left.
      apply Hin in Hk as [[]|[Hne Hk]].
      rewrite Forall_forall in Hids. now elim Hne; apply Hids. }
    unfold Cli.exit_tax. rewrite Hload.
    replace (InstrumentDB.count db) with 0; [reflexivity|].
    unfold InstrumentDB.count. unfold PyDict.keys in Hkeys.
    apply (f_equal (@List.length string)) in Hkeys. rewrite length_map in Hkeys.
    now rewrite Hkeys.
  - intros db_file positions_file rate scanned matched excluded H.
    apply exit_tax_outcome_inv in H
      as (db_data & db & data & all_rows & Hdb & Hload & Hpos & Hrows
          & Hscanned & Hm & Hmatched & Hexcl).
    split; [exact Hmatched|]. split; [exact Hexcl|].
    exists db_data, db, data, all_rows. repeat split; try assumption.
    rewrite Forall_forall. intros r Hin.
    destruct (is_exit_tax db (JStr (isin r))) eqn:E; [|reflexivity].
    assert (Hr : In r (matched_rows db all_rows)).
    { unfold Cli.matched_rows. apply filter_In. now split. }
    rewrite Hm in Hr. destruct Hr.
Qed.

(** X18. The sample of [debug-db] has one entry for each of the first five
    rows; the ISIN it shows is in normalized form, the flag beside it is
    what the registry answers for that very ISIN, a flag that is set means
    the ISIN is a key of the registry, and without a registry every flag
    is unset. *)
Theorem debug_sample_consistent (db : InstrumentDB.registry) (rows : list ExitTaxRow) :
  List.length (Cli.positions_isin_sample repr_other (Some db) rows)
  = Nat.min 5 (List.length rows)
  /\ Forall (fun entry =>
               InstrumentDB.normalize_isin repr_other (JStr (fst entry)) = fst entry
               /\ snd entry = is_exit_tax db (JStr (fst entry))
               /\ (snd entry = true -> In (fst entry) (PyDict.keys db)))
       (Cli.positions_isin_sample repr_other (Some db) rows)
  /\ Forall (fun entry => snd entry = false)
       (Cli.positions_isin_sample repr_other None rows).
Proof.
  unfold Cli.positions_isin_sample. split; [|split].
  - now rewrite length_map, length_firstn.
  - apply Forall_map. apply Forall_forall. intros r _. cbn [fst snd].
    pose proof (RegistryFacts.normalize_isin_fixed repr_other (JStr (isin r))) as Hfix.
    split; [exact Hfix|]. split.
    + symmetry. now apply RegistryMore.is_exit_tax_by_key.
    + unfold InstrumentDB.is_exit_tax.
      destruct (PyStr.nonempty _); cbn [negb]; [|discriminate].
      destruct (PyDict.get db _) as [rec|] eqn:G; [|discriminate].
      intros _. eapply DictFacts.get_some_in_keys; eassumption.
  - apply Forall_map. apply Forall_forall. intros r _. reflexivity.
Qed.

End WithRuntime.

End CliFacts.


(** ** Closed examples for the further properties *)

Module MoreExamples.

Import Calendar.

Local Notation run_row :=
  (ExitTax.exit_tax_row Examples.no_repr Examples.no_float_text IsoFormat.scan
     Examples.noon_2026).
Local Notation run_snapshot_row :=
  (Snapshot.snapshot_row Examples.no_repr Examples.no_float_text).
Local Notation run_exit_tax :=
  (Cli.exit_tax Examples.no_repr Examples.no_float_text IsoFormat.scan
     Examples.noon_2026).

Definition num (n : Z) : float := ExitTaxFacts.float_of_Z n.

(** The snapshot row of the scenario position. *)
Definition scenario_snapshot : Snapshot.SnapshotRow :=
  Snapshot.mkSnapshotRow "VWCE" "IE00BK5BQT80" "Vanguard FTSE All-World" "EUR"
    (num 10) None None (Some (num 1000)) (Some (num 1500)) None.

(** A share quoted in dollars and held in a euro account. *)
Definition dollar_share_items : list (string * json) :=
  [("instrument", JDict [("ticker", JStr "AAPL"); ("isin", JStr "us0378331005 ");
                         ("name", JStr "Apple"); ("currency", JStr "USD")]);
   ("walletImpact", JDict [("currency", JStr "EUR"); ("totalCost", JInt 300);
                           ("currentValue", JInt 450)]);
   ("createdAt", JStr "2021-03-01T09:00:00Z")].

Definition dollar_share_row : ExitTax.ExitTaxRow :=
  ExitTax.mkExitTaxRow "AAPL" "us0378331005 " "Apple" "EUR"
    (mkDatetime (mkDate 2021 3 1) 9 0 0 0 (Some 0)) (mkDate 2029 3 1)
    (num 300) (num 450) (num 150) (num 150) (num 57).

Definition dollar_share_snapshot : Snapshot.SnapshotRow :=
  Snapshot.mkSnapshotRow "AAPL" "us0378331005 " "Apple" "USD"
    PyFloat.zero None None (Some (num 300)) (Some (num 450)) None.

(** A position that has no wallet data. *)
Definition bare_items : list (string * json) :=
  [("instrument", JDict [("ticker", JStr "VWCE"); ("isin", JStr "IE00BK5BQT80")]);
   ("walletImpact", JNull);
   ("createdAt", JStr "2020-05-11")].

Definition registry_file : json :=
  JDict [("ie00 bk5b qt80", JStr "etf"); ("US0378331005", JStr "EQUITY")].

Definition positions_file : json :=
  JList [JDict dollar_share_items; ExitTaxFacts.scenario_position].

Example dollar_share_rows :
  run_row ExitTaxFacts.rate_038 0 (JDict dollar_share_items) = Ok dollar_share_row
  /\ run_snapshot_row (JDict dollar_share_items) = Ok dollar_share_snapshot.
Proof. split; reflexivity. Qed.

Lemma rows_agree_witness :
  ExitTax.ticker ExitTaxFacts.scenario_row = Snapshot.ticker scenario_snapshot
  /\ ExitTax.isin ExitTaxFacts.scenario_row = Snapshot.isin scenario_snapshot
  /\ ExitTax.unrealised_pl ExitTaxFacts.scenario_row = num 500.
Proof.
  destruct (RowsCompared.rows_agree Examples.no_repr Examples.no_float_text
              IsoFormat.scan Examples.noon_2026 ExitTaxFacts.rate_038 0
              ExitTaxFacts.scenario_position ExitTaxFacts.scenario_row
              scenario_snapshot eq_refl eq_refl)
    as (Ht & Hi & _ & _ & _ & Hpl).
  split; [exact Ht|]. split; [exact Hi|]. exact Hpl.
Defined.

Lemma currency_precedence_witness :
  ExitTax.currency dollar_share_row = "EUR"
  /\ Snapshot.currency dollar_share_snapshot = "USD".
Proof.
  destruct (RowsCompared.currency_precedence Examples.no_repr Examples.no_float_text
              IsoFormat.scan Examples.noon_2026 ExitTaxFacts.rate_038 0
              dollar_share_items _ _ "USD" "EUR" dollar_share_row
              dollar_share_snapshot eq_refl eq_refl eq_refl eq_refl eq_refl eq_refl)
    as (Hr & Hs & _).
  split; [exact Hr|exact Hs].
Defined.

Lemma position_without_wallet_witness :
  exists r s,
    run_row ExitTaxFacts.rate_038 0 (JDict bare_items) = Ok r
    /\ run_snapshot_row (JDict bare_items) = Ok s
    /\ ExitTax.taxable_gain_today r = PyFloat.zero
    /\ Snapshot.total_cost s = None.
Proof.
  eexists. eexists. split; [reflexivity|]. split; [reflexivity|].
  destruct (RowsCompared.position_without_wallet Examples.no_repr
              Examples.no_float_text IsoFormat.scan Examples.noon_2026
              ExitTaxFacts.rate_038 0 bare_items _ _ eq_refl eq_refl eq_refl)
    as [(_ & _ & _ & Hgain) (Htc & _)].
  split; [exact Hgain|exact Htc].
Defined.

Lemma load_positions_rows_witness :
  exists rows,
    Snapshot.load_positions Examples.no_repr Examples.no_float_text positions_file
    = Ok rows
    /\ List.length rows = 2%nat.
Proof.
  destruct (proj2 (proj2 (SnapshotMore.load_positions_rows Examples.no_repr
                            Examples.no_float_text))
              [JDict dollar_share_items; ExitTaxFacts.scenario_position])
    as (rows & Hrows & _ & Hlen).
  - repeat constructor.
  - exists rows. split; [exact Hrows|exact Hlen].
Defined.

Lemma snapshot_lines_witness :
  exists rows body,
    Snapshot.load_positions Examples.no_repr Examples.no_float_text positions_file
    = Ok rows
    /\ Snapshot.write_snapshot_csv rows = Ok (Snapshot.header :: body)
    /\ List.length body = 2%nat.
Proof.
  destruct (SnapshotMore.snapshot_lines Examples.no_repr Examples.no_float_text
              [JDict dollar_share_items; ExitTaxFacts.scenario_position])
    as (rows & body & Hrows & Hlines & Heach & _).
  - repeat constructor.
  - exists rows, body. split; [exact Hrows|]. split; [exact Hlines|].
    symmetry. exact (Forall2_length Heach).
Defined.

Example exit_tax_command_run :
  run_exit_tax (Some registry_file) (Some positions_file) ExitTaxFacts.rate_038
  = Cli.ExitTaxReport 2 1 1 [ExitTaxFacts.scenario_row] (num 190).
Proof. reflexivity. Qed.

Lemma exit_tax_report_witness :
  exists db all_rows,
    InstrumentDB.load Examples.no_repr registry_file = Ok db
    /\ Examples.compute positions_file ExitTaxFacts.rate_038 = Ok all_rows
    /\ [ExitTaxFacts.scenario_row]
       = filter (fun r => InstrumentDB.is_exit_tax Examples.no_repr db
                            (JStr (ExitTax.isin r))) all_rows
    /\ 2 = 1 + 1.
Proof.
  destruct (CliFacts.exit_tax_report Examples.no_repr Examples.no_float_text
              IsoFormat.scan Examples.noon_2026 (Some registry_file)
              (Some positions_file) ExitTaxFacts.rate_038 2 1 1
              [ExitTaxFacts.scenario_row] (num 190) eq_refl)
    as (db_data & db & data & all_rows & Hdb & Hload & Hpos & Hrows & Hm & _
        & _ & _ & Hsum & _).
  injection Hdb as <-. injection Hpos as <-.
  exists db, all_rows. split; [exact Hload|]. split; [exact Hrows|].
  split; [exact Hm|exact Hsum].
Defined.

Lemma total_tax_not_negative_witness :
  PyFloat.leb PyFloat.zero ExitTaxFacts.rate_038 = true
  /\ PyFloat.ltb (num 190) PyFloat.zero = false.
Proof.
  split; [reflexivity|].
  apply (CliFacts.total_tax_not_negative Examples.no_repr Examples.no_float_text
           IsoFormat.scan Examples.noon_2026 (Some registry_file)
           (Some positions_file) ExitTaxFacts.rate_038 2 1 1
           [ExitTaxFacts.scenario_row] (num 190)).
  - reflexivity.
  - reflexivity.
Defined.

Lemma exit_tax_nothing_to_report_witness :
  run_exit_tax (Some (JList [JDict [("foo", JStr "bar")]])) None ExitTaxFacts.rate_038
  = Cli.ExitTaxBadParameter Cli.InstrumentDbEmpty.
Proof.
  apply (proj1 (proj2 (CliFacts.exit_tax_nothing_to_report Examples.no_repr
                         Examples.no_float_text IsoFormat.scan Examples.noon_2026))
           (JList [JDict [("foo", JStr "bar")]]) []).
  - reflexivity.
  - repeat constructor.
Defined.

End MoreExamples.
